(** * Task-Manager backend: authorization and task-lifecycle core

    A shallow embedding of the Express/Mongoose handlers of
    [backend/middlewares/authMiddleware.js],
    [backend/controllers/TaskController.js] and
    [backend/models/TaskActivityModel.js], [backend/models/ProjectTaskModel.js].

    Conventions.
    - A Mongo collection is a finite map from [_id] to document.
    - A handler is a function from the store and the request to a reply and
      the store it leaves behind; a transaction that aborts leaves the store
      it started from.
    - [next(err)] and a [throw] caught by the handler's [catch] both end in
      [NextError]; [res.status(c).json(..)] ends in [Json].
    - What the handlers call into and this development does not open up
      (date parsing, token verification, the schemas of TaskModel.js,
      AssignedTaskModel.js and NotificationModel.js, the helper
      [arraysEqual]) is gathered in the record [Env]; every property is
      proved for every [Env]. *)

From Stdlib Require Import ZArith Ascii.
From stdpp Require Import base strings gmap list.


(** ** JavaScript values and helpers *)

(** A Mongo [ObjectId]; its [toString()] is injective, so two ids have the
    same string form exactly when they are equal. *)
Abbreviation ObjectId := N.

(** An id as it arrives in a request: [ObjectId.isValid] accepts it, and it
    then denotes an [ObjectId], or it does not.  The text of a rejected id is
    kept because the handlers test it for truthiness. *)
Inductive IdInput :=
| IdValid (o : ObjectId)
| IdInvalid (raw : string).

#[global] Instance IdInput_eq_dec : EqDecision IdInput.
Proof. solve_decision. Defined.

Definition ObjectId_isValid (i : IdInput) : bool :=
  match i with IdValid _ => true | IdInvalid _ => false end.

(** The [clientInfo] object of a request: each property may be missing. *)
Record ClientInput := {
  in_name : option string;
  in_phone : option string;
  in_address : option string
}.

#[global] Instance ClientInput_eq_dec : EqDecision ClientInput.
Proof. solve_decision. Defined.

(** The JSON values a request body carries. *)
Inductive Value :=
| VNull
| VStr (s : string)
| VArr (ids : list IdInput)
| VObj (o : ClientInput).

#[global] Instance Value_eq_dec : EqDecision Value.
Proof. solve_decision. Defined.

(** [!!v] in JavaScript: the empty string and [null] are falsy, arrays and
    objects are truthy. *)
Definition truthy (v : Value) : bool :=
  match v with
  | VNull => false
  | VStr s => negb (String.eqb s "")
  | VArr _ => true
  | VObj _ => true
  end.

Definition truthy_str (s : option string) : bool :=
  match s with Some s => negb (String.eqb s "") | None => false end.

Definition truthy_id (i : option IdInput) : bool :=
  match i with
  | Some (IdValid _) => true
  | Some (IdInvalid raw) => negb (String.eqb raw "")
  | None => false
  end.

(** [a || b] on possibly missing properties. *)
Definition or_else (v : option Value) (d : Value) : Value :=
  match v with
  | Some x => if truthy x then x else d
  | None => d
  end.

Definition is_space (c : ascii) : bool :=
  let n := nat_of_ascii c in
  (n =? 32)%nat || ((9 <=? n)%nat && (n <=? 13)%nat).

Fixpoint trim_start (l : list ascii) : list ascii :=
  match l with
  | c :: r => if is_space c then trim_start r else l
  | [] => []
  end.

(** [String.prototype.trim] *)
Definition trim (s : string) : string :=
  String.string_of_list_ascii
    (rev (trim_start (rev (trim_start (String.list_ascii_of_string s))))).

(** [String.prototype.startsWith] *)
Fixpoint startsWith (s p : string) : bool :=
  match p, s with
  | EmptyString, _ => true
  | String a p', String b s' => Ascii.eqb a b && startsWith s' p'
  | String _ _, EmptyString => false
  end.

Definition is_digit (c : ascii) : bool :=
  let n := nat_of_ascii c in (48 <=? n)%nat && (n <=? 57)%nat.

Fixpoint all_digits (s : string) : bool :=
  match s with
  | EmptyString => true
  | String c r => is_digit c && all_digits r
  end.

Fixpoint drop_str (n : nat) (s : string) : string :=
  match n, s with
  | O, _ => s
  | S n', String _ r => drop_str n' r
  | S _, EmptyString => EmptyString
  end.

(** ** Errors and replies *)

(** [new CustomError(message, statusCode, errorCode)] *)
Record CustomError := {
  message : string;
  statusCode : nat;
  errorCode : option string
}.

Inductive Thrown :=
| Custom (e : CustomError)
| ValidationError (model : string)
| CastError
| TypeError
| ReferenceError.

#[global] Instance CustomError_eq_dec : EqDecision CustomError.
Proof. solve_decision. Defined.
#[global] Instance Thrown_eq_dec : EqDecision Thrown.
Proof. solve_decision. Defined.

Definition customError (m : string) (c : nat) (code : string) : Thrown :=
  Custom {| message := m; statusCode := c; errorCode := Some code |}.

(** ** TaskActivityModel.js *)

(** Status transition rules *)
Definition validTransitions : list (string * list string) :=
  [ ("To Do", ["In Progress"; "Pending"]);
    ("In Progress", ["In Progress"; "Completed"; "Pending"]);
    ("Completed", ["Pending"; "In Progress"]);
    ("Pending", ["In Progress"; "Completed"]) ].

Definition Object_keys {A} (o : list (string * A)) : list string := o.*1.

(** The adjacency the table states: [to] is listed under [from]. *)
(** [o[key]] on an object literal *)
Fixpoint property {A} (key : string) (o : list (string * A)) : option A :=
  match o with
  | [] => None
  | (k, v) :: r => if String.eqb key k then Some v else property key r
  end.

Definition in_table (from to : string) : bool :=
  match property from validTransitions with
  | Some tos => bool_decide (to ∈ tos)
  | None => false
  end.

Record Attachment := {
  att_url : option string;
  att_public_id : option string;
  att_type : string
}.

Record TaskActivity := {
  act_task : option ObjectId;
  act_performedBy : option ObjectId;
  act_description : option string;
  statusChange_from : option string;
  statusChange_to : option string;
  act_attachments : list Attachment
}.

(** A [String] path with [enum]: an absent value passes, a present one has to
    be listed. *)
Definition enum_ok (values : list string) (v : option string) : bool :=
  match v with
  | None => true
  | Some s => bool_decide (s ∈ values)
  end.

(** A [String] path with [required]: absent and empty values fail. *)
Definition required_str (v : option string) : bool := truthy_str v.

Definition is_Some_b {A} (o : option A) : bool :=
  match o with Some _ => true | None => false end.

(** [statusChange: { from: {enum}, to: {enum, required} }] *)
Definition statusChange_valid (from to : option string) : bool :=
  enum_ok (Object_keys validTransitions) from
  && enum_ok (Object_keys validTransitions) to
  && required_str to.

(** Validation of a whole [taskActivitySchema] document ([description] is
    trimmed by its setter before it is measured). *)
Definition taskActivity_valid (a : TaskActivity) : bool :=
  is_Some_b (act_task a)
  && is_Some_b (act_performedBy a)
  && required_str (trim <$> act_description a)
  && bool_decide (String.length (trim (default "" (act_description a))) ≤ 500)%nat
  && statusChange_valid (statusChange_from a) (statusChange_to a)
  && forallb (λ t, bool_decide (att_type t ∈ ["image"; "video"; "pdf"]))
       (act_attachments a).

(** [TaskActivity.create(doc)]: the collection after the call, or the
    validation error. *)
Definition TaskActivity_create (log : list TaskActivity) (a : TaskActivity)
  : Thrown + list TaskActivity :=
  if taskActivity_valid a then inr (log ++ [a])
  else inl (ValidationError "TaskActivity").

(** ** Documents and the store *)

(** [role: { enum: ["SuperAdmin", "Manager", "User"] }] *)
Inductive Role := SuperAdmin | Manager | User.

#[global] Instance Role_eq_dec : EqDecision Role.
Proof. solve_decision. Defined.

Definition role_name (r : Role) : string :=
  match r with
  | SuperAdmin => "SuperAdmin"
  | Manager => "Manager"
  | User => "User"
  end.

Record CompanyDoc := {
  company_isActive : bool;
  subscription_status : string
}.

Record DepartmentDoc := {
  dept_company : ObjectId;
  dept_managers : list ObjectId;
  dept_isActive : bool
}.

Record UserDoc := {
  role : Role;
  user_company : ObjectId;
  user_department : ObjectId;
  isActive : bool;
  isVerified : bool
}.

Record ClientInfo := {
  client_name : string;
  client_phone : string;
  client_address : option string
}.

#[global] Instance ClientInfo_eq_dec : EqDecision ClientInfo.
Proof. solve_decision. Defined.

(** The two discriminators of [Task]: a document carries the extra path of
    its own variant and no other. *)
Inductive Variant :=
| AssignedTask (assignedTo : list ObjectId)
| ProjectTask (clientInfo : ClientInfo).

#[global] Instance Variant_eq_dec : EqDecision Variant.
Proof. solve_decision. Defined.

Record TaskDoc := {
  title : string;
  description : string;
  location : string;
  dueDate : Z;
  priority : string;
  status : string;
  createdBy : ObjectId;
  company : ObjectId;
  department : ObjectId;
  variant : Variant
}.

#[global] Instance TaskDoc_eq_dec : EqDecision TaskDoc.
Proof. solve_decision. Defined.

(** [task.taskType], the discriminator key *)
Definition taskType (t : TaskDoc) : string :=
  match variant t with
  | AssignedTask _ => "AssignedTask"
  | ProjectTask _ => "ProjectTask"
  end.

(** [task.assignedTo]: [undefined] on a [ProjectTask] *)
Definition assignedTo (t : TaskDoc) : option (list ObjectId) :=
  match variant t with
  | AssignedTask l => Some l
  | ProjectTask _ => None
  end.

Record Notification := {
  n_user : ObjectId;
  n_message : string;
  n_type : string;
  n_task : option ObjectId;
  n_company : ObjectId;
  n_department : ObjectId;
  linkedDocument : ObjectId;
  linkedDocumentType : string
}.

Record Db := {
  users : gmap N UserDoc;
  companies : gmap N CompanyDoc;
  departments : gmap N DepartmentDoc;
  tasks : gmap N TaskDoc;
  notifications : list Notification;
  activities : list TaskActivity
}.

(** Pushes over the realtime channel. *)
Inductive Emit :=
| emitToUser (userId : ObjectId) (event : string) (n : Notification)
| emitToManagers (userId : ObjectId) (event : string) (n : Notification).

(** [req.user] as [verifyJWT] attaches it: the user document with [company]
    and [department] populated. *)
Record ReqUser := {
  user_id : ObjectId;
  user_doc : UserDoc;
  company_doc : CompanyDoc;
  department_doc : DepartmentDoc
}.

Definition req_role (u : ReqUser) : Role := role (user_doc u).
Definition req_company (u : ReqUser) : ObjectId := user_company (user_doc u).
Definition req_department (u : ReqUser) : ObjectId :=
  user_department (user_doc u).

(** ** What the handlers call into *)

Inductive JwtResult :=
| Decoded (userId : ObjectId)
| TokenExpiredError
| JsonWebTokenError
| OtherJwtError.

Record Env := {
  (** [jwt.verify(token, process.env.JWT_ACCESS_SECRET)] *)
  jwt_verify : string → JwtResult;
  (** [new Date(v).getTime()], [None] for [NaN] *)
  newDate : Value → option Z;
  (** the cast of a string to an [ObjectId] path of a document, [None] when
      the string does not spell an id *)
  ObjectId_ofString : string → option ObjectId;
  (** the validators of the base [Task] and [AssignedTask] schemas, which
      TaskModel.js and AssignedTaskModel.js declare *)
  taskSchemaValid : TaskDoc → bool;
  (** the validators of the [Notification] schema *)
  notificationSchemaValid : Notification → bool;
  (** the helper [arraysEqual] that [updateTaskById] calls on two lists of id
      strings; TaskController.js neither defines nor imports it, so a call
      yields what the helper in scope returns, or throws (a ReferenceError
      when none is in scope) *)
  arraysEqual : list IdInput → list IdInput → Thrown + bool
}.

Inductive Reply (A : Type) :=
| Json (code : nat) (msg : string) (data : A)
| NextError (e : Thrown).
Arguments Json {A} code msg data.
Arguments NextError {A} e.

Record Result (A : Type) := {
  reply : Reply A;
  store : Db;
  emitted : list Emit
}.
Arguments reply {A} r.
Arguments store {A} r.
Arguments emitted {A} r.

(** A reply that leaves the store as it was and pushes nothing. *)
Definition fail {A} (db : Db) (e : Thrown) : Result A :=
  {| reply := NextError e; store := db; emitted := [] |}.

(** ** authMiddleware.js *)

Inductive Body :=
| EmptyBody
| Failure (msg error : string).

Inductive GuardResult :=
| Respond (code : nat) (body : Body)
| Proceed (user : ReqUser).

Definition authenticationError : GuardResult :=
  Respond 500
    (Failure "Internal server error during authentication"
       "AUTHENTICATION_ERROR").

(** The checks of [verifyJWT] on a user that was found.  A [company] or
    [department] reference that does not resolve is populated as [null];
    reading [isActive] from it throws, which the outer [catch] answers.
    The branch for a deactivated company returns [res.status(401).json({})];
    the [res.clearCookie] call written after that [return], with the message
    and the code COMPANY_DEACTIVATED among its options, is never run. *)
Definition checkAccount (db : Db) (userId : ObjectId) (u : UserDoc)
  : GuardResult :=
  if negb (isVerified u) then
    Respond 401 (Failure "User account is not verified" "ACCOUNT_NOT_VERIFIED")
  else if negb (isActive u) then
    Respond 401 (Failure "User account is deactivated" "USER_DEACTIVATED")
  else
    match companies db !! user_company u with
    | None => authenticationError
    | Some c =>
      if negb (company_isActive c) then
        Respond 401 EmptyBody
      else if negb (String.eqb (subscription_status c) "active") then
        Respond 403
          (Failure "Company subscription is not active" "SUBSCRIPTION_INACTIVE")
      else
        match departments db !! user_department u with
        | None => authenticationError
        | Some d =>
          if negb (dept_isActive d) then
            Respond 401
              (Failure "Department is deactivated" "DEPARTMENT_DEACTIVATED")
          else
            Proceed {| user_id := userId; user_doc := u;
                       company_doc := c; department_doc := d |}
        end
    end.

Definition verifyJWT (E : Env) (db : Db) (token : option string)
  : GuardResult :=
  match token with
  | None => Respond 401 (Failure "Access token is required" "UNAUTHORIZED")
  | Some tok =>
    if String.eqb tok "" then
      Respond 401 (Failure "Access token is required" "UNAUTHORIZED")
    else
      match jwt_verify E tok with
      | TokenExpiredError =>
        Respond 401 (Failure "Access token has expired" "TOKEN_EXPIRED")
      | JsonWebTokenError =>
        Respond 401 (Failure "Invalid access token" "INVALID_TOKEN")
      | OtherJwtError =>
        Respond 401
          (Failure "Token verification failed" "TOKEN_VERIFICATION_FAILED")
      | Decoded userId =>
        match users db !! userId with
        | None => Respond 401 (Failure "User not found" "USER_NOT_FOUND")
        | Some u => checkAccount db userId u
        end
      end
  end.

(** [authorizeRoles(allowedRoles)] on a request that carries [req.user] *)
Definition authorizeRoles (allowedRoles : list string) (u : ReqUser)
  : option Body :=
  if bool_decide (role_name (req_role u) ∈ allowedRoles) then None
  else
    Some (Failure
            ("Access denied. Required roles: "
               +:+ String.concat ", " allowedRoles)
            "INSUFFICIENT_PERMISSIONS").

(** ** Exceptions as values *)

#[global] Instance Thrown_bind : MBind (sum Thrown) :=
  λ A B f m, match m with inl e => inl e | inr a => f a end.
#[global] Instance Thrown_ret : MRet (sum Thrown) := λ A a, inr a.
#[global] Instance Thrown_fmap : FMap (sum Thrown) :=
  λ A B f m, match m with inl e => inl e | inr a => inr (f a) end.

Definition castId (i : IdInput) : Thrown + ObjectId :=
  match i with
  | IdValid o => inr o
  | IdInvalid _ => inl CastError
  end.

(** Casting an array of ids, as a query or a document path does. *)
Fixpoint castIds (l : list IdInput) : Thrown + list ObjectId :=
  match l with
  | [] => inr []
  | i :: r => o ← castId i; os ← castIds r; mret (o :: os)
  end.

(** [v.trim()] on a property that may hold anything *)
Definition trimValue (v : option Value) : Thrown + string :=
  match v with
  | Some (VStr s) => inr (trim s)
  | _ => inl TypeError
  end.

(** A [String] path set from a request value; anything but a string is
    reported when the document is validated. *)
Definition castString (model : string) (v : Value) : Thrown + string :=
  match v with
  | VStr s => inr s
  | _ => inl (ValidationError model)
  end.

(** ** Collections *)

Definition set_tasks (db : Db) (t : gmap N TaskDoc) : Db :=
  {| users := users db; companies := companies db;
     departments := departments db; tasks := t;
     notifications := notifications db; activities := activities db |}.

Definition set_notifications (db : Db) (n : list Notification) : Db :=
  {| users := users db; companies := companies db;
     departments := departments db; tasks := tasks db;
     notifications := n; activities := activities db |}.

(** [User.find({ _id: { $in: ids }, company, department, isActive: true })] *)
Definition find_assignees (db : Db) (user : ReqUser) (ids : list ObjectId)
  : list (ObjectId * UserDoc) :=
  filter (λ kv, kv.1 ∈ ids
                ∧ user_company kv.2 = req_company user
                ∧ user_department kv.2 = req_department user
                ∧ isActive kv.2 = true)
    (map_to_list (users db)).

(** [User.find({ company, department,
                 role: { $in: ["Manager", "SuperAdmin"] }, isActive: true })] *)
Definition find_managersAndAdmins (db : Db) (user : ReqUser)
  : list (ObjectId * UserDoc) :=
  filter (λ kv, user_company kv.2 = req_company user
                ∧ user_department kv.2 = req_department user
                ∧ role kv.2 ∈ [Manager; SuperAdmin]
                ∧ isActive kv.2 = true)
    (map_to_list (users db)).

(** [Notification.insertMany(docs, { session })] *)
Definition insertMany (E : Env) (docs : list Notification) (db : Db)
  : Thrown + Db :=
  if forallb (notificationSchemaValid E) docs
  then inr (set_notifications db (notifications db ++ docs))
  else inl (ValidationError "Notification").

(** ** ProjectTaskModel.js *)

(** [/^(09\d{8}|\+2519\d{8})$/.test(v)] *)
Definition phone_ok (v : string) : bool :=
  (startsWith v "09" && (String.length v =? 10)%nat && all_digits (drop_str 2 v))
  || (startsWith v "+2519" && (String.length v =? 13)%nat
      && all_digits (drop_str 5 v)).

Definition projectTask_valid (c : ClientInfo) : bool :=
  negb (String.eqb (client_name c) "")
  && negb (String.eqb (client_phone c) "")
  && phone_ok (client_phone c).

(** Pre-save hook to format client phone number *)
Definition formatPhone (isModified : bool) (c : ClientInfo) : ClientInfo :=
  if isModified && startsWith (client_phone c) "09" then
    {| client_name := client_name c;
       client_phone := "+2519" +:+ drop_str 2 (client_phone c);
       client_address := client_address c |}
  else c.

Definition with_variant (t : TaskDoc) (v : Variant) : TaskDoc :=
  {| title := title t; description := description t; location := location t;
     dueDate := dueDate t; priority := priority t; status := status t;
     createdBy := createdBy t; company := company t;
     department := department t; variant := v |}.

Definition preSave (phoneModified : bool) (t : TaskDoc) : TaskDoc :=
  match variant t with
  | ProjectTask c => with_variant t (ProjectTask (formatPhone phoneModified c))
  | AssignedTask _ => t
  end.

Definition variant_valid (t : TaskDoc) : bool :=
  match variant t with
  | ProjectTask c => projectTask_valid c
  | AssignedTask _ => true
  end.

(** [task.save({ session })] of the document with id [oid]: validation, then
    the pre-save hook, then the write. *)
Definition save (E : Env) (phoneModified : bool) (oid : ObjectId)
    (t : TaskDoc) (db : Db) : Thrown + (TaskDoc * Db) :=
  if taskSchemaValid E t && variant_valid t then
    let t' := preSave phoneModified t in
    inr (t', set_tasks db (<[oid := t']> (tasks db)))
  else inl (ValidationError "Task").

(** ** TaskController.js: createTask *)

Definition requiredFields (body : gmap string Value)
  : list (string * option Value) :=
  [ ("Task title", body !! "title");
    ("Task description", body !! "description");
    ("Due date", body !! "dueDate");
    ("Task type", body !! "taskType");
    ("Location", body !! "location") ].

(** [!value || (typeof value === "string" && !value.trim())] *)
Definition is_blank (v : option Value) : bool :=
  match v with
  | None => true
  | Some (VStr s) => negb (truthy (VStr s)) || negb (truthy (VStr (trim s)))
  | Some v => negb (truthy v)
  end.

Definition missingFields (body : gmap string Value) : list string :=
  (filter (λ kv, is_blank kv.2 = true) (requiredFields body)).*1.

(** PHASE 1: INPUT VALIDATION; the result is [dueDate]. *)
Definition validateInput (E : Env) (now : Z) (body : gmap string Value)
  : Thrown + Z :=
  if bool_decide (0 < length (missingFields body)) then
    inl (customError
           ("Missing required fields: "
              +:+ String.concat ", " (missingFields body))
           400 "MISSING_REQUIRED_FIELDS")
  else if negb (bool_decide (body !! "taskType"
                  ∈ [Some (VStr "AssignedTask"); Some (VStr "ProjectTask")]))
  then
    inl (customError
           "Task type must be either 'AssignedTask' or 'ProjectTask'"
           400 "INVALID_TASK_TYPE")
  else
    match newDate E (default VNull (body !! "dueDate")) with
    | None => inl (customError "Invalid due date format" 400 "INVALID_DUE_DATE")
    | Some d =>
      if (d <? now)%Z then
        inl (customError "Due date cannot be in the past" 400 "PAST_DUE_DATE")
      else inr d
    end.

(** PHASE 2: TASK TYPE SPECIFIC VALIDATION; the result is
    [notificationReceivers]. *)
Definition validateVariant (db : Db) (user : ReqUser)
    (body : gmap string Value) : Thrown + list ObjectId :=
  if bool_decide (body !! "taskType" = Some (VStr "AssignedTask")) then
    match body !! "assignedTo" with
    | Some (VArr (i :: l)) =>
      let assigned := i :: l in
      let invalidIds := filter (λ i, ObjectId_isValid i = false) assigned in
      if bool_decide (0 < length invalidIds) then
        inl (customError "Invalid user ID format" 400 "INVALID_USER_ID")
      else
        ids ← castIds assigned;
        let assignedUsers := find_assignees db user ids in
        if bool_decide (length assignedUsers ≠ length assigned) then
          inl (customError
                 "One or more assigned users not found or not in your department"
                 404 "INVALID_ASSIGNED_USERS")
        else
          mret (filter (λ o, o ≠ user_id user) assignedUsers.*1)
    | _ =>
      inl (customError "AssignedTask must have at least one assigned user"
             400 "MISSING_ASSIGNED_USERS")
    end
  else if bool_decide (body !! "taskType" = Some (VStr "ProjectTask")) then
    match body !! "clientInfo" with
    | Some (VObj c) =>
      if negb (truthy_str (in_name c)) || negb (truthy_str (in_phone c)) then
        inl (customError "Client name and phone are required for ProjectTask"
               400 "MISSING_CLIENT_DETAILS")
      else
        mret (filter (λ o, o ≠ user_id user)
                (find_managersAndAdmins db user).*1)
    | Some (VArr _) =>
      inl (customError "Client name and phone are required for ProjectTask"
             400 "MISSING_CLIENT_DETAILS")
    | _ =>
      inl (customError "ProjectTask must include client information"
             400 "MISSING_CLIENT_INFO")
    end
  else mret [].

(** The [clientInfo] literal handed to [new ProjectTask]. *)
Definition clientInfo_of (body : gmap string Value) : Thrown + ClientInfo :=
  match body !! "clientInfo" with
  | Some (VObj c) =>
    n ← trimValue (VStr <$> in_name c);
    p ← trimValue (VStr <$> in_phone c);
    mret {| client_name := n; client_phone := p;
            client_address :=
              if truthy_str (in_address c) then trim <$> in_address c
              else None |}
  | _ => inl TypeError
  end.

(** Steps 9 and 10: [baseTaskData] and the document built from it. *)
Definition prepareTask (user : ReqUser) (due : Z) (body : gmap string Value)
  : Thrown + TaskDoc :=
  t ← trimValue (body !! "title");
  d ← trimValue (body !! "description");
  l ← trimValue (body !! "location");
  let p := or_else (body !! "priority") (VStr "Medium") in
  let s := or_else (body !! "status") (VStr "To Do") in
  v ← (if bool_decide (body !! "taskType" = Some (VStr "AssignedTask")) then
         ids ← castIds (match body !! "assignedTo" with
                        | Some (VArr a) => a
                        | _ => []
                        end);
         mret (AssignedTask ids)
       else
         c ← clientInfo_of body; mret (ProjectTask c));
  p' ← castString "Task" p;
  s' ← castString "Task" s;
  mret {| title := t; description := d; location := l; dueDate := due;
          priority := p'; status := s';
          createdBy := user_id user; company := req_company user;
          department := req_department user; variant := v |}.

(** Step 11: the notification for one receiver. *)
Definition creationNotice (user : ReqUser) (oid : ObjectId) (t : TaskDoc)
    (userId : ObjectId) : Notification :=
  {| n_user := userId;
     n_message :=
       "New "
         +:+ (if String.eqb (taskType t) "AssignedTask" then "assigned"
              else "project")
         +:+ " task: " +:+ title t;
     n_type := "TaskAssignment";
     n_task := Some oid;
     n_company := req_company user;
     n_department := req_department user;
     linkedDocument := oid;
     linkedDocumentType := "Task" |}.

Definition creationEmit (t : TaskDoc) (n : Notification) : Emit :=
  if String.eqb (taskType t) "ProjectTask" then
    emitToManagers (n_user n) "New Project Task Created" n
  else emitToUser (n_user n) "New Task Assignment" n.

(** PHASE 3: TRANSACTIONAL CREATION.  [oid] is the [_id] the new document is
    given. *)
Definition transactionalCreation (E : Env) (oid : ObjectId) (db : Db)
    (user : ReqUser) (body : gmap string Value) (due : Z)
    (notificationReceivers : list ObjectId) : Result (ObjectId * TaskDoc) :=
  match
    (t ← prepareTask user due body;
     '(task, db1) ← save E true oid t db;
     let notifications := creationNotice user oid task <$> notificationReceivers in
     db2 ← (if bool_decide (0 < length notifications)
            then insertMany E notifications db1 else mret db1);
     mret (task, db2, notifications))
  with
  | inl e => fail db e
  | inr (task, db2, notifications) =>
    {| reply := Json 201 (taskType task +:+ " created successfully") (oid, task);
       store := db2;
       emitted := creationEmit task <$> notifications |}
  end.

Definition createTask (E : Env) (now : Z) (oid : ObjectId) (db : Db)
    (user : ReqUser) (body : gmap string Value) : Result (ObjectId * TaskDoc) :=
  match validateInput E now body with
  | inl e => fail db e
  | inr due =>
    match validateVariant db user body with
    | inl e => fail db e
    | inr notificationReceivers =>
      transactionalCreation E oid db user body due notificationReceivers
    end
  end.

(** ** TaskController.js: getAllTasks *)

(** [req.query] *)
Record ListQuery := {
  q_page : option nat;
  q_limit : option nat;
  q_status : option string;
  q_taskType : option string;
  q_departmentId : option IdInput
}.

(** The filter handed to [Task.paginate]. *)
Record TaskQuery := {
  query_company : ObjectId;
  query_department : ObjectId;
  query_status : option string;
  query_taskType : option string;
  query_assignedTo_in : option (list ObjectId)
}.

Definition opt_truthy (s : option string) : option string :=
  if truthy_str s then s else None.

Definition baseQuery (user : ReqUser) (q : ListQuery) : TaskQuery :=
  {| query_company := req_company user;
     query_department := req_department user;
     query_status := opt_truthy (q_status q);
     query_taskType := opt_truthy (q_taskType q);
     query_assignedTo_in := None |}.

(** Apply user role filter *)
Definition roleFilter (user : ReqUser) (query : TaskQuery) : TaskQuery :=
  if bool_decide (req_role user = User) then
    {| query_company := query_company query;
       query_department := query_department query;
       query_status := query_status query;
       query_taskType := Some "AssignedTask";
       query_assignedTo_in := Some [user_id user] |}
  else query.

Definition with_department (query : TaskQuery) (d : ObjectId) : TaskQuery :=
  {| query_company := query_company query;
     query_department := d;
     query_status := query_status query;
     query_taskType := query_taskType query;
     query_assignedTo_in := query_assignedTo_in query |}.

(** Apply department filter if provided *)
Definition departmentFilter (user : ReqUser) (departmentId : option IdInput)
    (query : TaskQuery) : Thrown + TaskQuery :=
  if truthy_id departmentId then
    match departmentId with
    | Some (IdValid d) =>
      if bool_decide (req_role user = SuperAdmin)
      then inr (with_department query d) else inr query
    | _ =>
      inl (customError "Invalid department ID format" 400
             "INVALID_DEPARTMENT_ID")
    end
  else inr query.

Definition buildQuery (user : ReqUser) (q : ListQuery) : Thrown + TaskQuery :=
  departmentFilter user (q_departmentId q) (roleFilter user (baseQuery user q)).

(** A condition of the filter that may be left out. *)
Definition opt_eqb (q : option string) (s : string) : bool :=
  match q with Some x => bool_decide (s = x) | None => true end.

(** A document matches a filter: equality on the scalar paths, and for
    [assignedTo: { $in: ids }] some element of the document's array is among
    [ids]. *)
Definition matchesb (query : TaskQuery) (t : TaskDoc) : bool :=
  bool_decide (company t = query_company query)
  && bool_decide (department t = query_department query)
  && opt_eqb (query_status query) (status t)
  && opt_eqb (query_taskType query) (taskType t)
  && match query_assignedTo_in query with
     | None => true
     | Some ids =>
       match assignedTo t with
       | Some l => bool_decide (Exists (λ x, x ∈ ids) l)
       | None => false
       end
     end.

Record Page := {
  docs : list (ObjectId * TaskDoc);
  page : nat;
  limit : nat;
  totalPages : nat;
  totalItems : nat
}.

(** [Task.paginate(query, { page, limit })] *)
Definition paginate (db : Db) (query : TaskQuery) (pg lim : nat) : Page :=
  let found := filter (λ kv, matchesb query kv.2 = true)
                 (map_to_list (tasks db)) in
  {| docs := take lim (drop ((pg - 1) * lim) found);
     page := pg;
     limit := lim;
     totalPages := (length found + lim - 1) / lim;
     totalItems := length found |}.

Definition getAllTasks (db : Db) (user : ReqUser) (q : ListQuery)
  : Result Page :=
  match buildQuery user q with
  | inl e => fail db e
  | inr query =>
    {| reply := Json 200 "Tasks retrieved successfully"
                  (paginate db query (default 1 (q_page q))
                     (default 10 (q_limit q)));
       store := db;
       emitted := [] |}
  end.

(** ** TaskController.js: getTaskById *)

(** [req.user.role === "User" && !task.assignedTo.includes(req.user._id)];
    reading [includes] from an [assignedTo] that is [undefined] throws. *)
Definition notAssignee (user : ReqUser) (task : TaskDoc) : Thrown + bool :=
  if bool_decide (req_role user = User) then
    match assignedTo task with
    | Some l => inr (negb (bool_decide (user_id user ∈ l)))
    | None => inl TypeError
    end
  else inr false.

Definition getTaskById (db : Db) (user : ReqUser) (taskId : IdInput)
  : Result (ObjectId * TaskDoc) :=
  match taskId with
  | IdInvalid _ =>
    fail db (customError "Invalid task ID format" 400 "INVALID_TASK_ID")
  | IdValid o =>
    match tasks db !! o with
    | None => fail db (customError "Task not found" 404 "TASK_NOT_FOUND")
    | Some task =>
      match notAssignee user task with
      | inl e => fail db e
      | inr true =>
        fail db (customError "You do not have permission to view this task"
                   403 "FORBIDDEN")
      | inr false =>
        {| reply := Json 200 "Task retrieved successfully" (o, task);
           store := db;
           emitted := [] |}
      end
    end
  end.

(** ** TaskController.js: updateTaskById *)

Definition with_title (t : TaskDoc) (s : string) : TaskDoc :=
  {| title := s; description := description t; location := location t;
     dueDate := dueDate t; priority := priority t; status := status t;
     createdBy := createdBy t; company := company t;
     department := department t; variant := variant t |}.

Definition with_description (t : TaskDoc) (s : string) : TaskDoc :=
  {| title := title t; description := s; location := location t;
     dueDate := dueDate t; priority := priority t; status := status t;
     createdBy := createdBy t; company := company t;
     department := department t; variant := variant t |}.

Definition with_location (t : TaskDoc) (s : string) : TaskDoc :=
  {| title := title t; description := description t; location := s;
     dueDate := dueDate t; priority := priority t; status := status t;
     createdBy := createdBy t; company := company t;
     department := department t; variant := variant t |}.

Definition with_dueDate (t : TaskDoc) (d : Z) : TaskDoc :=
  {| title := title t; description := description t; location := location t;
     dueDate := d; priority := priority t; status := status t;
     createdBy := createdBy t; company := company t;
     department := department t; variant := variant t |}.

Definition with_priority (t : TaskDoc) (s : string) : TaskDoc :=
  {| title := title t; description := description t; location := location t;
     dueDate := dueDate t; priority := s; status := status t;
     createdBy := createdBy t; company := company t;
     department := department t; variant := variant t |}.

Definition with_status (t : TaskDoc) (s : string) : TaskDoc :=
  {| title := title t; description := description t; location := location t;
     dueDate := dueDate t; priority := priority t; status := s;
     createdBy := createdBy t; company := company t;
     department := department t; variant := variant t |}.

Definition with_createdBy (t : TaskDoc) (o : ObjectId) : TaskDoc :=
  {| title := title t; description := description t; location := location t;
     dueDate := dueDate t; priority := priority t; status := status t;
     createdBy := o; company := company t;
     department := department t; variant := variant t |}.

Definition with_company (t : TaskDoc) (o : ObjectId) : TaskDoc :=
  {| title := title t; description := description t; location := location t;
     dueDate := dueDate t; priority := priority t; status := status t;
     createdBy := createdBy t; company := o;
     department := department t; variant := variant t |}.

Definition with_task_department (t : TaskDoc) (o : ObjectId) : TaskDoc :=
  {| title := title t; description := description t; location := location t;
     dueDate := dueDate t; priority := priority t; status := status t;
     createdBy := createdBy t; company := company t;
     department := o; variant := variant t |}.

(** The value of the nested path [clientInfo] set from a request object; the
    schema trims the three strings, and a missing [name] or [phone] is left
    empty for [required] to reject. *)
Definition clientInfo_set (c : ClientInput) : ClientInfo :=
  {| client_name := trim (default "" (in_name c));
     client_phone := trim (default "" (in_phone c));
     client_address := trim <$> in_address c |}.

(** [task[key] = v] on a hydrated document.  The result is the document and
    whether the cast went through; a failed cast leaves the path as it was
    and is reported by [save].  A value of another shape than the path's,
    [null] included, counts as a failed cast; a path the document's schema
    does not have is ignored. *)
Definition assign (E : Env) (key : string) (v : Value) (t : TaskDoc)
  : TaskDoc * bool :=
  let str (f : TaskDoc → string → TaskDoc) :=
    match v with VStr s => (f t s, true) | _ => (t, false) end in
  let ref (f : TaskDoc → ObjectId → TaskDoc) :=
    match v with
    | VStr s =>
      match ObjectId_ofString E s with
      | Some o => (f t o, true)
      | None => (t, false)
      end
    | _ => (t, false)
    end in
  if String.eqb key "title" then str with_title
  else if String.eqb key "description" then str with_description
  else if String.eqb key "location" then str with_location
  else if String.eqb key "priority" then str with_priority
  else if String.eqb key "status" then str with_status
  else if String.eqb key "dueDate" then
    match newDate E v with
    | Some d => (with_dueDate t d, true)
    | None => (t, false)
    end
  else if String.eqb key "createdBy" then ref with_createdBy
  else if String.eqb key "company" then ref with_company
  else if String.eqb key "department" then ref with_task_department
  else if String.eqb key "assignedTo" then
    match variant t, v with
    | AssignedTask _, VArr l =>
      match castIds l with
      | inr ids => (with_variant t (AssignedTask ids), true)
      | inl _ => (t, false)
      end
    | AssignedTask _, _ => (t, false)
    | ProjectTask _, _ => (t, true)
    end
  else if String.eqb key "clientInfo" then
    match variant t, v with
    | ProjectTask _, VObj c =>
      (with_variant t (ProjectTask (clientInfo_set c)), true)
    | ProjectTask _, _ => (t, false)
    | AssignedTask _, _ => (t, true)
    end
  else (t, true).

Definition protectedFields : list string :=
  ["taskType"; "createdBy"; "department"; "status"].

Definition allowedUpdates (task : TaskDoc) : list string :=
  ["title"; "description"; "location"; "dueDate"; "priority"]
  ++ (if String.eqb (taskType task) "AssignedTask" then ["assignedTo"] else [])
  ++ (if String.eqb (taskType task) "ProjectTask" then ["clientInfo"] else []).

(** [protectedFields.forEach((field) => delete updateData[field])] *)
Definition stripProtected (updateData : gmap string Value)
  : gmap string Value :=
  foldl (λ m field, delete field m) updateData protectedFields.

(** The document in the handler's hands while the changes are applied. *)
Record Draft := {
  doc : TaskDoc;
  castFailed : bool;
  hasAssignedToChange : bool
}.

(** [id.toString()] over an array of ids *)
Definition idStrings (l : list ObjectId) : list IdInput := IdValid <$> l.

(** One round of "Apply updates and track changes". *)
Definition applyKey (E : Env) (allowed : list string) (st : Thrown + Draft)
    (kv : string * Value) : Thrown + Draft :=
  d ← st;
  if bool_decide (kv.1 ∈ allowed) then
    chg ← (if String.eqb kv.1 "assignedTo" then
             match kv.2, assignedTo (doc d) with
             | VArr newAssignees, Some old =>
               negb <$> arraysEqual E newAssignees (idStrings old)
             | _, _ => inl TypeError
             end
           else inr (hasAssignedToChange d));
    let r := assign E kv.1 kv.2 (doc d) in
    mret {| doc := r.1;
            castFailed := castFailed d || negb r.2;
            hasAssignedToChange := chg |}
  else mret d.

(** [Object.keys(updateData).forEach(..)]; every key writes its own path, so
    the order in which the keys are visited does not show in the result. *)
Definition applyUpdates (E : Env) (task : TaskDoc)
    (updateData : gmap string Value) : Thrown + Draft :=
  foldl (applyKey E (allowedUpdates task))
    (inr {| doc := task; castFailed := false; hasAssignedToChange := false |})
    (map_to_list updateData).

(** Validate assignedTo users:
    [User.countDocuments({ _id: { $in: .. }, company, department })] *)
Definition validateAssignedTo (db : Db) (user : ReqUser) (task : TaskDoc)
    (updateData : gmap string Value) : Thrown + unit :=
  if String.eqb (taskType task) "AssignedTask" then
    match updateData !! "assignedTo" with
    | Some (VArr l) =>
      ids ← castIds l;
      let validUsers :=
        length (filter (λ kv, kv.1 ∈ ids
                              ∧ user_company kv.2 = req_company user
                              ∧ user_department kv.2 = req_department user)
                  (map_to_list (users db))) in
      if bool_decide (validUsers ≠ length l) then
        inl (Custom {| message := "Invalid users in assignedTo list";
                       statusCode := 400; errorCode := None |})
      else mret ()
    | Some v => if truthy v then inl CastError else mret ()
    | None => mret ()
    end
  else mret ().

Definition clientInfoOf (t : TaskDoc) : option ClientInfo :=
  match variant t with
  | ProjectTask c => Some c
  | AssignedTask _ => None
  end.

(** [JSON.stringify(task[key]) !== JSON.stringify(originalTaskState[key])] *)
Definition pathChanged (key : string) (t orig : TaskDoc) : bool :=
  if String.eqb key "title" then bool_decide (title t ≠ title orig)
  else if String.eqb key "description" then
    bool_decide (description t ≠ description orig)
  else if String.eqb key "location" then
    bool_decide (location t ≠ location orig)
  else if String.eqb key "dueDate" then
    bool_decide (dueDate t ≠ dueDate orig)
  else if String.eqb key "priority" then
    bool_decide (priority t ≠ priority orig)
  else if String.eqb key "assignedTo" then
    bool_decide (assignedTo t ≠ assignedTo orig)
  else if String.eqb key "clientInfo" then
    bool_decide (clientInfoOf t ≠ clientInfoOf orig)
  else false.

(** "Get changed fields" and "Special handling for assignedTo" *)
Definition changedFields (E : Env) (orig t : TaskDoc)
    (updateData : gmap string Value) : Thrown + list string :=
  let changed :=
    filter (λ key, key ∈ allowedUpdates orig ∧ pathChanged key t orig = true)
      (map_to_list updateData).*1 in
  if String.eqb (taskType t) "AssignedTask" then
    same ← arraysEqual E (idStrings (default [] (assignedTo t)))
             (idStrings (default [] (assignedTo orig)));
    mret (if negb same && negb (bool_decide ("assignedTo" ∈ changed))
          then changed ++ ["assignedTo"] else changed)
  else mret changed.

Definition updateNotice (user : ReqUser) (oid : ObjectId) (msg : string)
    (userId : ObjectId) : Notification :=
  {| n_user := userId;
     n_message := msg;
     n_type := "TaskUpdate";
     n_task := None;
     n_company := req_company user;
     n_department := req_department user;
     linkedDocument := oid;
     linkedDocumentType := "Task" |}.

Definition importantFields : list string :=
  ["title"; "dueDate"; "priority"; "companyInfo"].

(** [User.find({ company, department,
                 role: { $in: ["Manager", "SuperAdmin"] },
                 _id: { $ne: user._id } })] *)
Definition find_leaders (db : Db) (user : ReqUser)
  : list (ObjectId * UserDoc) :=
  filter (λ kv, user_company kv.2 = req_company user
                ∧ user_department kv.2 = req_department user
                ∧ role kv.2 ∈ [Manager; SuperAdmin]
                ∧ kv.1 ≠ user_id user)
    (map_to_list (users db)).

(** "Notification logic": the records an update gives rise to. *)
Definition updateNotifications (db : Db) (user : ReqUser) (oid : ObjectId)
    (orig task : TaskDoc) (changed : list string) (assignedToChange : bool)
  : list Notification :=
  let originalAssignedTo := default [] (assignedTo orig) in
  let currentAssignedTo := default [] (assignedTo task) in
  let isCreator := bool_decide (createdBy orig = user_id user) in
  let forNew :=
    if String.eqb (taskType task) "AssignedTask" && assignedToChange then
      updateNotice user oid ("Assigned to task: " +:+ title task)
        <$> filter (λ id, id ∉ originalAssignedTo) currentAssignedTo
    else [] in
  let hasImportantChange :=
    existsb (λ f, bool_decide (f ∈ importantFields)) changed
    || assignedToChange in
  let forChange :=
    if hasImportantChange then
      (if isCreator then []
       else [updateNotice user oid ("Task updated: " +:+ title task)
               (createdBy task)])
      ++ (if String.eqb (taskType task) "AssignedTask" then
            updateNotice user oid ("Task modified: " +:+ title task)
              <$> filter (λ id, id ≠ user_id user) originalAssignedTo
          else [])
      ++ (if String.eqb (taskType task) "ProjectTask" then
            updateNotice user oid ("Project task updated: " +:+ title task)
              <$> (find_leaders db user).*1
          else [])
    else [] in
  forNew ++ forChange.

(** The body of the [try] once the caller is authorized. *)
Definition updateTransaction (E : Env) (db : Db) (user : ReqUser)
    (oid : ObjectId) (task : TaskDoc) (body : gmap string Value)
  : Result (ObjectId * TaskDoc) :=
  let updateData := stripProtected body in
  match
    (d ← applyUpdates E task updateData;
     _ ← validateAssignedTo db user task updateData;
     changed ← changedFields E task (doc d) updateData;
     '(saved, db1) ←
        (if castFailed d then inl (ValidationError "Task")
         else save E (bool_decide (client_phone <$> clientInfoOf (doc d)
                                   ≠ client_phone <$> clientInfoOf task))
                oid (doc d) db);
     let notifications :=
       updateNotifications db1 user oid task saved changed
         (hasAssignedToChange d) in
     db2 ← (if bool_decide (0 < length notifications)
            then insertMany E notifications db1 else mret db1);
     mret (saved, db2, notifications))
  with
  | inl e => fail db e
  | inr (saved, db2, notifications) =>
    {| reply := Json 200 "Task updated successfully" (oid, saved);
       store := db2;
       emitted := (λ n, emitToUser (n_user n) "notification-update" n)
                    <$> notifications |}
  end.

(** Authorization check *)
Definition mayUpdate (user : ReqUser) (task : TaskDoc) : bool :=
  let isCreator := bool_decide (createdBy task = user_id user) in
  let isManagerPlus :=
    bool_decide (role_name (req_role user) ∈ ["SuperAdmin"; "Manager"]) in
  let validDepartment :=
    bool_decide (department task = req_department user) in
  isCreator || (isManagerPlus && validDepartment).

Definition updateTaskById (E : Env) (db : Db) (user : ReqUser)
    (taskId : IdInput) (body : gmap string Value)
  : Result (ObjectId * TaskDoc) :=
  match taskId with
  | IdInvalid _ =>
    fail db (customError "Invalid task ID format" 400 "INVALID_TASK_ID")
  | IdValid oid =>
    if bool_decide (req_role user = User) then
      fail db (customError "You do not have permission to update this task"
                 403 "PERMISSION_DENIED")
    else
      match tasks db !! oid with
      | None => fail db (customError "Task not found" 404 "TASK_NOT_FOUND")
      | Some task =>
        if negb (mayUpdate user task) then
          fail db (customError "Not authorized to update this task"
                     403 "PERMISSION_DENIED")
        else updateTransaction E db user oid task body
      end
  end.

(** ** authMiddleware.js: the access guards *)

(** A property of [req.body] as a guard finds it: the JSON value the client
    sent, or the [ObjectId] that [verifyCompanyAccess] wrote there. *)
Inductive Field :=
| Sent (v : Value)
| Written (o : ObjectId).

#[global] Instance Field_eq_dec : EqDecision Field.
Proof. solve_decision. Defined.

(** [req], as far as the guards and the routes read it.  Route parameters
    and the query properties that name a company or a department are strings
    of the URL; [req_list] holds the properties of [req.query] that
    [getAllTasks] destructures. *)
Record Request := {
  cookie_access_token : option string;
  cookie_refresh_token : option string;
  req_params : gmap string IdInput;
  req_query : gmap string IdInput;
  req_list : ListQuery;
  req_body : gmap string Field;
  req_resourceDepartment : option (ObjectId * DepartmentDoc)
}.

Definition with_body (req : Request) (b : gmap string Field) : Request :=
  {| cookie_access_token := cookie_access_token req;
     cookie_refresh_token := cookie_refresh_token req;
     req_params := req_params req; req_query := req_query req;
     req_list := req_list req; req_body := b;
     req_resourceDepartment := req_resourceDepartment req |}.

Definition with_resourceDepartment (req : Request)
    (d : ObjectId * DepartmentDoc) : Request :=
  {| cookie_access_token := cookie_access_token req;
     cookie_refresh_token := cookie_refresh_token req;
     req_params := req_params req; req_query := req_query req;
     req_list := req_list req; req_body := req_body req;
     req_resourceDepartment := Some d |}.

(** What a guard does with a request: it answers it, or hands on what it
    made of it. *)
Inductive Guarded (A : Type) :=
| Refused (code : nat) (b : Body)
| Passed (a : A).
Arguments Refused {A} code b.
Arguments Passed {A} a.

#[global] Instance Guarded_bind : MBind Guarded :=
  λ A B f m, match m with Refused c b => Refused c b | Passed a => f a end.
#[global] Instance Guarded_ret : MRet Guarded := λ A a, Passed a.

Definition truthy_field (f : option Field) : bool :=
  match f with
  | Some (Sent v) => truthy v
  | Some (Written _) => true
  | None => false
  end.

(** The id of a resource as a guard holds it: a string of the URL, or a
    property of the body. *)
Inductive Ref :=
| FromUrl (i : IdInput)
| FromBody (f : Field).

(** The three places a guard looks in, in the order it visits them: each
    one that is truthy overwrites what an earlier one gave. *)
Definition resourceId (fromParams : option IdInput) (fromBody : option Field)
    (fromQuery : option IdInput) : option Ref :=
  let r : option Ref := None in
  let r := if truthy_id fromParams then FromUrl <$> fromParams else r in
  let r := if truthy_field fromBody then FromBody <$> fromBody else r in
  if truthy_id fromQuery then FromUrl <$> fromQuery else r.

(** [o.equals(r)]: a string is compared as the id it spells, and anything
    that is neither a string nor an id is unequal. *)
Definition equals (E : Env) (o : ObjectId) (r : Ref) : bool :=
  match r with
  | FromUrl (IdValid o') => bool_decide (o = o')
  | FromUrl (IdInvalid _) => false
  | FromBody (Sent (VStr s)) => bool_decide (ObjectId_ofString E s = Some o)
  | FromBody (Sent _) => false
  | FromBody (Written o') => bool_decide (o = o')
  end.

(** The cast that [Model.findById(r)] makes of its argument. *)
Definition castRef (E : Env) (r : Ref) : Thrown + ObjectId :=
  match r with
  | FromUrl i => castId i
  | FromBody (Sent (VStr s)) =>
    match ObjectId_ofString E s with
    | Some o => inr o
    | None => inl CastError
    end
  | FromBody (Sent _) => inl CastError
  | FromBody (Written o) => inr o
  end.

Definition authenticationRequired {A} : Guarded A :=
  Refused 401 (Failure "Authentication required" "AUTHENTICATION_REQUIRED").

(** "Extract company ID from various sources" *)
Definition resourceCompanyId (req : Request) : option Ref :=
  resourceId (req_params req !! "companyId") (req_body req !! "company")
    (req_query req !! "company").

(** "Extract department ID from various sources" *)
Definition resourceDepartmentId (req : Request) : option Ref :=
  resourceId (req_params req !! "departmentId")
    (req_body req !! "department") (req_query req !! "department").

(** [req.params.userId || req.body.userId], when it is truthy *)
Definition targetUserId (req : Request) : option Ref :=
  if truthy_id (req_params req !! "userId")
  then FromUrl <$> (req_params req !! "userId")
  else if truthy_field (req_body req !! "userId")
       then FromBody <$> (req_body req !! "userId")
       else None.

(** Verify company access for resources.  [user] is [req.user]. *)
Definition verifyCompanyAccess (E : Env) (user : option ReqUser)
    (req : Request) : Guarded Request :=
  match user with
  | None => authenticationRequired
  | Some u =>
    match resourceCompanyId req with
    | None =>
      Passed (with_body req
                (<["company" := Written (req_company u)]> (req_body req)))
    | Some r =>
      if negb (equals E (req_company u) r) then
        Refused 403
          (Failure "Access denied to resources from different company"
             "CROSS_COMPANY_ACCESS_DENIED")
      else Passed req
    end
  end.

(** [Department.find({ company, managers: { $in: [user._id] } })] *)
Definition managedDepartments (db : Db) (u : ReqUser)
  : list (ObjectId * DepartmentDoc) :=
  filter (λ kv, dept_company kv.2 = req_company u
                ∧ Exists (λ m, m ∈ [user_id u]) (dept_managers kv.2))
    (map_to_list (departments db)).

(** Verify department access for resources.  A query that throws is
    answered by the guard's [catch]. *)
Definition verifyDepartmentAccess (E : Env) (db : Db) (user : option ReqUser)
    (req : Request) : Guarded Request :=
  match user with
  | None => authenticationRequired
  | Some u =>
    if bool_decide (req_role u = SuperAdmin) then Passed req
    else
      match resourceDepartmentId req with
      | None => Passed req
      | Some r =>
        match castRef E r with
        | inl _ =>
          Refused 500
            (Failure
               "Internal server error during department access verification"
               "DEPARTMENT_ACCESS_ERROR")
        | inr d =>
          match departments db !! d with
          | None =>
            Refused 404 (Failure "Department not found" "DEPARTMENT_NOT_FOUND")
          | Some department =>
            if negb (bool_decide (dept_company department = req_company u))
            then
              Refused 403
                (Failure "Access denied to department from different company"
                   "CROSS_COMPANY_ACCESS_DENIED")
            else
              let attached := with_resourceDepartment req (d, department) in
              match req_role u with
              | Manager =>
                let canAccess :=
                  equals E (req_department u) r
                  || existsb (λ dept, equals E dept.1 r)
                       (managedDepartments db u) in
                if negb canAccess then
                  Refused 403
                    (Failure "Access denied to this department"
                       "DEPARTMENT_ACCESS_DENIED")
                else Passed attached
              | User =>
                if negb (equals E (req_department u) r) then
                  Refused 403
                    (Failure "Access denied to department outside your scope"
                       "DEPARTMENT_ACCESS_DENIED")
                else Passed attached
              | SuperAdmin => Passed attached
              end
          end
        end
      end
  end.

(** Check if user can manage other users. *)
Definition canManageUsers (E : Env) (db : Db) (user : option ReqUser)
    (req : Request) : Guarded Request :=
  match user with
  | None => authenticationRequired
  | Some u =>
    match req_role u with
    | SuperAdmin => Passed req
    | Manager =>
      match targetUserId req with
      | None => Passed req
      | Some target =>
        match castRef E target with
        | inl _ =>
          Refused 500
            (Failure
               "Internal server error during user management authorization"
               "USER_MANAGEMENT_ERROR")
        | inr t =>
          match users db !! t with
          | None =>
            Refused 404 (Failure "Target user not found" "USER_NOT_FOUND")
          | Some targetUser =>
            if negb (bool_decide (user_department targetUser
                                  = req_department u)) then
              Refused 403
                (Failure "Cannot manage users outside your department"
                   "DEPARTMENT_MANAGEMENT_DENIED")
            else if bool_decide (role_name (role targetUser)
                                 ∈ ["Manager"; "SuperAdmin"]) then
              Refused 403
                (Failure "Cannot manage users with equal or higher privileges"
                   "PRIVILEGE_MANAGEMENT_DENIED")
            else Passed req
          end
        end
      end
    | User =>
      Refused 403
        (Failure "Insufficient permissions to manage users"
           "USER_MANAGEMENT_DENIED")
    end
  end.

(** ** TaskRoutes.js *)

(** What a handler finds under a property of the body.  An [ObjectId] that a
    guard wrote is an object with none of the properties [name], [phone] and
    [address]. *)
Definition seen (f : Field) : Value :=
  match f with
  | Sent v => v
  | Written _ =>
    VObj {| in_name := None; in_phone := None; in_address := None |}
  end.

(** The four guards every task route runs before its handler:
    [verifyJWT, authorizeRoles(allowedRoles), verifyCompanyAccess,
    verifyDepartmentAccess].  The first attaches [req.user], which the
    others read. *)
Definition taskGuards (E : Env) (db : Db) (allowedRoles : list string)
    (req : Request) : Guarded (ReqUser * Request) :=
  match verifyJWT E db (cookie_access_token req) with
  | Respond code b => Refused code b
  | Proceed u =>
    match authorizeRoles allowedRoles u with
    | Some b => Refused 403 b
    | None =>
      req1 ← verifyCompanyAccess E (Some u) req;
      req2 ← verifyDepartmentAccess E db (Some u) req1;
      mret (u, req2)
    end
  end.

(** [req.params.taskId] *)
Definition taskIdOf (req : Request) : IdInput :=
  default (IdInvalid "") (req_params req !! "taskId").

(** [router.post("/", .., createTask)] *)
Definition router_post (E : Env) (now : Z) (oid : ObjectId) (db : Db)
    (req : Request) : Guarded (Result (ObjectId * TaskDoc)) :=
  '(u, r) ← taskGuards E db ["SuperAdmin"; "Manager"] req;
  mret (createTask E now oid db u (seen <$> req_body r)).

(** [router.get("/", .., getAllTasks)] *)
Definition router_get (E : Env) (db : Db) (req : Request)
  : Guarded (Result Page) :=
  '(u, r) ← taskGuards E db ["SuperAdmin"; "Manager"; "User"] req;
  mret (getAllTasks db u (req_list r)).

(** [router.get("/:taskId", .., getTaskById)] *)
Definition router_get_taskId (E : Env) (db : Db) (req : Request)
  : Guarded (Result (ObjectId * TaskDoc)) :=
  '(u, r) ← taskGuards E db ["SuperAdmin"; "Manager"; "User"] req;
  mret (getTaskById db u (taskIdOf r)).

(** [router.put("/:taskId", .., updateTaskById)] *)
Definition router_put_taskId (E : Env) (db : Db) (req : Request)
  : Guarded (Result (ObjectId * TaskDoc)) :=
  '(u, r) ← taskGuards E db ["SuperAdmin"; "Manager"] req;
  mret (updateTaskById E db u (taskIdOf r) (seen <$> req_body r)).

(** ** authController.js *)

(** *** Regular expressions *)

(** The regular expressions of the sources use classes, sequence, choice
    and repetition, anchored at both ends; [test] then says whether the
    whole string is in the language. *)
Inductive Regex :=
| Never
| Eps
| Class (p : ascii → bool)
| Cat (r s : Regex)
| Alt (r s : Regex)
| Star (r : Regex).

Fixpoint nullable (r : Regex) : bool :=
  match r with
  | Never => false
  | Eps => true
  | Class _ => false
  | Cat r s => nullable r && nullable s
  | Alt r s => nullable r || nullable s
  | Star _ => true
  end.

(** What is left of [r] after the character [c]. *)
Fixpoint deriv (c : ascii) (r : Regex) : Regex :=
  match r with
  | Never => Never
  | Eps => Never
  | Class p => if p c then Eps else Never
  | Cat r s =>
    if nullable r then Alt (Cat (deriv c r) s) (deriv c s)
    else Cat (deriv c r) s
  | Alt r s => Alt (deriv c r) (deriv c s)
  | Star r => Cat (deriv c r) (Star r)
  end.

(** [/^r$/.test(s)] *)
Fixpoint test (r : Regex) (s : string) : bool :=
  match s with
  | EmptyString => nullable r
  | String c s' => test (deriv c r) s'
  end.

Definition is_upper (c : ascii) : bool :=
  let n := nat_of_ascii c in (65 <=? n)%nat && (n <=? 90)%nat.

Definition is_lower (c : ascii) : bool :=
  let n := nat_of_ascii c in (97 <=? n)%nat && (n <=? 122)%nat.

(** [\w] *)
Definition is_word (c : ascii) : bool :=
  is_upper c || is_lower c || is_digit c || Ascii.eqb c "_".

Definition lit (c : ascii) : Regex := Class (Ascii.eqb c).
Definition plus (r : Regex) : Regex := Cat r (Star r).
Definition opt (r : Regex) : Regex := Alt r Eps.

(** [/^\w+([.-]?\w+)*@\w+([.-]?\w+)*(\.\w{2,3})+$/] *)
Definition emailRegex : Regex :=
  let w := Class is_word in
  let words := Cat (plus w) (Star (Cat (opt (Alt (lit ".") (lit "-"))) (plus w))) in
  Cat words
    (Cat (lit "@")
       (Cat words (plus (Cat (lit ".") (Cat w (Cat w (opt w))))))).

(** [String.prototype.toLowerCase], on the characters [emailRegex] lets
    through *)
Definition toLowerCase (s : string) : string :=
  String.string_of_list_ascii
    ((λ c, if is_upper c then ascii_of_nat (nat_of_ascii c + 32) else c)
       <$> String.list_ascii_of_string s).

(** *** Tokens and cookies *)

(** What the handlers call into: [jwt.verify] with the refresh secret, the
    helpers of utils/generateTokens.js, and [bcrypt.compare]. *)
Record Tokens := {
  jwt_verify_refresh : string → JwtResult;
  generateAccessToken : ObjectId → string;
  generateRefreshToken : ObjectId → string;
  bcrypt_compare : string → string → bool
}.

(** The paths of the user documents that only the login reads: [email],
    which the schema keeps unique and in lower case, and the [password]
    hash. *)
Record Accounts := {
  byEmail : gmap string ObjectId;
  passwordOf : gmap N string
}.

(** [res.cookie(name, value, options)] and [res.clearCookie(name, options)] *)
Inductive CookieOp :=
| cookie (name value : string)
| clearCookie (name : string).

#[global] Instance CookieOp_eq_dec : EqDecision CookieOp.
Proof. solve_decision. Defined.

(** What a handler of the auth routes leaves: its reply, and the cookies it
    set or cleared on the way. *)
Record Answer (A : Type) := {
  answer : Reply A;
  cookieOps : list CookieOp
}.
Arguments answer {A} a.
Arguments cookieOps {A} a.

(** [next(new CustomError(m, c, code))] after the cookie operations [ops] *)
Definition refuse {A} (ops : list CookieOp) (m : string) (c : nat)
    (code : string) : Answer A :=
  {| answer := NextError (customError m c code); cookieOps := ops |}.

(** *** loginUser *)

(** The credentials are taken as the strings a client sends, or missing. *)
Definition loginUser (T : Tokens) (db : Db) (accounts : Accounts)
    (email password : option string) : Answer ReqUser :=
  let loginError : Answer ReqUser :=
    refuse [] "Internal server error during login" 500 "LOGIN_ERROR" in
  let invalidCredentials : Answer ReqUser :=
    refuse [] "Invalid email or password" 401 "INVALID_CREDENTIALS" in
  match email, password with
  | Some email, Some password =>
    if negb (truthy_str (Some email)) || negb (truthy_str (Some password))
    then refuse [] "Email and password are required" 400 "MISSING_CREDENTIALS"
    else if negb (test emailRegex email) then
      refuse [] "Invalid email format" 400 "INVALID_EMAIL_FORMAT"
    else
      match byEmail accounts !! toLowerCase email with
      | None => invalidCredentials
      | Some userId =>
        match users db !! userId with
        | None => invalidCredentials
        | Some user =>
          match passwordOf accounts !! userId with
          | None => loginError
          | Some hash =>
            if negb (bcrypt_compare T password hash) then invalidCredentials
            else if negb (isActive user) then
              refuse [] "User account is deactivated" 401 "USER_DEACTIVATED"
            else
              match companies db !! user_company user with
              | None => loginError
              | Some c =>
                if negb (company_isActive c) then
                  refuse [] "Company account is deactivated" 401
                    "COMPANY_DEACTIVATED"
                else if negb (String.eqb (subscription_status c) "active")
                then
                  refuse [] "Company subscription is not active" 403
                    "SUBSCRIPTION_INACTIVE"
                else
                  match departments db !! user_department user with
                  | None => loginError
                  | Some d =>
                    if negb (dept_isActive d) then
                      refuse [] "Department is deactivated" 401
                        "DEPARTMENT_DEACTIVATED"
                    else
                      {| answer :=
                           Json 200 "Login successful"
                             {| user_id := userId; user_doc := user;
                                company_doc := c; department_doc := d |};
                         cookieOps :=
                           [ cookie "access_token"
                               (generateAccessToken T userId);
                             cookie "refresh_token"
                               (generateRefreshToken T userId) ] |}
                  end
              end
          end
        end
      end
  | _, _ => refuse [] "Email and password are required" 400 "MISSING_CREDENTIALS"
  end.

(** *** logoutUser *)

Definition logoutUser : Answer unit :=
  {| answer := Json 200 "Logout successful" ();
     cookieOps := [clearCookie "access_token"; clearCookie "refresh_token"] |}.

(** *** getRefreshToken *)

Definition getRefreshToken (T : Tokens) (db : Db) (req : Request)
  : Answer ReqUser :=
  let clear := [clearCookie "refresh_token"] in
  let tokenRefreshError : Answer ReqUser :=
    refuse [] "Internal server error during token refresh" 500
      "TOKEN_REFRESH_ERROR" in
  if negb (truthy_str (cookie_refresh_token req)) then
    refuse [] "Refresh token is required" 401 "MISSING_REFRESH_TOKEN"
  else
    match jwt_verify_refresh T (default "" (cookie_refresh_token req)) with
    | TokenExpiredError =>
      refuse clear "Refresh token has expired" 401 "REFRESH_TOKEN_EXPIRED"
    | JsonWebTokenError =>
      refuse clear "Invalid refresh token" 401 "INVALID_REFRESH_TOKEN"
    | OtherJwtError =>
      refuse clear "Refresh token verification failed" 401
        "REFRESH_TOKEN_VERIFICATION_FAILED"
    | Decoded userId =>
      match users db !! userId with
      | None => refuse clear "User not found" 401 "USER_NOT_FOUND"
      | Some user =>
        if negb (isVerified user) then
          refuse clear "User account is not verified" 401 "USER_NOT_VERIFIED"
        else if negb (isActive user) then
          refuse clear "User account is deactivated" 401 "USER_DEACTIVATED"
        else
          match companies db !! user_company user with
          | None => tokenRefreshError
          | Some c =>
            if negb (company_isActive c) then
              refuse clear "Company account is deactivated" 401
                "COMPANY_DEACTIVATED"
            else if negb (String.eqb (subscription_status c) "active") then
              refuse clear "Company subscription is not active" 403
                "SUBSCRIPTION_INACTIVE"
            else
              match departments db !! user_department user with
              | None => tokenRefreshError
              | Some d =>
                if negb (dept_isActive d) then
                  refuse clear "Department is deactivated" 401
                    "DEPARTMENT_DEACTIVATED"
                else
                  {| answer :=
                       Json 200 "Token refreshed successfully"
                         {| user_id := userId; user_doc := user;
                            company_doc := c; department_doc := d |};
                     cookieOps :=
                       [ cookie "access_token"
                           (generateAccessToken T userId) ] |}
              end
          end
      end
    end.

(** *** getCurrentUser *)

Definition getCurrentUser (user : ReqUser) : Answer ReqUser :=
  {| answer := Json 200 "User profile retrieved successfully" user;
     cookieOps := [] |}.

(** ** AuthRoutes.js *)

(** A handler behind [verifyJWT]. *)
Definition behindJWT {A} (E : Env) (db : Db) (req : Request)
    (handler : ReqUser → A) : Guarded A :=
  match verifyJWT E db (cookie_access_token req) with
  | Respond code b => Refused code b
  | Proceed u => Passed (handler u)
  end.

(** [router.delete("/logout", verifyJWT, logoutUser)] *)
Definition router_delete_logout (E : Env) (db : Db) (req : Request)
  : Guarded (Answer unit) :=
  behindJWT E db req (λ _, logoutUser).

(** [router.get("/refresh-token", verifyJWT, getRefreshToken)] *)
Definition router_get_refresh_token (E : Env) (T : Tokens) (db : Db)
    (req : Request) : Guarded (Answer ReqUser) :=
  behindJWT E db req (λ _, getRefreshToken T db req).

(** [router.get("/me", verifyJWT, getCurrentUser)] *)
Definition router_get_me (E : Env) (db : Db) (req : Request)
  : Guarded (Answer ReqUser) :=
  behindJWT E db req getCurrentUser.

(** ** The pre-save hooks of DepartmentModel.js and UserModel.js *)

Definition toUpperCase (c : ascii) : ascii :=
  if is_lower c then ascii_of_nat (nat_of_ascii c - 32) else c.

(** [.replace(/\b\w/g, (char) => char.toUpperCase())]: a word character is
    replaced when the character before it is none, which [boundary] says. *)
Fixpoint capitalizeWords (boundary : bool) (l : list ascii) : list ascii :=
  match l with
  | [] => []
  | c :: r =>
    (if boundary && is_word c then toUpperCase c else c)
      :: capitalizeWords (negb (is_word c)) r
  end.

(** [capitalize = (str) => str.trim().replace(/\b\w/g, ..)] *)
Definition capitalize (s : string) : string :=
  String.string_of_list_ascii
    (capitalizeWords true (String.list_ascii_of_string (trim s))).

(** The names a department and a user are saved with. *)
Record DepartmentNames := {
  dept_name : string;
  dept_description : option string
}.

(** Formatt name and description.  A description that was modified and is
    not there has no [trim] to call. *)
Definition departmentPreSave (nameModified descriptionModified : bool)
    (d : DepartmentNames) : Thrown + DepartmentNames :=
  let name := if nameModified then capitalize (dept_name d)
              else dept_name d in
  description ←
    (if descriptionModified then
       match dept_description d with
       | Some s => inr (Some (capitalize s))
       | None => inl TypeError
       end
     else inr (dept_description d));
  mret {| dept_name := name; dept_description := description |}.

Record UserNames := {
  firstName : string;
  lastName : string
}.

(** Format name fields on save.  The hook also formats [position], a path
    the schema does not declare, which is therefore never modified. *)
Definition userPreSave (firstNameModified lastNameModified : bool)
    (u : UserNames) : UserNames :=
  {| firstName := if firstNameModified then capitalize (firstName u)
                  else firstName u;
     lastName := if lastNameModified then capitalize (lastName u)
                 else lastName u |}.

(** ** The socket server *)

(** [String.prototype.split] with a separator of one character *)
Fixpoint split (sep : ascii) (s : string) : list string :=
  match s with
  | EmptyString => [EmptyString]
  | String c r =>
    if Ascii.eqb c sep then EmptyString :: split sep r
    else
      match split sep r with
      | w :: ws => String c w :: ws
      | [] => [String c EmptyString]
      end
  end.

(** The token of the cookie header of a handshake.  Reading [trim] from a
    part that [split] did not give would throw. *)
Definition extractToken (cookieHeader : option string)
  : Thrown + option string :=
  if negb (truthy_str cookieHeader) then inr None
  else
    match List.find (λ c, startsWith (trim c) "access_token=")
            (split ";" (default "" cookieHeader)) with
    | None => inr None
    | Some tokenCookie =>
      match split "=" tokenCookie !! 1%nat with
      | Some v => inr (Some (trim v))
      | None => inl TypeError
      end
    end.

(** How a handshake ends: [next()] is called and the connection goes on
    with the user attached, or the promise of the middleware is rejected. *)
Inductive Handshake :=
| Connected (user : ReqUser)
| Rejected (e : Thrown).

(** [socketAuth = async (socket, next) => ..].  The body is that of
    [verifyJWT], and with it come the names [res] and [req], which nothing
    binds here: evaluating either throws a ReferenceError.  That is so in
    every branch of the [try], in the assignment [req.user = user] before
    [next()], and in the [catch], which answers through [res] as well. *)
Definition socketAuth (E : Env) (db : Db) (cookieHeader : option string)
  : Handshake :=
  let res {A} : Thrown + A := inl ReferenceError in
  let req {A} : Thrown + A := inl ReferenceError in
  let attempt : Thrown + ReqUser :=
    token ← extractToken cookieHeader;
    if negb (truthy_str token) then res
    else
      match jwt_verify E (default "" token) with
      | TokenExpiredError => res
      | JsonWebTokenError => res
      | OtherJwtError => res
      | Decoded userId =>
        match users db !! userId with
        | None => res
        | Some user =>
          if negb (isVerified user) then res
          else if negb (isActive user) then res
          else
            match companies db !! user_company user with
            | None => inl TypeError
            | Some c =>
              if negb (company_isActive c) then res
              else if negb (String.eqb (subscription_status c) "active")
              then res
              else
                match departments db !! user_department user with
                | None => inl TypeError
                | Some d =>
                  if negb (dept_isActive d) then res
                  else
                    _ ← @req unit;
                    mret {| user_id := userId; user_doc := user;
                            company_doc := c; department_doc := d |}
                end
            end
        end
      end in
  match attempt with
  | inl _ => Rejected ReferenceError
  | inr user => Connected user
  end.

(** ** The properties in the handlers' terms *)

(** An id resolves to an active user in the creator's company and
    department. *)
Definition resolves (db : Db) (user : ReqUser) (o : ObjectId) : bool :=
  match users db !! o with
  | Some u =>
    bool_decide (user_company u = req_company user
                 ∧ user_department u = req_department user
                 ∧ isActive u = true)
  | None => false
  end.

(** A Manager or SuperAdmin of the creator's company and department. *)
Definition leads (db : Db) (user : ReqUser) (o : ObjectId) : bool :=
  match users db !! o with
  | Some u =>
    bool_decide (user_company u = req_company user
                 ∧ user_department u = req_department user
                 ∧ role u ∈ [Manager; SuperAdmin])
  | None => false
  end.

(** The user with this id is active. *)
Definition active (db : Db) (o : ObjectId) : bool :=
  match users db !! o with
  | Some u => isActive u
  | None => false
  end.

(** The error of [createTask] for an [assignedTo] that the store does not
    bear out. *)
Definition invalidAssignedUsers : Thrown :=
  customError "One or more assigned users not found or not in your department"
    404 "INVALID_ASSIGNED_USERS".

(** The store a creation leaves: the task, then the notifications if there
    are any. *)
Definition created (db : Db) (oid : ObjectId) (t : TaskDoc)
    (ns : list Notification) : Db :=
  let db1 := set_tasks db (<[oid := t]> (tasks db)) in
  if bool_decide (0 < length ns)
  then set_notifications db1 (notifications db1 ++ ns) else db1.

(** What a creation request says about the first status and the priority:
    a non-empty string is taken as it is, and the default stands in for a
    property that is absent, [null] or the empty string. *)
Definition requested (dflt : string) (v : option Value) : string :=
  match v with
  | Some (VStr s) => if String.eqb s "" then dflt else s
  | _ => dflt
  end.

(** The list query without its [departmentId] parameter. *)
Definition noDepartment (q : ListQuery) : ListQuery :=
  {| q_page := q_page q; q_limit := q_limit q; q_status := q_status q;
     q_taskType := q_taskType q; q_departmentId := None |}.

Definition invalidDepartmentId : Thrown :=
  customError "Invalid department ID format" 400 "INVALID_DEPARTMENT_ID".

Definition forbidden : Thrown :=
  customError "You do not have permission to view this task" 403 "FORBIDDEN".

(** The value a request gives for [key] says what the task already holds. *)
Definition sameAsCurrent (E : Env) (task : TaskDoc) (key : string) (v : Value)
  : Prop :=
  if String.eqb key "title" then v = VStr (title task)
  else if String.eqb key "description" then v = VStr (description task)
  else if String.eqb key "location" then v = VStr (location task)
  else if String.eqb key "priority" then v = VStr (priority task)
  else if String.eqb key "dueDate" then newDate E v = Some (dueDate task)
  else if String.eqb key "assignedTo" then
    ∀ ids, assignedTo task = Some ids → v = VArr (idStrings ids)
  else if String.eqb key "clientInfo" then
    ∀ c, clientInfoOf task = Some c →
         ∃ i, v = VObj i ∧ clientInfo_set i = c
  else True.

(** An update payload that is identical to the task's current state. *)
Definition identicalPayload (E : Env) (task : TaskDoc)
    (body : gmap string Value) : Prop :=
  ∀ key v, body !! key = Some v → sameAsCurrent E task key v.

(** ** Sample data *)

Module Sample.

Local Open Scope N_scope.

Definition env : Env :=
  {| jwt_verify := λ tok,
       if String.eqb tok "token-of-8" then Decoded 8 else JsonWebTokenError;
     newDate := λ v,
       if bool_decide (v = VStr "2030-01-01") then Some 1893456000000%Z
       else None;
     ObjectId_ofString := λ _, None;
     taskSchemaValid := λ t,
       bool_decide (status t ∈ Object_keys validTransitions);
     notificationSchemaValid := λ _, true;
     arraysEqual := λ a b, inr (bool_decide (a = b)) |}.

Definition now : Z := 1760000000000%Z.

Definition acme : CompanyDoc :=
  {| company_isActive := true; subscription_status := "active" |}.

Definition closedCompany : CompanyDoc :=
  {| company_isActive := false; subscription_status := "active" |}.

Definition deptA : DepartmentDoc :=
  {| dept_company := 1; dept_managers := [8]; dept_isActive := true |}.

Definition deptB : DepartmentDoc :=
  {| dept_company := 1; dept_managers := [12]; dept_isActive := true |}.

Definition member (r : Role) (dept : ObjectId) (active : bool) : UserDoc :=
  {| role := r; user_company := 1; user_department := dept;
     isActive := active; isVerified := true |}.

(** Company 1 with departments 2 (A) and 3 (B); users 7 to 12. *)
Definition people : gmap N UserDoc :=
  <[7 := member SuperAdmin 2 true]>
    (<[8 := member Manager 2 true]>
       (<[9 := member User 2 true]>
          (<[10 := member User 2 true]>
             (<[11 := member Manager 2 false]>
                (<[12 := member Manager 3 true]> ∅))))).

Definition principal (o : ObjectId) (r : Role) (dept : ObjectId) : ReqUser :=
  {| user_id := o; user_doc := member r dept true;
     company_doc := acme;
     department_doc := if bool_decide (dept = 2) then deptA else deptB |}.

Definition manager8 : ReqUser := principal 8 Manager 2.
Definition manager12 : ReqUser := principal 12 Manager 3.
Definition user9 : ReqUser := principal 9 User 2.
Definition user10 : ReqUser := principal 10 User 2.

(** An assigned task of department 2, created by manager 8 for user 9. *)
Definition fixPrinter : TaskDoc :=
  {| title := "Fix printer"; description := "Second floor";
     location := "HQ"; dueDate := 1893456000000%Z; priority := "Medium";
     status := "To Do"; createdBy := 8; company := 1; department := 2;
     variant := AssignedTask [9] |}.

(** A project task of department 2, created by manager 8. *)
Definition siteVisit : TaskDoc :=
  {| title := "Site visit"; description := "Survey";
     location := "Bole"; dueDate := 1893456000000%Z; priority := "High";
     status := "To Do"; createdBy := 8; company := 1; department := 2;
     variant := ProjectTask {| client_name := "Abebe";
                               client_phone := "+251912345678";
                               client_address := None |} |}.

(** A task of department 2 whose creator, manager 12, is now in
    department 3. *)
Definition inventory : TaskDoc :=
  {| title := "Inventory"; description := "Count stock";
     location := "Store"; dueDate := 1893456000000%Z; priority := "Low";
     status := "To Do"; createdBy := 12; company := 1; department := 2;
     variant := AssignedTask [9] |}.

Definition db : Db :=
  {| users := people;
     companies := {[ 1 := acme ]};
     departments := <[2 := deptA]> {[ 3 := deptB ]};
     tasks := <[100 := fixPrinter]>
                (<[101 := siteVisit]> {[ 102 := inventory ]});
     notifications := [];
     activities := [] |}.

(** The same store after company 1 was deactivated. *)
Definition dbClosed : Db :=
  {| users := people;
     companies := {[ 1 := closedCompany ]};
     departments := departments db;
     tasks := tasks db;
     notifications := [];
     activities := [] |}.

Definition common : gmap string Value :=
  <["title" := VStr "Replace toner"]>
    (<["description" := VStr "Black cartridge"]>
       (<["dueDate" := VStr "2030-01-01"]>
          {[ "location" := VStr "HQ" ]})).

Definition assignedBody (ids : list IdInput) : gmap string Value :=
  <["taskType" := VStr "AssignedTask"]> (<["assignedTo" := VArr ids]> common).

Definition projectBody : gmap string Value :=
  <["taskType" := VStr "ProjectTask"]>
    (<["clientInfo" := VObj {| in_name := Some "Abebe";
                               in_phone := Some "0912345678";
                               in_address := None |}]> common).

(** The project request with an empty [status]. *)
Definition emptyStatus : gmap string Value :=
  <["status" := VStr ""]> projectBody.

(** The document that [assignedBody] asks for. *)
Definition toner (ids : list ObjectId) : TaskDoc :=
  {| title := "Replace toner"; description := "Black cartridge";
     location := "HQ"; dueDate := 1893456000000%Z; priority := "Medium";
     status := "To Do"; createdBy := 8; company := 1; department := 2;
     variant := AssignedTask ids |}.


Definition tamper : gmap string Value :=
  <["status" := VStr "Completed"]>
    (<["createdBy" := VStr "9"]>
       (<["department" := VStr "3"]>
          (<["taskType" := VStr "ProjectTask"]>
             {[ "title" := VStr "Fix copier" ]}))).

(** A status change that the table does not list: To Do to Completed. *)
Definition skipAhead : TaskActivity :=
  {| act_task := Some 100; act_performedBy := Some 9;
     act_description := Some "Closed without starting";
     statusChange_from := Some "To Do";
     statusChange_to := Some "Completed";
     act_attachments := [] |}.

Definition listAll (departmentId : option IdInput) : ListQuery :=
  {| q_page := None; q_limit := None; q_status := None; q_taskType := None;
     q_departmentId := departmentId |}.

(** An update of task 100 that repeats what the task holds. *)
Definition unchanged : gmap string Value :=
  <["title" := VStr "Fix printer"]>
    (<["priority" := VStr "Medium"]>
       (<["dueDate" := VStr "2030-01-01"]>
          (<["assignedTo" := VArr [IdValid 9]]>
             {[ "status" := VStr "To Do" ]}))).

End Sample.

(** ** Further terms of the properties *)

(** The list query without its [taskType] parameter. *)
Definition anyTaskType (q : ListQuery) : ListQuery :=
  {| q_page := q_page q; q_limit := q_limit q; q_status := q_status q;
     q_taskType := None; q_departmentId := q_departmentId q |}.

(** A request that names no company and no department in any of the
    places the guards read. *)
Definition unscoped (req : Request) : Prop :=
  resourceCompanyId req = None ∧ resourceDepartmentId req = None.

(** The properties of the body that [createTask] reads. *)
Definition creationFields : list string :=
  ["title"; "description"; "dueDate"; "taskType"; "location"; "assignedTo";
   "clientInfo"; "priority"; "status"].

(** The two refusals of [getRefreshToken] that leave the cookies alone. *)
Definition missingRefreshToken : Thrown :=
  customError "Refresh token is required" 401 "MISSING_REFRESH_TOKEN".

Definition tokenRefreshError : Thrown :=
  customError "Internal server error during token refresh" 500
    "TOKEN_REFRESH_ERROR".

(** The refusal of [loginUser] for credentials that do not match. *)
Definition invalidCredentials : Thrown :=
  customError "Invalid email or password" 401 "INVALID_CREDENTIALS".


(** The character occurs in the string. *)
Definition has_char (c : ascii) (s : string) : bool :=
  existsb (Ascii.eqb c) (String.list_ascii_of_string s).

(** The string is white space throughout. *)
Definition all_space (s : string) : bool :=
  forallb is_space (String.list_ascii_of_string s).

(** A part of a cookie header that is not the cookie access_token. *)
Definition otherCookie (c : string) : bool :=
  negb (has_char ";" c) && negb (startsWith (trim c) "access_token=").

(** ** Sample requests *)

Module Requests.

Local Open Scope N_scope.

(** The sample environment with tokens for users 7, 8, 9, 12 and 13, in which
    the strings company-1, company-5, dept-2 and dept-3 spell the ids 1, 5,
    2 and 3. *)
Definition env : Env :=
  {| jwt_verify := λ tok,
       if String.eqb tok "token-of-7" then Decoded 7
       else if String.eqb tok "token-of-8" then Decoded 8
       else if String.eqb tok "token-of-9" then Decoded 9
       else if String.eqb tok "token-of-12" then Decoded 12
       else if String.eqb tok "token-of-13" then Decoded 13
       else if String.eqb tok "old-token" then TokenExpiredError
       else JsonWebTokenError;
     newDate := newDate Sample.env;
     ObjectId_ofString := λ s,
       if String.eqb s "company-1" then Some 1
       else if String.eqb s "company-5" then Some 5
       else if String.eqb s "dept-2" then Some 2
       else if String.eqb s "dept-3" then Some 3
       else None;
     taskSchemaValid := taskSchemaValid Sample.env;
     notificationSchemaValid := notificationSchemaValid Sample.env;
     arraysEqual := arraysEqual Sample.env |}.

(** A request that carries the access token and nothing else. *)
Definition bare (token : string) : Request :=
  {| cookie_access_token := Some token;
     cookie_refresh_token := None;
     req_params := ∅; req_query := ∅;
     req_list := Sample.listAll None;
     req_body := ∅;
     req_resourceDepartment := None |}.

Definition with_params (req : Request) (p : gmap string IdInput) : Request :=
  {| cookie_access_token := cookie_access_token req;
     cookie_refresh_token := cookie_refresh_token req;
     req_params := p; req_query := req_query req;
     req_list := req_list req; req_body := req_body req;
     req_resourceDepartment := req_resourceDepartment req |}.

(** Manager 8 posts the creation of an assigned task for user 9. *)
Definition post8 : Request :=
  with_body (bare "token-of-8") (Sent <$> Sample.assignedBody [IdValid 9]).

(** Manager 12, of department 3, names department 2 in the body. *)
Definition post12 : Request :=
  with_body (bare "token-of-12")
    (<["department" := Sent (VStr "dept-2")]>
       (Sent <$> Sample.assignedBody [IdValid 9])).

(** User 9 asks for task 100. *)
Definition read9 : Request :=
  with_params (bare "token-of-9") {[ "taskId" := IdValid 100 ]}.

(** Manager 12 asks for task 100, a task of department 2. *)
Definition read12 : Request :=
  with_params (bare "token-of-12") {[ "taskId" := IdValid 100 ]}.

(** Tokens: user [n] holds the access token token-of-n and the refresh
    token refresh-of-n; a password's hash is the password after "hash:". *)
Definition tokens : Tokens :=
  {| jwt_verify_refresh := λ tok,
       if String.eqb tok "refresh-of-7" then Decoded 7
       else if String.eqb tok "refresh-of-8" then Decoded 8
       else if String.eqb tok "refresh-of-11" then Decoded 11
       else JsonWebTokenError;
     generateAccessToken := λ o,
       if (o =? 7)%N then "token-of-7"
       else if (o =? 8)%N then "token-of-8"
       else if (o =? 9)%N then "token-of-9"
       else if (o =? 12)%N then "token-of-12"
       else "token-of-13";
     generateRefreshToken := λ o,
       if (o =? 7)%N then "refresh-of-7"
       else if (o =? 8)%N then "refresh-of-8"
       else "refresh-of-11";
     bcrypt_compare := λ password hash,
       String.eqb ("hash:" +:+ password) hash |}.

Definition accounts : Accounts :=
  {| byEmail := <["almaz@acme.com" := 8]> {[ "kebede@acme.com" := 13 ]};
     passwordOf := <[8 := "hash:s3cret!"]> {[ 13 := "hash:pa55word" ]} |}.

(** The sample store with user 13, who has not verified the account. *)
Definition dbUnverified : Db :=
  {| users := <[13 := {| role := User; user_company := 1;
                         user_department := 2; isActive := true;
                         isVerified := false |}]> (users Sample.db);
     companies := companies Sample.db;
     departments := departments Sample.db;
     tasks := tasks Sample.db;
     notifications := [];
     activities := [] |}.

(** User 13 as the login answers with it. *)
Definition user13 : ReqUser :=
  {| user_id := 13;
     user_doc := {| role := User; user_company := 1; user_department := 2;
                    isActive := true; isVerified := false |};
     company_doc := Sample.acme; department_doc := Sample.deptA |}.

(** Manager 8 asks for a new access token. *)
Definition refresh8 : Request :=
  {| cookie_access_token := Some "token-of-8";
     cookie_refresh_token := Some "refresh-of-8";
     req_params := ∅; req_query := ∅;
     req_list := Sample.listAll None;
     req_body := ∅;
     req_resourceDepartment := None |}.

(** [post8] as the guards hand it to the handler. *)
Definition post8_guarded : Request :=
  with_body post8 (<["company" := Written 1]> (req_body post8)).

End Requests.

(** * Properties *)

(** Membership in a list that is written out. *)
Ltac in_literal :=
  repeat first [ apply list_elem_of_here | apply list_elem_of_further ].

(** One goal for each element of the written-out list of [H : x ∈ [..]]. *)
Ltac cases_elem_of H tac :=
  repeat (apply elem_of_cons in H as [->|H]; [ tac | ]);
  try (by apply elem_of_nil in H).

(** Reduce the binds of the exception monad. *)
Ltac step := cbn [mbind Thrown_bind mret Thrown_ret fmap Thrown_fmap].

(** ** Status transitions (TaskActivityModel.js) *)

(** The table is the one the documentation gives. *)
Lemma in_table_spec (from to : string) :
  in_table from to = true ↔
    (from = "To Do" ∧ to ∈ ["In Progress"; "Pending"])
    ∨ (from = "In Progress" ∧ to ∈ ["In Progress"; "Completed"; "Pending"])
    ∨ (from = "Completed" ∧ to ∈ ["Pending"; "In Progress"])
    ∨ (from = "Pending" ∧ to ∈ ["In Progress"; "Completed"]).
Proof.
  unfold in_table, validTransitions. cbn [property].
  repeat match goal with
  | |- context [String.eqb from ?s] =>
    destruct (String.eqb_spec from s) as [->|?];
      [ rewrite bool_decide_eq_true; split;
        [ intros H;
          repeat first [ split; [ reflexivity | exact H ]
                       | left; split; [ reflexivity | exact H ]
                       | right ]
        | intros [[? ?]|[[? ?]|[[? ?]|[? ?]]]];
          first [ assumption | congruence ] ]
      | ]
  end.
  split; [ intros ?; discriminate | ].
  intros [[? ?]|[[? ?]|[[? ?]|[? ?]]]]; congruence.
Qed.

(** What the schema of [statusChange] checks: each end is a status, and [to]
    is there. *)
Lemma statusChange_valid_spec (from to : option string) :
  statusChange_valid from to = true ↔
    (∀ f, from = Some f → f ∈ Object_keys validTransitions)
    ∧ (∃ t, to = Some t ∧ t ∈ Object_keys validTransitions).
Proof.
  unfold statusChange_valid, enum_ok, required_str, truthy_str.
  rewrite !andb_true_iff. split.
  - intros [[Hf Ht] Hr]. split.
    + intros f ->. by apply bool_decide_eq_true in Hf.
    + destruct to as [t|]; [ | done ].
      exists t. split; [ done | by apply bool_decide_eq_true in Ht ].
  - intros [Hf [t [-> Ht]]]. repeat split.
    + destruct from as [f|]; [ | done ].
      apply bool_decide_eq_true. by apply Hf.
    + by apply bool_decide_eq_true.
    + apply negb_true_iff, String.eqb_neq. intros ->.
      vm_compute in Ht.
      repeat (apply elem_of_cons in Ht as [Ht|Ht]; [ discriminate | ]).
      by apply elem_of_nil in Ht.
Qed.

(** Every pair of the table passes the schema. *)
Lemma in_table_accepted (from to : string) :
  in_table from to = true →
  statusChange_valid (Some from) (Some to) = true.
Proof.
  intros Ht. apply in_table_spec in Ht.
  destruct Ht as [[-> Ht]|[[-> Ht]|[[-> Ht]|[-> Ht]]]];
    cases_elem_of Ht ltac:(by vm_compute).
Qed.

(** A document that passes adds exactly one record to the log. *)
Lemma TaskActivity_create_one (log log' : list TaskActivity)
    (a : TaskActivity) :
  TaskActivity_create log a = inr log' →
  log' = log ++ [a]
  ∧ statusChange_valid (statusChange_from a) (statusChange_to a) = true.
Proof.
  unfold TaskActivity_create, taskActivity_valid.
  destruct (statusChange_valid _ _);
    [ | by rewrite andb_false_r ].
  destruct (_ && _); [ by intros [= <-] | done ].
Qed.

(** C4 (the code departs from the claim): the status change To Do to
    Completed is not in the transition table, yet a TaskActivity that records
    it passes the schema and is appended to the log as one new record.  The
    schema checks each end against the list of statuses and never consults
    the adjacency lists. *)
Theorem statusChange_outside_table_accepted :
  in_table "To Do" "Completed" = false
  ∧ statusChange_valid (Some "To Do") (Some "Completed") = true
  ∧ ∀ log, TaskActivity_create log Sample.skipAhead
           = inr (log ++ [Sample.skipAhead]).
Proof.
  split; [ by vm_compute | ].
  split; [ by vm_compute | ].
  intros log. unfold TaskActivity_create.
  by replace (taskActivity_valid Sample.skipAhead) with true by (by vm_compute).
Qed.

(** ** The session guard (authMiddleware.js) *)

(** The order of the checks: each line assumes that the checks before it
    passed. *)
Lemma checkAccount_cascade (db : Db) (userId : ObjectId) (u : UserDoc) :
  (isVerified u = false →
     checkAccount db userId u
     = Respond 401
         (Failure "User account is not verified" "ACCOUNT_NOT_VERIFIED"))
  ∧ (isVerified u = true → isActive u = false →
     checkAccount db userId u
     = Respond 401 (Failure "User account is deactivated" "USER_DEACTIVATED"))
  ∧ (∀ c, isVerified u = true → isActive u = true →
     companies db !! user_company u = Some c →
     (company_isActive c = false →
        checkAccount db userId u = Respond 401 EmptyBody)
     ∧ (company_isActive c = true → subscription_status c ≠ "active" →
        checkAccount db userId u
        = Respond 403
            (Failure "Company subscription is not active"
               "SUBSCRIPTION_INACTIVE"))
     ∧ (∀ d, company_isActive c = true → subscription_status c = "active" →
        departments db !! user_department u = Some d →
        (dept_isActive d = false →
           checkAccount db userId u
           = Respond 401
               (Failure "Department is deactivated" "DEPARTMENT_DEACTIVATED"))
        ∧ (dept_isActive d = true →
           checkAccount db userId u
           = Proceed {| user_id := userId; user_doc := u;
                        company_doc := c; department_doc := d |}))).
Proof.
  unfold checkAccount.
  split; [ by intros -> | ].
  split; [ by intros -> -> | ].
  intros c -> -> ->. cbn.
  split; [ by intros -> | ].
  split.
  { intros -> Hs. cbn. by apply String.eqb_neq in Hs as ->. }
  intros d -> -> ->. cbn.
  split; by intros ->.
Qed.

(** The principal is attached only when all five checks pass. *)
Lemma checkAccount_Proceed (db : Db) (userId : ObjectId) (u : UserDoc)
    (p : ReqUser) :
  checkAccount db userId u = Proceed p →
  isVerified u = true ∧ isActive u = true
  ∧ company_isActive (company_doc p) = true
  ∧ subscription_status (company_doc p) = "active"
  ∧ dept_isActive (department_doc p) = true
  ∧ user_id p = userId ∧ user_doc p = u.
Proof.
  unfold checkAccount.
  destruct (isVerified u); [ | done ].
  destruct (isActive u); [ | done ]. cbn.
  destruct (companies db !! user_company u) as [c|]; [ | done ].
  destruct (company_isActive c) eqn:Hc; [ | done ]. cbn.
  destruct (String.eqb_spec (subscription_status c) "active") as [Hs|];
    [ | done ]. cbn.
  destruct (departments db !! user_department u) as [d|]; [ | done ].
  destruct (dept_isActive d) eqn:Hd; [ | done ]. cbn.
  by intros [= <-].
Qed.

Lemma verifyJWT_Proceed (E : Env) (db : Db) (token : option string)
    (p : ReqUser) :
  verifyJWT E db token = Proceed p →
  ∃ tok, token = Some tok ∧ jwt_verify E tok = Decoded (user_id p)
         ∧ users db !! user_id p = Some (user_doc p)
         ∧ isVerified (user_doc p) = true ∧ isActive (user_doc p) = true
         ∧ company_isActive (company_doc p) = true
         ∧ subscription_status (company_doc p) = "active"
         ∧ dept_isActive (department_doc p) = true.
Proof.
  unfold verifyJWT. destruct token as [tok|]; [ | done ].
  destruct (String.eqb tok ""); [ done | ].
  destruct (jwt_verify E tok) as [userId| | |] eqn:Hj; try done.
  destruct (users db !! userId) as [u|] eqn:Hu; [ | done ].
  intros (? & ? & ? & ? & ? & <- & <-)%checkAccount_Proceed.
  by exists tok.
Qed.

(** C3 (the code departs from the claim): for a verified, active user whose
    company is deactivated the guard answers 401 with an empty body; no
    error code is sent, where the claim has TENANT_DEACTIVATED.  The message
    and the code COMPANY_DEACTIVATED sit in a statement after the [return]
    that is never reached. *)
Theorem verifyJWT_company_deactivated :
  verifyJWT Sample.env Sample.dbClosed (Some "token-of-8")
  = Respond 401 EmptyBody.
Proof. by vm_compute. Qed.

(** The role gate of [POST /tasks] and [PUT /tasks/:taskId] lets SuperAdmin
    and Manager through and answers a User with INSUFFICIENT_PERMISSIONS. *)
Lemma authorizeRoles_managers (u : ReqUser) :
  (req_role u ≠ User → authorizeRoles ["SuperAdmin"; "Manager"] u = None)
  ∧ (req_role u = User →
     ∃ m, authorizeRoles ["SuperAdmin"; "Manager"] u
          = Some (Failure m "INSUFFICIENT_PERMISSIONS")).
Proof.
  unfold authorizeRoles. destruct (req_role u); cbn; split; try done.
  intros _. by eexists.
Qed.

(** ** Lists and casts *)

Lemma NoDup_filter_fst {A B} (P : A * B → Prop) `{!∀ x, Decision (P x)}
    (l : list (A * B)) :
  NoDup l.*1 → NoDup (filter P l).*1.
Proof.
  induction l as [|[a b] l IH]; [ done | ].
  rewrite fmap_cons, NoDup_cons. intros [Ha Hl].
  rewrite filter_cons. destruct (decide (P (a, b))); [ | by apply IH ].
  rewrite fmap_cons, NoDup_cons. split; [ | by apply IH ].
  intros Hin. apply Ha. apply list_elem_of_fmap in Hin as [[a' b'] [-> Hin]].
  apply list_elem_of_filter in Hin as [_ Hin].
  apply list_elem_of_fmap. by exists (a', b').
Qed.

(** A duplicate-free list drawn from [k] has the length of [k] exactly when
    [k] is duplicate-free and drawn from it in turn. *)
Lemma NoDup_subset_length {A} (l k : list A) :
  NoDup l → (∀ x, x ∈ l → x ∈ k) →
  length l = length k ↔ NoDup k ∧ ∀ x, x ∈ k → x ∈ l.
Proof.
  intros Hl Hsub. pose proof (NoDup_submseteq _ _ Hl Hsub) as Hlk. split.
  - intros Hlen.
    assert (l ≡ₚ k) as Hp by (apply submseteq_length_Permutation; [ done | lia ]).
    split; [ by rewrite <- Hp | ]. intros x. by rewrite Hp.
  - intros [Hk Hsup].
    pose proof (NoDup_submseteq _ _ Hk Hsup) as Hkl.
    apply submseteq_length in Hlk, Hkl. lia.
Qed.

Lemma filter_none {A} (P : A → Prop) `{!∀ x, Decision (P x)} (l : list A) :
  (∀ x, x ∈ l → ¬ P x) → filter P l = [].
Proof.
  induction l as [|x l IH]; [ done | ]. intros Hn.
  rewrite filter_cons, decide_False by (apply Hn, list_elem_of_here).
  apply IH. intros y Hy. by apply Hn, list_elem_of_further.
Qed.

Lemma castIds_inr (l : list IdInput) (ids : list ObjectId) :
  castIds l = inr ids ↔ l = idStrings ids.
Proof.
  revert ids. induction l as [|i l IH]; intros ids; cbn.
  - split; [ by intros [= <-] | by destruct ids ].
  - destruct i as [o|raw]; cbn.
    + destruct (castIds l) as [e|os] eqn:Hc; cbn.
      * split; [ done | ]. destruct ids as [|o' ids]; [ done | ].
        intros [= -> Hl]. apply IH in Hl. done.
      * split.
        -- intros [= <-]. cbn. f_equal. by apply IH.
        -- destruct ids as [|o' ids]; [ done | ].
           intros [= -> Hl]. apply IH in Hl. by injection Hl as ->.
    + split; [ done | by destruct ids ].
Qed.

Lemma castIds_idStrings (ids : list ObjectId) :
  castIds (idStrings ids) = inr ids.
Proof. by apply castIds_inr. Qed.

Lemma castIds_valid (l : list IdInput) :
  filter (λ i, ObjectId_isValid i = false) l = [] →
  ∃ ids, castIds l = inr ids.
Proof.
  induction l as [|i l IH]; [ by exists [] | ].
  rewrite filter_cons. destruct i as [o|raw]; cbn.
  - destruct (decide _); [ done | ]. intros [ids ->]%IH. by exists (o :: ids).
  - destruct (decide _); done.
Qed.

Lemma castIds_invalidIds (l : list IdInput) (ids : list ObjectId) :
  castIds l = inr ids → filter (λ i, ObjectId_isValid i = false) l = [].
Proof.
  intros ->%castIds_inr. unfold idStrings.
  induction ids as [|o ids IH]; [ done | ].
  rewrite fmap_cons, filter_cons. by destruct (decide _).
Qed.

(** ** createTask *)

Section create.

Context (E : Env) (now : Z) (oid : ObjectId) (db : Db) (user : ReqUser).

(** *** The users an [assignedTo] resolves to *)

Lemma elem_of_find_assignees (ids : list ObjectId) (o : ObjectId) :
  o ∈ (find_assignees db user ids).*1 ↔ o ∈ ids ∧ resolves db user o = true.
Proof.
  unfold find_assignees, resolves. rewrite list_elem_of_fmap. split.
  - intros [[o' u] [-> [(Hin & Hc & Hd & Ha) Hm]%list_elem_of_filter]].
    apply elem_of_map_to_list in Hm. cbn in *. rewrite Hm.
    split; [ done | ]. by apply bool_decide_eq_true.
  - intros [Hin Hr]. destruct (users db !! o) as [u|] eqn:Hu; [ | done ].
    apply bool_decide_eq_true in Hr as (Hc & Hd & Ha).
    exists (o, u). split; [ done | ]. apply list_elem_of_filter.
    split; [ done | ]. by apply elem_of_map_to_list.
Qed.

Lemma NoDup_find_assignees (ids : list ObjectId) :
  NoDup (find_assignees db user ids).*1.
Proof. apply NoDup_filter_fst, NoDup_fst_map_to_list. Qed.

(** The count of the users found equals the length of the list exactly when
    the list has no duplicate and each of its ids resolves. *)
Lemma find_assignees_length (ids : list ObjectId) :
  length (find_assignees db user ids) = length ids
  ↔ NoDup ids ∧ Forall (λ o, resolves db user o = true) ids.
Proof.
  rewrite <- (length_fmap fst (find_assignees db user ids)).
  rewrite NoDup_subset_length;
    [ | apply NoDup_find_assignees
      | intros x Hx; by apply elem_of_find_assignees in Hx as [? _] ].
  rewrite Forall_forall. split; intros [Hn Hall]; (split; [ done | ]).
  - intros x Hx. by apply Hall, elem_of_find_assignees in Hx as [_ ?].
  - intros x Hx. apply elem_of_find_assignees. auto.
Qed.

Lemma find_assignees_Permutation (ids : list ObjectId) :
  NoDup ids → Forall (λ o, resolves db user o = true) ids →
  (find_assignees db user ids).*1 ≡ₚ ids.
Proof.
  intros Hn Hall. apply NoDup_Permutation;
    [ apply NoDup_find_assignees | done | ].
  intros x. rewrite elem_of_find_assignees. rewrite Forall_forall in Hall.
  split; [ by intros [? _] | auto ].
Qed.

Lemma elem_of_find_managersAndAdmins (o : ObjectId) :
  o ∈ (find_managersAndAdmins db user).*1
  ↔ leads db user o = true ∧ active db o = true.
Proof.
  unfold find_managersAndAdmins, leads, active. rewrite list_elem_of_fmap.
  split.
  - intros [[o' u] [-> [(Hc & Hd & Hr & Ha) Hm]%list_elem_of_filter]].
    apply elem_of_map_to_list in Hm. cbn in *. rewrite Hm.
    split; [ | done ]. by apply bool_decide_eq_true.
  - intros [Hl Ha]. destruct (users db !! o) as [u|] eqn:Hu; [ | done ].
    apply bool_decide_eq_true in Hl as (Hc & Hd & Hr).
    exists (o, u). split; [ done | ]. apply list_elem_of_filter.
    split; [ done | ]. by apply elem_of_map_to_list.
Qed.

(** *** Phases 1 and 2 *)

Lemma validateInput_inr (body : gmap string Value) (due : Z) :
  validateInput E now body = inr due →
  (body !! "taskType" = Some (VStr "AssignedTask")
   ∨ body !! "taskType" = Some (VStr "ProjectTask"))
  ∧ newDate E (default VNull (body !! "dueDate")) = Some due
  ∧ (now ≤ due)%Z.
Proof.
  unfold validateInput. case_bool_decide; [ done | ].
  case_bool_decide as Ht; [ | done ]. cbn [negb].
  destruct (newDate E _) as [d|]; [ | done ].
  destruct (Z.ltb_spec d now); [ done | ]. intros [= <-].
  split; [ | done ].
  apply elem_of_cons in Ht as [Ht|Ht]; [ by left | ].
  apply elem_of_cons in Ht as [Ht|Ht]; [ by right | ].
  by apply elem_of_nil in Ht.
Qed.

(** Phase 2 on an [AssignedTask] whose [assignedTo] is a non-empty array of
    well-formed ids. *)
Lemma validateVariant_assigned (body : gmap string Value)
    (l : list IdInput) (ids : list ObjectId) :
  body !! "taskType" = Some (VStr "AssignedTask") →
  body !! "assignedTo" = Some (VArr l) →
  l ≠ [] →
  castIds l = inr ids →
  validateVariant db user body
  = if decide (NoDup ids ∧ Forall (λ o, resolves db user o = true) ids)
    then inr (filter (λ o, o ≠ user_id user) (find_assignees db user ids).*1)
    else inl invalidAssignedUsers.
Proof.
  intros Ht Ha Hne Hc. unfold validateVariant. rewrite Ht, Ha.
  rewrite bool_decide_eq_true_2 by done.
  destruct l as [|i l]; [ done | ].
  rewrite (castIds_invalidIds _ _ Hc). cbn [length].
  rewrite bool_decide_eq_false_2 by lia.
  rewrite Hc. step.
  change (S (length l)) with (length (i :: l)).
  assert (length (i :: l) = length ids) as ->.
  { apply castIds_inr in Hc as ->. unfold idStrings. by rewrite length_fmap. }
  pose proof (find_assignees_length ids) as Hlen.
  destruct (decide (NoDup ids ∧ _)) as [Hok|Hbad].
  - rewrite bool_decide_eq_false_2; [ done | ]. intros Hn. by apply Hn, Hlen.
  - rewrite bool_decide_eq_true_2; [ done | ]. intros Hn. by apply Hbad, Hlen.
Qed.

(** What phase 2 hands on as [notificationReceivers]. *)
Lemma validateVariant_inr (body : gmap string Value)
    (receivers : list ObjectId) :
  validateVariant db user body = inr receivers →
  NoDup receivers
  ∧ (body !! "taskType" = Some (VStr "AssignedTask") →
     ∃ l ids, body !! "assignedTo" = Some (VArr l) ∧ castIds l = inr ids
              ∧ ∀ x, x ∈ receivers ↔ x ≠ user_id user ∧ x ∈ ids)
  ∧ (body !! "taskType" = Some (VStr "ProjectTask") →
     ∀ x, x ∈ receivers
          ↔ x ≠ user_id user ∧ leads db user x = true ∧ active db x = true).
Proof.
  intros Hv.
  assert (∀ l : list (ObjectId * UserDoc), NoDup l.*1 →
            NoDup (filter (λ o, o ≠ user_id user) l.*1)) as Hnd.
  { intros l Hl. by apply NoDup_filter. }
  destruct (decide (body !! "taskType" = Some (VStr "AssignedTask"))) as [Ht|Ht].
  - pose proof Hv as Hv'. unfold validateVariant in Hv'.
    rewrite bool_decide_eq_true_2 in Hv' by done.
    destruct (body !! "assignedTo") as [[| |[|i l]|]|] eqn:Ha; try done.
    case_bool_decide as Hinv; [ done | ]. clear Hv'.
    assert (filter (λ i, ObjectId_isValid i = false) (i :: l) = []) as Hnil.
    { destruct (filter _ (i :: l)); [ done | cbn in Hinv; lia ]. }
    destruct (castIds_valid _ Hnil) as [ids Hc].
    rewrite (validateVariant_assigned body (i :: l) ids) in Hv by done.
    destruct (decide _) as [[Hn Hall]|]; [ | done ]. injection Hv as <-.
    split; [ apply Hnd, NoDup_find_assignees | ].
    split; [ | by rewrite Ht ].
    intros _. exists (i :: l), ids. split; [ done | ]. split; [ done | ].
    intros x. rewrite list_elem_of_filter, elem_of_find_assignees.
    rewrite Forall_forall in Hall. split; [ by intros (? & ? & ?) | ].
    intros [? ?]. auto.
  - unfold validateVariant in Hv. rewrite bool_decide_eq_false_2 in Hv by done.
    case_bool_decide as Hp.
    + destruct (body !! "clientInfo") as [[| | |c]|]; try done.
      destruct (negb _ || negb _); [ done | ]. injection Hv as <-.
      split; [ apply Hnd, NoDup_filter_fst, NoDup_fst_map_to_list | ].
      split; [ done | ]. intros _ x.
      by rewrite list_elem_of_filter, elem_of_find_managersAndAdmins.
    + injection Hv as <-. split; [ constructor | ]. done.
Qed.

(** *** Phase 3 *)

Lemma preSave_frame (m : bool) (t : TaskDoc) :
  title (preSave m t) = title t
  ∧ priority (preSave m t) = priority t
  ∧ status (preSave m t) = status t
  ∧ createdBy (preSave m t) = createdBy t
  ∧ company (preSave m t) = company t
  ∧ department (preSave m t) = department t
  ∧ taskType (preSave m t) = taskType t
  ∧ assignedTo (preSave m t) = assignedTo t.
Proof. unfold preSave, taskType, assignedTo. by destruct t as [????????? []]. Qed.

Lemma preSave_false (t : TaskDoc) : preSave false t = t.
Proof. unfold preSave. by destruct t as [????????? []]. Qed.

Lemma preSave_with_status (m : bool) (t : TaskDoc) (s : string) :
  preSave m (with_status t s) = with_status (preSave m t) s.
Proof. unfold preSave. by destruct t as [????????? []]. Qed.

Lemma castString_requested (dflt : string) (v : option Value) (s : string) :
  dflt ≠ "" →
  castString "Task" (or_else v (VStr dflt)) = inr s → s = requested dflt v.
Proof.
  intros Hd. unfold or_else, requested.
  destruct v as [[|x|ids|c]|]; cbn [truthy castString];
    try (by intros [= <-]); try done.
  destruct (String.eqb x ""); cbn [negb castString]; by intros [= <-].
Qed.

(** What [prepareTask] puts into the document. *)
Lemma prepareTask_inr (due : Z) (body : gmap string Value) (t : TaskDoc) :
  prepareTask user due body = inr t →
  status t = requested "To Do" (body !! "status")
  ∧ priority t = requested "Medium" (body !! "priority")
  ∧ createdBy t = user_id user
  ∧ company t = req_company user
  ∧ department t = req_department user
  ∧ dueDate t = due
  ∧ (if bool_decide (body !! "taskType" = Some (VStr "AssignedTask"))
     then ∃ ids, variant t = AssignedTask ids
                 ∧ castIds (match body !! "assignedTo" with
                            | Some (VArr a) => a
                            | _ => []
                            end) = inr ids
     else ∃ c, variant t = ProjectTask c).
Proof.
  unfold prepareTask.
  destruct (trimValue (body !! "title")) as [|ti]; [ done | ].
  destruct (trimValue (body !! "description")) as [|de]; [ done | ].
  destruct (trimValue (body !! "location")) as [|lo]; [ done | ].
  step. cbn zeta.
  case_bool_decide as Ht.
  - destruct (castIds _) as [|ids] eqn:Hc; [ done | ]. step.
    destruct (castString "Task" (or_else (body !! "priority") _)) as [|p] eqn:Hp;
      [ done | ].
    destruct (castString "Task" (or_else (body !! "status") _)) as [|s] eqn:Hs;
      [ done | ].
    step. intros [= <-]. cbn.
    apply castString_requested in Hp, Hs; [ | done.. ].
    repeat split; try done. by exists ids.
  - destruct (clientInfo_of body) as [|c]; [ done | ]. step.
    destruct (castString "Task" (or_else (body !! "priority") _)) as [|p] eqn:Hp;
      [ done | ].
    destruct (castString "Task" (or_else (body !! "status") _)) as [|s] eqn:Hs;
      [ done | ].
    step. intros [= <-]. cbn.
    apply castString_requested in Hp, Hs; [ | done.. ].
    repeat split; try done. by exists c.
Qed.

Lemma created_store (t : TaskDoc) (ns : list Notification) :
  tasks (created db oid t ns) = <[oid := t]> (tasks db)
  ∧ notifications (created db oid t ns) = notifications db ++ ns
  ∧ activities (created db oid t ns) = activities db
  ∧ users (created db oid t ns) = users db.
Proof.
  unfold created. case_bool_decide as Hlen; cbn; [ done | ].
  destruct ns; [ by rewrite app_nil_r | cbn in Hlen; lia ].
Qed.

(** The transaction, step by step. *)
Lemma transactionalCreation_eq (body : gmap string Value) (due : Z)
    (receivers : list ObjectId) :
  transactionalCreation E oid db user body due receivers
  = match prepareTask user due body with
    | inl e => fail db e
    | inr t0 =>
      if taskSchemaValid E t0 && variant_valid t0 then
        let t := preSave true t0 in
        let ns := creationNotice user oid t <$> receivers in
        if bool_decide (0 < length ns)
           && negb (forallb (notificationSchemaValid E) ns)
        then fail db (ValidationError "Notification")
        else {| reply := Json 201 (taskType t +:+ " created successfully")
                           (oid, t);
                store := created db oid t ns;
                emitted := creationEmit t <$> ns |}
      else fail db (ValidationError "Task")
    end.
Proof.
  unfold transactionalCreation, save, created, insertMany.
  destruct (prepareTask user due body) as [e|t0]; [ done | ]. step.
  destruct (taskSchemaValid E t0 && variant_valid t0); [ | done ].
  step. cbn zeta.
  case_bool_decide as Hlen; cbn [andb negb]; step.
  - by destruct (forallb _ _).
  - done.
Qed.

(** A creation that answers with the new task went through the three
    phases. *)
Lemma createTask_Json (body : gmap string Value) (code : nat) (msg : string)
    (o : ObjectId) (t : TaskDoc) :
  reply (createTask E now oid db user body) = Json code msg (o, t) →
  ∃ due receivers t0,
    validateInput E now body = inr due
    ∧ validateVariant db user body = inr receivers
    ∧ prepareTask user due body = inr t0
    ∧ taskSchemaValid E t0 = true ∧ variant_valid t0 = true
    ∧ t = preSave true t0
    ∧ code = 201 ∧ msg = taskType t +:+ " created successfully" ∧ o = oid
    ∧ bool_decide (0 < length receivers)
      && negb (forallb (notificationSchemaValid E)
                 (creationNotice user oid t <$> receivers)) = false
    ∧ createTask E now oid db user body
      = {| reply := Json 201 (taskType t +:+ " created successfully") (oid, t);
           store := created db oid t (creationNotice user oid t <$> receivers);
           emitted := creationEmit t
                        <$> (creationNotice user oid t <$> receivers) |}.
Proof.
  unfold createTask.
  destruct (validateInput E now body) as [|due]; [ done | ].
  destruct (validateVariant db user body) as [|receivers]; [ done | ].
  rewrite transactionalCreation_eq.
  destruct (prepareTask user due body) as [|t0] eqn:Hp; [ done | ].
  destruct (taskSchemaValid E t0 && variant_valid t0) eqn:Hvalid; [ | done ].
  cbn zeta. rewrite length_fmap.
  destruct (_ && negb _) eqn:Hn; [ done | ].
  cbn [reply]. intros [= <- <- <- <-].
  apply andb_true_iff in Hvalid as [? ?].
  by exists due, receivers, t0.
Qed.

Lemma creationNotice_users (t : TaskDoc) (receivers : list ObjectId) :
  n_user <$> (creationNotice user oid t <$> receivers) = receivers.
Proof. rewrite <- list_fmap_compose. apply list_fmap_id. Qed.

(** The checks of phases 1 and 2 do not read [status]. *)
Lemma validateInput_status (body : gmap string Value) (v : Value) :
  validateInput E now (<["status" := v]> body) = validateInput E now body.
Proof.
  unfold validateInput, missingFields, requiredFields.
  by rewrite !lookup_insert_ne.
Qed.

Lemma validateVariant_status (body : gmap string Value) (v : Value) :
  validateVariant db user (<["status" := v]> body)
  = validateVariant db user body.
Proof. unfold validateVariant. by rewrite !lookup_insert_ne. Qed.

Lemma prepareTask_status (due : Z) (body : gmap string Value) (s : string)
    (t0 : TaskDoc) :
  s ≠ "" →
  prepareTask user due body = inr t0 →
  prepareTask user due (<["status" := VStr s]> body) = inr (with_status t0 s).
Proof.
  intros Hs. unfold prepareTask, clientInfo_of.
  rewrite lookup_insert_eq, !lookup_insert_ne by done.
  destruct (trimValue (body !! "title")) as [|ti]; [ done | ].
  destruct (trimValue (body !! "description")) as [|de]; [ done | ].
  destruct (trimValue (body !! "location")) as [|lo]; [ done | ].
  step. cbn zeta.
  match goal with
  | |- context [x ← ?m; _] =>
    match m with
    | (if _ then _ else _) => destruct m as [|v]; [ done | ]
    end
  end.
  step.
  destruct (castString "Task" (or_else (body !! "priority") _)) as [|p];
    [ done | ].
  destruct (castString "Task" (or_else (body !! "status") _)) as [|s0];
    [ done | ].
  step. cbn [or_else truthy].
  apply String.eqb_neq in Hs as ->. cbn. by intros [= <-].
Qed.

(** *** The claims on creation *)

(** C1 (as amended): on an AssignedTask creation request that passed the
    input validation and whose assignedTo is a non-empty array of well-formed
    ids, the handler fails with INVALID_ASSIGNED_USERS, leaving the store as
    it was and pushing nothing, exactly when some id of the list does not
    resolve to an active user of the creator's company and department or
    occurs twice; otherwise creation proceeds to the transaction, with the
    assigned users other than the creator as receivers. *)
Theorem createTask_assignees (body : gmap string Value) (due : Z)
    (l : list IdInput) (ids : list ObjectId) :
  validateInput E now body = inr due →
  body !! "taskType" = Some (VStr "AssignedTask") →
  body !! "assignedTo" = Some (VArr l) →
  l ≠ [] →
  castIds l = inr ids →
  (¬ (NoDup ids ∧ Forall (λ o, resolves db user o = true) ids) →
     createTask E now oid db user body = fail db invalidAssignedUsers)
  ∧ (NoDup ids ∧ Forall (λ o, resolves db user o = true) ids →
     ∃ receivers,
       receivers ≡ₚ filter (λ o, o ≠ user_id user) ids
       ∧ createTask E now oid db user body
         = transactionalCreation E oid db user body due receivers).
Proof.
  intros Hi Ht Ha Hne Hc. unfold createTask. rewrite Hi.
  rewrite (validateVariant_assigned body l ids) by done.
  split; intros Hok.
  - by rewrite decide_False.
  - rewrite decide_True by done.
    exists (filter (λ o, o ≠ user_id user) (find_assignees db user ids).*1).
    split; [ | done ]. destruct Hok as [Hn Hall].
    by rewrite find_assignees_Permutation.
Qed.

(** C5 (as amended): a successful creation appends one notification for
    each recipient, and the recipients are, for an AssignedTask, the assigned
    users other than the creator and, for a ProjectTask, the active Managers
    and SuperAdmins of the creator's company and department other than the
    creator; the creator is never among them. *)
Theorem createTask_recipients (body : gmap string Value) (code : nat)
    (msg : string) (o : ObjectId) (t : TaskDoc) :
  reply (createTask E now oid db user body) = Json code msg (o, t) →
  ∃ ns,
    notifications (store (createTask E now oid db user body))
    = notifications db ++ ns
    ∧ NoDup (n_user <$> ns)
    ∧ ∀ x, x ∈ n_user <$> ns ↔
           x ≠ user_id user
           ∧ match variant t with
             | AssignedTask ids => x ∈ ids
             | ProjectTask _ =>
               leads db user x = true ∧ active db x = true
             end.
Proof.
  intros (due & receivers & t0 & Hi & Hv & Hp & _ & _ & -> & _ & _ & _ & _ & ->)
    %createTask_Json.
  exists (creationNotice user oid (preSave true t0) <$> receivers).
  cbn [store]. rewrite creationNotice_users.
  split; [ apply created_store | ].
  apply validateVariant_inr in Hv as (Hnd & Hassigned & Hproject).
  split; [ done | ]. intros x.
  apply validateInput_inr in Hi as [[Ht|Ht] _].
  - destruct (Hassigned Ht) as (l & ids & Ha & Hc & Hx).
    apply prepareTask_inr in Hp as (_ & _ & _ & _ & _ & _ & Hvar).
    rewrite bool_decide_eq_true_2, Ha, Hc in Hvar by done.
    destruct Hvar as (ids' & Hvar & [= <-]).
    unfold preSave. rewrite Hvar, Hvar. apply Hx.
  - apply prepareTask_inr in Hp as (_ & _ & _ & _ & _ & _ & Hvar).
    rewrite bool_decide_eq_false_2 in Hvar by (rewrite Ht; discriminate).
    destruct Hvar as (c & Hvar).
    unfold preSave. rewrite Hvar. cbn. by apply Hproject.
Qed.

(** C9 (as amended): on every successful creation the stored status is the
    one the body asks for when that is a non-empty string, and the default
    To Do when the property is absent, [null] or the empty string; the
    priority likewise, with default Medium.  No check against the transition
    table stands in the way: when a creation succeeds, the same request with
    any non-empty status that the task schema accepts succeeds too and stores
    that status. *)
Theorem createTask_initial_status (body : gmap string Value) (code : nat)
    (msg : string) (o : ObjectId) (t : TaskDoc) :
  reply (createTask E now oid db user body) = Json code msg (o, t) →
  status t = requested "To Do" (body !! "status")
  ∧ priority t = requested "Medium" (body !! "priority")
  ∧ tasks (store (createTask E now oid db user body)) !! oid = Some t
  ∧ ∀ s, s ≠ "" →
         (∀ t', taskSchemaValid E t' = true →
                taskSchemaValid E (with_status t' s) = true) →
         reply (createTask E now oid db user (<["status" := VStr s]> body))
         = Json code msg (o, with_status t s)
         ∧ tasks (store (createTask E now oid db user
                           (<["status" := VStr s]> body))) !! oid
           = Some (with_status t s).
Proof.
  intros (due & receivers & t0 & Hi & Hv & Hp & Hs0 & Hv0 & -> & -> & -> & ->
          & Hn & Heq)%createTask_Json.
  pose proof (prepareTask_inr _ _ _ Hp) as (Hst & Hpr & _).
  destruct (preSave_frame true t0) as (_ & Hpr' & Hst' & _).
  split; [ by rewrite Hst' | ]. split; [ by rewrite Hpr' | ].
  split.
  { rewrite Heq. cbn [store].
    destruct (created_store (preSave true t0)
                (creationNotice user oid (preSave true t0) <$> receivers))
      as (-> & _).
    apply lookup_insert_eq. }
  intros s Hs Hschema. unfold createTask.
  rewrite validateInput_status, validateVariant_status, Hi, Hv.
  rewrite transactionalCreation_eq, (prepareTask_status _ _ _ _ Hs Hp).
  rewrite (Hschema _ Hs0).
  replace (variant_valid (with_status t0 s)) with (variant_valid t0) by done.
  rewrite Hv0. cbn [andb]. cbn zeta.
  rewrite preSave_with_status, length_fmap.
  replace (creationNotice user oid (with_status (preSave true t0) s)
             <$> receivers)
    with (creationNotice user oid (preSave true t0) <$> receivers) by done.
  rewrite Hn. cbn [reply store].
  split; [ done | ].
  destruct (created_store (with_status (preSave true t0) s)
              (creationNotice user oid (preSave true t0) <$> receivers))
    as (-> & _).
  apply lookup_insert_eq.
Qed.

End create.

(** The claim of C1 fails twice over.  Manager 8 assigns [9; 9]: every id of
    the list resolves to an active user of the manager's company and
    department, and the request fails instead of proceeding.  Manager 8
    assigns [9; 12], where 12 is of another department: the request fails as
    claimed, but the code it carries is INVALID_ASSIGNED_USERS and not
    INVALID_ASSIGNEES. *)
Lemma createTask_assignees_counterexample :
  Forall (λ o, resolves Sample.db Sample.manager8 o = true) [9%N; 9%N]
  ∧ createTask Sample.env Sample.now 200 Sample.db Sample.manager8
      (Sample.assignedBody [IdValid 9; IdValid 9])
    = fail Sample.db invalidAssignedUsers
  ∧ reply (createTask Sample.env Sample.now 200 Sample.db Sample.manager8
             (Sample.assignedBody [IdValid 9; IdValid 12]))
    = NextError invalidAssignedUsers
  ∧ invalidAssignedUsers
    = Custom {| message :=
                  "One or more assigned users not found or not in your department";
                statusCode := 404;
                errorCode := Some "INVALID_ASSIGNED_USERS" |}
  ∧ Some "INVALID_ASSIGNED_USERS" ≠ Some "INVALID_ASSIGNEES".
Proof.
  split; [ by repeat constructor | ].
  split; [ by vm_compute | ].
  split; [ by vm_compute | ].
  done.
Qed.

(** Both halves of C1 at work: [9; 12] with the stranger 12 is turned down,
    and [9; 8] goes on to the transaction with user 9 as the one receiver. *)
Lemma createTask_assignees_witness :
  createTask Sample.env Sample.now 200 Sample.db Sample.manager8
    (Sample.assignedBody [IdValid 9; IdValid 12])
  = fail Sample.db invalidAssignedUsers
  ∧ ∃ receivers,
      receivers ≡ₚ filter (λ o, o ≠ user_id Sample.manager8) [9%N; 8%N]
      ∧ createTask Sample.env Sample.now 200 Sample.db Sample.manager8
          (Sample.assignedBody [IdValid 9; IdValid 8])
        = transactionalCreation Sample.env 200 Sample.db Sample.manager8
            (Sample.assignedBody [IdValid 9; IdValid 8]) 1893456000000
            receivers.
Proof.
  split.
  - apply (createTask_assignees Sample.env Sample.now 200 Sample.db
             Sample.manager8 _ 1893456000000 [IdValid 9; IdValid 12]
             [9%N; 12%N]);
      [ vm_compute; reflexivity | vm_compute; reflexivity
      | vm_compute; reflexivity | discriminate | reflexivity | ].
    intros [_ Hall]. apply Forall_cons in Hall as [_ Hall].
    apply Forall_cons in Hall as [Hall _]. vm_compute in Hall. discriminate.
  - apply (createTask_assignees Sample.env Sample.now 200 Sample.db
             Sample.manager8 _ 1893456000000 [IdValid 9; IdValid 8]
             [9%N; 8%N]);
      [ vm_compute; reflexivity | vm_compute; reflexivity
      | vm_compute; reflexivity | discriminate | reflexivity | ].
    split.
    + apply NoDup_cons. split; [ | apply NoDup_singleton ].
      intros Hin. apply list_elem_of_singleton in Hin. discriminate.
    + repeat (apply Forall_cons_2; [ vm_compute; reflexivity | ]).
      apply Forall_nil_2.
Defined.

(** The claim of C5 fails for a ProjectTask: user 11 is a Manager of the
    creator's department, is not the creator, and gets no notification,
    because the account is deactivated. *)
Lemma createTask_recipients_counterexample :
  reply (createTask Sample.env Sample.now 200 Sample.db Sample.manager8
           Sample.projectBody)
  = Json 201 "ProjectTask created successfully"
      (200%N,
       {| title := "Replace toner"; description := "Black cartridge";
          location := "HQ"; dueDate := 1893456000000; priority := "Medium";
          status := "To Do"; createdBy := 8%N; company := 1%N;
          department := 2%N;
          variant := ProjectTask {| client_name := "Abebe";
                                    client_phone := "+251912345678";
                                    client_address := None |} |})
  ∧ leads Sample.db Sample.manager8 11 = true
  ∧ 11%N ≠ user_id Sample.manager8
  ∧ n_user <$> notifications
                 (store (createTask Sample.env Sample.now 200 Sample.db
                           Sample.manager8 Sample.projectBody))
    = [7%N].
Proof. repeat split; by vm_compute. Qed.

(** C5 on the creation of an AssignedTask for users 9 and 8 by manager 8. *)
Lemma createTask_recipients_witness :
  ∃ ns,
    notifications
      (store (createTask Sample.env Sample.now 200 Sample.db Sample.manager8
                (Sample.assignedBody [IdValid 9; IdValid 8])))
    = notifications Sample.db ++ ns
    ∧ NoDup (n_user <$> ns)
    ∧ ∀ x, x ∈ n_user <$> ns ↔
           x ≠ user_id Sample.manager8 ∧ x ∈ [9%N; 8%N].
Proof.
  eapply (createTask_recipients Sample.env Sample.now 200 Sample.db
            Sample.manager8 (Sample.assignedBody [IdValid 9; IdValid 8])
            201 "AssignedTask created successfully" 200
            (Sample.toner [9%N; 8%N])).
  vm_compute. reflexivity.
Defined.

(** The claim of C9 fails on an empty status: it is supplied in the body,
    and the task is stored with To Do. *)
Lemma createTask_initial_status_counterexample :
  Sample.emptyStatus !! "status" = Some (VStr "")
  ∧ ∃ t, reply (createTask Sample.env Sample.now 200 Sample.db
                  Sample.manager8 Sample.emptyStatus)
         = Json 201 "ProjectTask created successfully" (200%N, t)
         ∧ status t = "To Do".
Proof.
  split; [ done | ]. eexists. split; [ by vm_compute | done ].
Qed.

(** C9 on a first status of Completed: the creation that succeeds without a
    status succeeds with it, and the new task is stored as Completed. *)
Lemma createTask_initial_status_witness :
  reply (createTask Sample.env Sample.now 200 Sample.db Sample.manager8
           (<["status" := VStr "Completed"]>
              (Sample.assignedBody [IdValid 9])))
  = Json 201 "AssignedTask created successfully"
      (200%N, with_status (Sample.toner [9%N]) "Completed")
  ∧ tasks (store (createTask Sample.env Sample.now 200 Sample.db
                    Sample.manager8
                    (<["status" := VStr "Completed"]>
                       (Sample.assignedBody [IdValid 9])))) !! 200%N
    = Some (with_status (Sample.toner [9%N]) "Completed").
Proof.
  refine (proj2 (proj2 (proj2
    (createTask_initial_status Sample.env Sample.now 200 Sample.db
       Sample.manager8 (Sample.assignedBody [IdValid 9]) 201
       "AssignedTask created successfully" 200 (Sample.toner [9%N]) _)))
    "Completed" _ _).
  - vm_compute. reflexivity.
  - discriminate.
  - intros t' _. vm_compute. reflexivity.
Defined.

(** ** getAllTasks and getTaskById *)

Section read.

Context (db : Db) (user : ReqUser).

Lemma paginate_docs (query : TaskQuery) (pg lim : nat) (o : ObjectId)
    (t : TaskDoc) :
  (o, t) ∈ docs (paginate db query pg lim) →
  tasks db !! o = Some t ∧ matchesb query t = true.
Proof.
  unfold paginate. cbn [docs]. intros Hin.
  apply subseteq_take, subseteq_drop in Hin.
  apply list_elem_of_filter in Hin as [Hm Hin].
  by apply elem_of_map_to_list in Hin.
Qed.

Lemma matchesb_true (query : TaskQuery) (t : TaskDoc) :
  matchesb query t = true →
  company t = query_company query
  ∧ department t = query_department query
  ∧ (∀ s, query_status query = Some s → status t = s)
  ∧ (∀ s, query_taskType query = Some s → taskType t = s)
  ∧ (∀ ids, query_assignedTo_in query = Some ids →
       ∃ l, assignedTo t = Some l ∧ Exists (λ x, x ∈ ids) l).
Proof.
  unfold matchesb, opt_eqb. rewrite !andb_true_iff.
  intros [[[[Hc Hd] Hs] Ht] Ha].
  apply bool_decide_eq_true in Hc, Hd.
  repeat split; try done.
  - intros s Hq. rewrite Hq in Hs. by apply bool_decide_eq_true in Hs.
  - intros s Hq. rewrite Hq in Ht. by apply bool_decide_eq_true in Ht.
  - intros ids Hq. rewrite Hq in Ha.
    destruct (assignedTo t) as [l|]; [ | done ].
    exists l. split; [ done | ]. by apply bool_decide_eq_true in Ha.
Qed.

(** The filter of a successful listing. *)
Lemma getAllTasks_Json (q : ListQuery) (c : nat) (m : string) (p : Page) :
  reply (getAllTasks db user q) = Json c m p →
  ∃ query, buildQuery user q = inr query
           ∧ p = paginate db query (default 1 (q_page q))
                   (default 10 (q_limit q)).
Proof.
  unfold getAllTasks. destruct (buildQuery user q) as [|query]; [ done | ].
  cbn. intros [= _ _ <-]. by exists query.
Qed.

Lemma buildQuery_inr (q : ListQuery) (query : TaskQuery) :
  buildQuery user q = inr query →
  query_company query = req_company user
  ∧ (req_role user ≠ SuperAdmin → query_department query = req_department user)
  ∧ (req_role user = User →
     query_taskType query = Some "AssignedTask"
     ∧ query_assignedTo_in query = Some [user_id user]).
Proof.
  unfold buildQuery, departmentFilter, roleFilter.
  destruct (truthy_id (q_departmentId q)).
  - destruct (q_departmentId q) as [[d|raw]|]; [ | done.. ].
    case_bool_decide as Hs; intros [= <-];
      case_bool_decide as Hu; cbn; repeat split; try done; congruence.
  - intros [= <-]. case_bool_decide as Hu; cbn; repeat split; try done.
Qed.

(** A principal of role User is listed AssignedTask documents of which the
    principal is an assignee, and no others. *)
Lemma getAllTasks_User (q : ListQuery) (c : nat) (m : string) (p : Page)
    (o : ObjectId) (t : TaskDoc) :
  req_role user = User →
  reply (getAllTasks db user q) = Json c m p →
  (o, t) ∈ docs p →
  tasks db !! o = Some t
  ∧ company t = req_company user ∧ department t = req_department user
  ∧ ∃ l, variant t = AssignedTask l ∧ user_id user ∈ l.
Proof.
  intros Hu (query & Hq & ->)%getAllTasks_Json [Ho Hm]%paginate_docs.
  apply buildQuery_inr in Hq as (Hc & Hd & Hrole).
  destruct (Hrole Hu) as [_ Ha].
  apply matchesb_true in Hm as (Ht1 & Ht2 & _ & _ & Hin).
  destruct (Hin _ Ha) as (l & Hl & Hex).
  split; [ done | ]. split; [ congruence | ].
  split; [ rewrite Ht2; apply Hd; congruence | ].
  exists l. unfold assignedTo in Hl.
  destruct (variant t) as [l'|]; [ | done ]. injection Hl as ->.
  split; [ done | ].
  apply Exists_exists in Hex as (x & Hx & ->%list_elem_of_singleton). done.
Qed.

(** Fetching by id as a User-role principal: an absent id, an AssignedTask
    the principal is not assigned to, and a ProjectTask. *)
Lemma getTaskById_User (o : ObjectId) :
  req_role user = User →
  (tasks db !! o = None →
     getTaskById db user (IdValid o)
     = fail db (customError "Task not found" 404 "TASK_NOT_FOUND"))
  ∧ (∀ t l, tasks db !! o = Some t → variant t = AssignedTask l →
       user_id user ∉ l →
       getTaskById db user (IdValid o) = fail db forbidden)
  ∧ (∀ t c, tasks db !! o = Some t → variant t = ProjectTask c →
       getTaskById db user (IdValid o) = fail db TypeError).
Proof.
  intros Hu. unfold getTaskById, notAssignee, assignedTo.
  split; [ by intros -> | ]. split.
  - intros t l -> -> Hl. rewrite bool_decide_eq_true_2 by done.
    by rewrite bool_decide_eq_false_2.
  - intros t c -> ->. by rewrite bool_decide_eq_true_2.
Qed.

(** C10 (as amended): for a list request that carries departmentId, a
    non-empty value that is not an object id fails with
    INVALID_DEPARTMENT_ID whatever the role; an empty value is ignored; a
    well-formed id is ignored for Manager and User principals; and every
    document listed belongs to the principal's company and to the department
    of the parameter for a SuperAdmin, to the principal's own department
    otherwise. *)
Theorem getAllTasks_departmentId (q : ListQuery) (i : IdInput) :
  q_departmentId q = Some i →
  match i with
  | IdInvalid raw =>
    if String.eqb raw "" then
      getAllTasks db user q = getAllTasks db user (noDepartment q)
    else getAllTasks db user q = fail db invalidDepartmentId
  | IdValid d =>
    (req_role user ≠ SuperAdmin →
       getAllTasks db user q = getAllTasks db user (noDepartment q))
    ∧ ∀ c m p o t,
        reply (getAllTasks db user q) = Json c m p → (o, t) ∈ docs p →
        company t = req_company user
        ∧ department t = if bool_decide (req_role user = SuperAdmin)
                         then d else req_department user
  end.
Proof.
  intros Hq. unfold getAllTasks, buildQuery, departmentFilter.
  rewrite Hq. destruct i as [d|raw]; cbn [truthy_id noDepartment q_departmentId].
  - split.
    + intros Hr. by rewrite bool_decide_eq_false_2.
    + intros c m p o t. case_bool_decide as Hr; cbn [reply];
        intros [= _ _ <-] [_ Hm]%paginate_docs;
        apply matchesb_true in Hm as (Hc & Hd & _); rewrite Hc, Hd;
        unfold roleFilter; by case_bool_decide.
  - by destruct (String.eqb raw "").
Qed.

End read.

(** C8 (the code departs from the claim): user 9, of role User, fetches the
    existing ProjectTask 101, of which nobody is an assignee.  The handler
    reads [includes] from the document's [assignedTo], which a ProjectTask
    does not have; the TypeError goes to the error handler, and the reply is
    not FORBIDDEN. *)
Theorem getTaskById_User_ProjectTask :
  req_role Sample.user9 = User
  ∧ tasks Sample.db !! 101%N = Some Sample.siteVisit
  ∧ assignedTo Sample.siteVisit = None
  ∧ getTaskById Sample.db Sample.user9 (IdValid 101)
    = fail Sample.db TypeError
  ∧ TypeError ≠ forbidden.
Proof. repeat split; by vm_compute. Qed.

(** The claim of C10 fails on an empty departmentId: the value is not an
    object id, and the list is served. *)
Lemma getAllTasks_departmentId_counterexample :
  ObjectId_isValid (IdInvalid "") = false
  ∧ q_departmentId (Sample.listAll (Some (IdInvalid ""))) = Some (IdInvalid "")
  ∧ ∃ p, reply (getAllTasks Sample.db Sample.user9
                  (Sample.listAll (Some (IdInvalid ""))))
         = Json 200 "Tasks retrieved successfully" p.
Proof. split; [ done | ]. split; [ done | ]. eexists. by vm_compute. Qed.

(** C10 on a departmentId that is not an object id, sent by a Manager. *)
Lemma getAllTasks_departmentId_witness :
  getAllTasks Sample.db Sample.manager8
    (Sample.listAll (Some (IdInvalid "dept-3")))
  = fail Sample.db invalidDepartmentId.
Proof.
  exact (getAllTasks_departmentId Sample.db Sample.manager8
           (Sample.listAll (Some (IdInvalid "dept-3")))
           (IdInvalid "dept-3") eq_refl).
Defined.

(** ** updateTaskById *)

Section update.

Context (E : Env) (db : Db) (user : ReqUser) (oid : ObjectId).

(** *** The change set *)

Lemma stripProtected_lookup (body : gmap string Value) (key : string) :
  stripProtected body !! key
  = if bool_decide (key ∈ protectedFields) then None else body !! key.
Proof.
  unfold stripProtected, protectedFields. cbn [foldl].
  case_bool_decide as Hk.
  - cases_elem_of Hk
      ltac:(repeat first [ apply lookup_delete_eq
                         | rewrite lookup_delete_ne by done ]).
  - rewrite !lookup_delete_ne; [ done | intros <-; apply Hk.. ]; in_literal.
Qed.

Lemma allowedUpdates_subseteq (task : TaskDoc) (key : string) :
  key ∈ allowedUpdates task →
  key ∈ ["title"; "description"; "location"; "dueDate"; "priority";
         "assignedTo"; "clientInfo"].
Proof.
  unfold allowedUpdates, taskType. rewrite !elem_of_app.
  intros [Hk|[Hk|Hk]]; [ | destruct (variant task); cbn in Hk.. ];
    cases_elem_of Hk in_literal.
Qed.

(** An assignment to an updatable path leaves the protected paths and the
    company as they were. *)
Lemma assign_frame (key : string) (v : Value) (t : TaskDoc) :
  key ∈ ["title"; "description"; "location"; "dueDate"; "priority";
         "assignedTo"; "clientInfo"] →
  taskType (assign E key v t).1 = taskType t
  ∧ createdBy (assign E key v t).1 = createdBy t
  ∧ department (assign E key v t).1 = department t
  ∧ status (assign E key v t).1 = status t
  ∧ company (assign E key v t).1 = company t.
Proof.
  intros Hk.
  cases_elem_of Hk
    ltac:(unfold assign, taskType; cbn;
          destruct v; destruct t as [????????? []]; cbn;
          repeat (case_match; cbn); done).
Qed.

(** Without the two guards of the handler an assignment does reach a
    protected path. *)
Lemma assign_status (s : string) (t : TaskDoc) :
  assign E "status" (VStr s) t = (with_status t s, true).
Proof. done. Qed.

Lemma applyKey_inl (allowed : list string) (e : Thrown)
    (l : list (string * Value)) :
  foldl (applyKey E allowed) (inl e) l = inl e.
Proof. by induction l. Qed.

(** A property of the draft that each round keeps holds when all the keys
    have been visited. *)
Lemma applyUpdates_inv (P : Draft → Prop) (task : TaskDoc)
    (updateData : gmap string Value) (d : Draft) :
  P {| doc := task; castFailed := false; hasAssignedToChange := false |} →
  (∀ d0 k v d1,
     updateData !! k = Some v → P d0 →
     applyKey E (allowedUpdates task) (inr d0) (k, v) = inr d1 → P d1) →
  applyUpdates E task updateData = inr d →
  P d.
Proof.
  intros H0 Hstep. unfold applyUpdates.
  assert (∀ kv, kv ∈ map_to_list updateData → updateData !! kv.1 = Some kv.2)
    as Hin by (intros [k v]; apply elem_of_map_to_list).
  revert Hin H0. generalize (map_to_list updateData).
  generalize {| doc := task; castFailed := false;
                hasAssignedToChange := false |}.
  intros d0 l. revert d0. induction l as [|[k v] l IH]; intros d0 Hin H0.
  - cbn. by intros [= <-].
  - cbn [foldl].
    destruct (applyKey E (allowedUpdates task) (inr d0) (k, v)) as [e|d1] eqn:Hk.
    + by rewrite applyKey_inl.
    + apply IH.
      * intros kv Hkv. apply Hin. by apply list_elem_of_further.
      * eapply Hstep; [ | done | done ].
        apply (Hin (k, v)), list_elem_of_here.
Qed.

Lemma applyKey_frame (task : TaskDoc) (d0 d1 : Draft) (kv : string * Value) :
  applyKey E (allowedUpdates task) (inr d0) kv = inr d1 →
  taskType (doc d1) = taskType (doc d0)
  ∧ createdBy (doc d1) = createdBy (doc d0)
  ∧ department (doc d1) = department (doc d0)
  ∧ status (doc d1) = status (doc d0)
  ∧ company (doc d1) = company (doc d0).
Proof.
  unfold applyKey. step.
  case_bool_decide as Hk; [ | by intros [= <-] ].
  destruct (if String.eqb kv.1 "assignedTo" then _ else _) as [|chg];
    [ done | ].
  step. intros [= <-]. cbn [doc].
  by apply assign_frame, (allowedUpdates_subseteq task).
Qed.

Lemma applyUpdates_frame (task : TaskDoc) (updateData : gmap string Value)
    (d : Draft) :
  applyUpdates E task updateData = inr d →
  taskType (doc d) = taskType task
  ∧ createdBy (doc d) = createdBy task
  ∧ department (doc d) = department task
  ∧ status (doc d) = status task
  ∧ company (doc d) = company task.
Proof.
  apply (applyUpdates_inv
           (λ d, taskType (doc d) = taskType task
                 ∧ createdBy (doc d) = createdBy task
                 ∧ department (doc d) = department task
                 ∧ status (doc d) = status task
                 ∧ company (doc d) = company task)); [ done | ].
  intros d0 k v d1 _ (H1 & H2 & H3 & H4 & H5) Hk.
  apply applyKey_frame in Hk as (? & ? & ? & ? & ?).
  repeat split; congruence.
Qed.

(** *** The transaction *)

Lemma updateTransaction_eq (task : TaskDoc) (body : gmap string Value) :
  updateTransaction E db user oid task body
  = match applyUpdates E task (stripProtected body) with
    | inl e => fail db e
    | inr d =>
      match validateAssignedTo db user task (stripProtected body),
            changedFields E task (doc d) (stripProtected body) with
      | inl e, _ => fail db e
      | inr _, inl e => fail db e
      | inr _, inr changed =>
        if negb (castFailed d)
           && taskSchemaValid E (doc d) && variant_valid (doc d) then
          let saved :=
            preSave (bool_decide (client_phone <$> clientInfoOf (doc d)
                                  ≠ client_phone <$> clientInfoOf task))
              (doc d) in
          let ns :=
            updateNotifications
              (set_tasks db (<[oid := saved]> (tasks db))) user oid task saved
              changed (hasAssignedToChange d) in
          if bool_decide (0 < length ns)
             && negb (forallb (notificationSchemaValid E) ns)
          then fail db (ValidationError "Notification")
          else {| reply := Json 200 "Task updated successfully" (oid, saved);
                  store := created db oid saved ns;
                  emitted := (λ n, emitToUser (n_user n)
                                     "notification-update" n) <$> ns |}
        else fail db (ValidationError "Task")
      end
    end.
Proof.
  unfold updateTransaction, save, created, insertMany.
  destruct (applyUpdates E task (stripProtected body)) as [e|d]; [ done | ].
  step.
  destruct (validateAssignedTo _ _ _ _) as [e|[]]; [ done | ]. step.
  destruct (changedFields _ _ _ _) as [e|changed]; [ done | ]. step.
  destruct (castFailed d); [ done | ]. cbn [negb andb].
  destruct (taskSchemaValid E (doc d) && variant_valid (doc d)); [ | done ].
  step. cbn zeta.
  set (saved := preSave _ (doc d)).
  set (ns := updateNotifications _ _ _ _ _ _ _).
  destruct (bool_decide (0 < length ns)); cbn [andb negb]; step;
    [ by destruct (forallb _ ns) | done ].
Qed.

Lemma updateTransaction_frame (task : TaskDoc) (body : gmap string Value) :
  tasks db !! oid = Some task →
  ∃ task',
    tasks (store (updateTransaction E db user oid task body)) !! oid
    = Some task'
    ∧ taskType task' = taskType task
    ∧ createdBy task' = createdBy task
    ∧ department task' = department task
    ∧ status task' = status task.
Proof.
  intros Ht. rewrite updateTransaction_eq.
  destruct (applyUpdates E task (stripProtected body)) as [|d] eqn:Ha;
    [ by exists task | ].
  destruct (validateAssignedTo _ _ _ _) as [|[]]; [ by exists task | ].
  destruct (changedFields _ _ _ _) as [|changed]; [ by exists task | ].
  destruct (negb _ && _ && _); [ | by exists task ].
  cbn zeta. set (saved := preSave _ (doc d)).
  destruct (_ && negb _); [ by exists task | ].
  exists saved. cbn [store].
  destruct (created_store oid db saved
              (updateNotifications
                 (set_tasks db (<[oid:=saved]> (tasks db))) user oid task saved
                 changed (hasAssignedToChange d))) as (-> & _).
  split; [ apply lookup_insert_eq | ].
  apply applyUpdates_frame in Ha as (H1 & H2 & H3 & H4 & _).
  subst saved.
  destruct (preSave_frame
              (bool_decide (client_phone <$> clientInfoOf (doc d)
                            ≠ client_phone <$> clientInfoOf task)) (doc d))
    as (_ & _ & -> & -> & _ & -> & -> & _).
  done.
Qed.

(** *** Who may update *)



(** *** The protected paths *)

(** C7: whatever the body of an update request holds, the protected fields
    are removed from the change set before it is applied, and the task that
    the store holds afterwards has the taskType, createdBy, department and
    status it had before. *)
Theorem updateTaskById_protected (task : TaskDoc) (body : gmap string Value) :
  tasks db !! oid = Some task →
  (∀ field, field ∈ protectedFields → stripProtected body !! field = None)
  ∧ ∃ task',
      tasks (store (updateTaskById E db user (IdValid oid) body)) !! oid
      = Some task'
      ∧ taskType task' = taskType task
      ∧ createdBy task' = createdBy task
      ∧ department task' = department task
      ∧ status task' = status task.
Proof.
  intros Ht. split.
  { intros field Hf. rewrite stripProtected_lookup.
    by rewrite bool_decide_eq_true_2. }
  unfold updateTaskById.
  case_bool_decide; [ by exists task | ]. rewrite Ht.
  destruct (mayUpdate user task); [ | by exists task ].
  by apply updateTransaction_frame.
Qed.

(** *** An update that changes nothing *)

Section identical.

(** The helper does not tell a list from itself: it answers [true] or
    throws. *)
Hypothesis arraysEqual_same : ∀ l, arraysEqual E l l ≠ inr false.

Lemma pathChanged_same (key : string) (t : TaskDoc) :
  pathChanged key t t = false.
Proof.
  unfold pathChanged.
  repeat (case_match; [ by apply bool_decide_eq_false_2; intros [] | ]).
  done.
Qed.

(** Written back over itself, a value leaves the document as it is. *)
Lemma assign_same (task : TaskDoc) (key : string) (v : Value) :
  key ∈ allowedUpdates task →
  sameAsCurrent E task key v →
  assign E key v task = (task, true).
Proof.
  unfold allowedUpdates, taskType, sameAsCurrent, assign, assignedTo,
    clientInfoOf.
  destruct task as [ti de lo du pr st cb co dp [ids|c]]; cbn;
    intros Hk; cases_elem_of Hk ltac:(cbn; try (by intros ->)).
  - intros Hv. rewrite (Hv ids eq_refl). by rewrite castIds_idStrings.
  - intros Hv. by destruct (Hv c eq_refl) as (i & -> & ->).
Qed.

Lemma applyKey_same (task : TaskDoc) (key : string) (v : Value) (d1 : Draft) :
  sameAsCurrent E task key v →
  applyKey E (allowedUpdates task)
    (inr {| doc := task; castFailed := false; hasAssignedToChange := false |})
    (key, v) = inr d1 →
  d1 = {| doc := task; castFailed := false; hasAssignedToChange := false |}.
Proof.
  intros Hsame. unfold applyKey.
  cbn [mbind Thrown_bind mret Thrown_ret fst snd doc castFailed
       hasAssignedToChange].
  case_bool_decide as Hk; [ | by intros [= <-] ].
  rewrite (assign_same task key v Hk Hsame).
  destruct (String.eqb_spec key "assignedTo") as [->|_].
  - unfold sameAsCurrent in Hsame. cbn in Hsame.
    destruct (assignedTo task) as [ids|]; [ | by destruct v ].
    rewrite (Hsame ids eq_refl).
    pose proof (arraysEqual_same (idStrings ids)) as Hl.
    destruct (arraysEqual E (idStrings ids) (idStrings ids)) as [|[]];
      cbn; [ done | by intros [= <-] | done ].
  - cbn. by intros [= <-].
Qed.

Lemma applyUpdates_same (task : TaskDoc) (updateData : gmap string Value)
    (d : Draft) :
  identicalPayload E task updateData →
  applyUpdates E task updateData = inr d →
  d = {| doc := task; castFailed := false; hasAssignedToChange := false |}.
Proof.
  intros Hid.
  apply (applyUpdates_inv
           (λ d, d = {| doc := task; castFailed := false;
                        hasAssignedToChange := false |})); [ done | ].
  intros d0 k v d1 Hkv -> Hk.
  by apply (applyKey_same task k v d1 (Hid k v Hkv)).
Qed.

Lemma changedFields_same (task : TaskDoc) (updateData : gmap string Value)
    (changed : list string) :
  changedFields E task task updateData = inr changed → changed = [].
Proof.
  unfold changedFields.
  rewrite (filter_none _ (map_to_list updateData).*1).
  - destruct (String.eqb _ _); [ | by intros [= <-] ].
    pose proof (arraysEqual_same
                  (idStrings (default [] (assignedTo task)))) as Hl.
    destruct (arraysEqual E _ _) as [|[]]; cbn;
      [ done | by intros [= <-] | done ].
  - intros x _ [_ Hc]. by rewrite pathChanged_same in Hc.
Qed.

Lemma updateNotifications_none (db' : Db) (task : TaskDoc) :
  updateNotifications db' user oid task task [] false = [].
Proof.
  unfold updateNotifications. cbn [existsb orb].
  by rewrite andb_false_r.
Qed.

Lemma identicalPayload_strip (task : TaskDoc) (body : gmap string Value) :
  identicalPayload E task body → identicalPayload E task (stripProtected body).
Proof.
  intros Hid key v. rewrite stripProtected_lookup.
  case_bool_decide; [ done | apply Hid ].
Qed.

(** C6: an update whose payload says what the task already holds adds no
    notification and no activity record, and pushes nothing; this holds for
    any helper [arraysEqual] that does not tell a list from itself. *)
Theorem updateTaskById_identical (task : TaskDoc) (body : gmap string Value) :
  tasks db !! oid = Some task →
  identicalPayload E task body →
  notifications (store (updateTaskById E db user (IdValid oid) body))
  = notifications db
  ∧ activities (store (updateTaskById E db user (IdValid oid) body))
    = activities db
  ∧ emitted (updateTaskById E db user (IdValid oid) body) = [].
Proof.
  intros Ht Hid. unfold updateTaskById.
  case_bool_decide; [ done | ]. rewrite Ht.
  destruct (mayUpdate user task); [ | done ]. cbn [negb].
  rewrite updateTransaction_eq.
  destruct (applyUpdates E task (stripProtected body)) as [|d] eqn:Ha;
    [ done | ].
  apply applyUpdates_same in Ha as ->;
    [ | by apply identicalPayload_strip ].
  destruct (validateAssignedTo _ _ _ _) as [|[]]; [ done | ]. cbn [doc].
  destruct (changedFields _ _ _ _) as [|changed] eqn:Hc; [ done | ].
  apply changedFields_same in Hc as ->.
  destruct (negb _ && _ && _); [ | done ]. cbn zeta.
  cbn [castFailed hasAssignedToChange].
  rewrite (bool_decide_eq_false_2 (_ ≠ _)) by (intros Hne; by apply Hne).
  rewrite preSave_false, updateNotifications_none. cbn.
  done.
Qed.

End identical.

End update.



(** C7 on a body that reaches for all four protected fields. *)
Lemma updateTaskById_protected_witness :
  (∀ field, field ∈ protectedFields →
            stripProtected Sample.tamper !! field = None)
  ∧ ∃ task',
      tasks (store (updateTaskById Sample.env Sample.db Sample.manager8
                      (IdValid 100) Sample.tamper)) !! 100%N
      = Some task'
      ∧ taskType task' = taskType Sample.fixPrinter
      ∧ createdBy task' = createdBy Sample.fixPrinter
      ∧ department task' = department Sample.fixPrinter
      ∧ status task' = status Sample.fixPrinter.
Proof.
  exact (updateTaskById_protected Sample.env Sample.db Sample.manager8 100
           Sample.fixPrinter Sample.tamper eq_refl).
Defined.

(** C6 on manager 8 sending task 100 back as it is. *)
Lemma updateTaskById_identical_witness :
  notifications (store (updateTaskById Sample.env Sample.db Sample.manager8
                          (IdValid 100) Sample.unchanged))
  = notifications Sample.db
  ∧ activities (store (updateTaskById Sample.env Sample.db Sample.manager8
                         (IdValid 100) Sample.unchanged))
    = activities Sample.db
  ∧ emitted (updateTaskById Sample.env Sample.db Sample.manager8
               (IdValid 100) Sample.unchanged) = [].
Proof.
  refine (updateTaskById_identical Sample.env Sample.db Sample.manager8 100
            _ Sample.fixPrinter Sample.unchanged _ _).
  - intros l [= Hl]. apply bool_decide_eq_false in Hl. apply Hl. reflexivity.
  - reflexivity.
  - intros key v Hkv. unfold Sample.unchanged in Hkv.
    repeat (apply lookup_insert_Some in Hkv as [[<- <-]|[_ Hkv]];
            [ try (vm_compute; reflexivity) | ]).
    + intros ids [= <-]. reflexivity.
    + apply lookup_singleton_Some in Hkv as [<- <-]. exact I.
Defined.

(** * Further properties *)

(** ** createTask: what a creation writes *)

Section creation.

Context (E : Env) (now : Z) (oid : ObjectId) (db : Db) (user : ReqUser).

Lemma created_frame (t : TaskDoc) (ns : list Notification) :
  companies (created db oid t ns) = companies db
  ∧ departments (created db oid t ns) = departments db.
Proof. unfold created. by case_bool_decide. Qed.

(** X1: a creation that succeeds files the task under the caller: the
    stored document names the caller as creator and carries the caller's
    company and department, whatever the body holds under [createdBy],
    [company] or [department].  It is written under the new id and no other
    task, user, company, department or activity record is touched. *)
Theorem createTask_scope (body : gmap string Value) (code : nat)
    (msg : string) (o : ObjectId) (t : TaskDoc) :
  reply (createTask E now oid db user body) = Json code msg (o, t) →
  createdBy t = user_id user
  ∧ company t = req_company user
  ∧ department t = req_department user
  ∧ tasks (store (createTask E now oid db user body)) = <[oid := t]> (tasks db)
  ∧ users (store (createTask E now oid db user body)) = users db
  ∧ companies (store (createTask E now oid db user body)) = companies db
  ∧ departments (store (createTask E now oid db user body)) = departments db
  ∧ activities (store (createTask E now oid db user body)) = activities db.
Proof.
  intros Hr.
  apply createTask_Json in Hr
    as (due & receivers & t0 & _ & _ & Hp & _ & _ & -> & _ & _ & _ & _ & ->).
  apply prepareTask_inr in Hp as (_ & _ & Hc & Hco & Hd & _).
  destruct (preSave_frame true t0) as (_ & _ & _ & -> & -> & -> & _).
  cbn [store].
  destruct (created_store oid db (preSave true t0)
              (creationNotice user oid (preSave true t0) <$> receivers))
    as (-> & _ & -> & ->).
  destruct (created_frame (preSave true t0)
              (creationNotice user oid (preSave true t0) <$> receivers))
    as (-> & ->).
  done.
Qed.

End creation.

Lemma createTask_scope_witness :
  createdBy (Sample.toner [9%N]) = user_id Sample.manager8
  ∧ company (Sample.toner [9%N]) = req_company Sample.manager8
  ∧ department (Sample.toner [9%N]) = req_department Sample.manager8
  ∧ tasks (store (createTask Sample.env Sample.now 200 Sample.db
                    Sample.manager8 (Sample.assignedBody [IdValid 9])))
    = <[200%N := Sample.toner [9%N]]> (tasks Sample.db)
  ∧ users (store (createTask Sample.env Sample.now 200 Sample.db
                    Sample.manager8 (Sample.assignedBody [IdValid 9])))
    = users Sample.db
  ∧ companies (store (createTask Sample.env Sample.now 200 Sample.db
                        Sample.manager8 (Sample.assignedBody [IdValid 9])))
    = companies Sample.db
  ∧ departments (store (createTask Sample.env Sample.now 200 Sample.db
                          Sample.manager8 (Sample.assignedBody [IdValid 9])))
    = departments Sample.db
  ∧ activities (store (createTask Sample.env Sample.now 200 Sample.db
                         Sample.manager8 (Sample.assignedBody [IdValid 9])))
    = activities Sample.db.
Proof.
  apply (createTask_scope Sample.env Sample.now 200 Sample.db Sample.manager8
           (Sample.assignedBody [IdValid 9]) 201
           "AssignedTask created successfully" 200).
  by vm_compute.
Defined.

(** ** ProjectTaskModel.js: the phone number a project task is stored with *)

Lemma startsWith_nil (s : string) : startsWith s "" = true.
Proof. by destruct s. Qed.

Lemma startsWith_09 (p : string) :
  startsWith p "09" = true → ∃ r, p = "09" +:+ r.
Proof.
  destruct p as [|a [|b r]]; cbn [startsWith]; try done.
  - by rewrite andb_false_r.
  - rewrite startsWith_nil, andb_true_r.
    intros [<-%Ascii.eqb_eq <-%Ascii.eqb_eq]%andb_true_iff. by exists r.
Qed.

Lemma startsWith_plus (p : string) :
  startsWith p "+2519" = true → startsWith p "09" = false.
Proof.
  destruct p as [|a p]; [ done | ]. cbn [startsWith].
  destruct (Ascii.eqb_spec "+" a) as [<-|]; [ done | ].
  by rewrite andb_false_l.
Qed.

(** The two shapes the validator accepts. *)
Lemma phone_ok_cases (p : string) :
  phone_ok p = true →
  (∃ r, p = "09" +:+ r ∧ String.length r = 8 ∧ all_digits r = true)
  ∨ (startsWith p "+2519" = true ∧ String.length p = 13
     ∧ all_digits (drop_str 5 p) = true).
Proof.
  unfold phone_ok. intros [H|H]%orb_true_iff.
  - left. apply andb_true_iff in H as [[Hs Hl]%andb_true_iff Hd].
    apply startsWith_09 in Hs as [r ->]. exists r.
    split; [ done | ]. split.
    + apply Nat.eqb_eq in Hl. cbv [String.append] in Hl.
      cbn [String.length] in Hl. lia.
    + by cbv [String.append] in Hd.
  - right. apply andb_true_iff in H as [[Hs Hl]%andb_true_iff Hd].
    by apply Nat.eqb_eq in Hl.
Qed.

(** What the hook makes of the two shapes. *)
Lemma formatPhone_cases (c : ClientInfo) :
  phone_ok (client_phone c) = true →
  (∃ r, String.length r = 8 ∧ all_digits r = true
        ∧ formatPhone true c
          = {| client_name := client_name c;
               client_phone := "+2519" +:+ r;
               client_address := client_address c |})
  ∨ (startsWith (client_phone c) "+2519" = true
     ∧ String.length (client_phone c) = 13
     ∧ all_digits (drop_str 5 (client_phone c)) = true
     ∧ formatPhone true c = c).
Proof.
  intros [(r & Hp & Hl & Hd)|(Hs & Hl & Hd)]%phone_ok_cases.
  - left. exists r. repeat split; try done.
    unfold formatPhone. rewrite Hp. cbv [String.append].
    cbn [startsWith andb drop_str]. by rewrite startsWith_nil.
  - right. repeat split; try done.
    unfold formatPhone. by rewrite (startsWith_plus _ Hs).
Qed.

Lemma formatPhone_shape (c : ClientInfo) :
  phone_ok (client_phone c) = true →
  startsWith (client_phone (formatPhone true c)) "+2519" = true
  ∧ String.length (client_phone (formatPhone true c)) = 13
  ∧ all_digits (drop_str 5 (client_phone (formatPhone true c))) = true.
Proof.
  intros [(r & Hl & Hd & ->)|(Hs & Hl & Hd & ->)]%formatPhone_cases;
    [ | done ].
  cbn [client_phone]. cbv [String.append]. cbn [startsWith drop_str].
  rewrite startsWith_nil. cbn [String.length]. by rewrite Hl.
Qed.

(** X2: the pre-save hook of a project task turns every phone number the
    validator accepts into the international form, +2519 and eight digits,
    which the validator accepts as well; the client's name and address are
    left alone, and a second run of the hook changes nothing. *)
Theorem formatPhone_international (c : ClientInfo) :
  phone_ok (client_phone c) = true →
  startsWith (client_phone (formatPhone true c)) "+2519" = true
  ∧ String.length (client_phone (formatPhone true c)) = 13
  ∧ all_digits (drop_str 5 (client_phone (formatPhone true c))) = true
  ∧ phone_ok (client_phone (formatPhone true c)) = true
  ∧ client_name (formatPhone true c) = client_name c
  ∧ client_address (formatPhone true c) = client_address c
  ∧ ∀ m, formatPhone m (formatPhone true c) = formatPhone true c.
Proof.
  intros Hok.
  destruct (formatPhone_shape c Hok) as (Hs & Hl & Hd).
  split; [ done | ]. split; [ done | ]. split; [ done | ].
  split.
  { unfold phone_ok. rewrite Hs, Hl, Hd. by rewrite orb_true_r. }
  assert (∀ m, formatPhone m (formatPhone true c) = formatPhone true c)
    as Hm.
  { intros m. unfold formatPhone at 1.
    by rewrite (startsWith_plus _ Hs), andb_false_r. }
  apply formatPhone_cases in Hok as [(r & _ & _ & Hf)|(_ & _ & _ & Hf)];
    by rewrite Hf in *.
Qed.

Lemma formatPhone_international_witness :
  startsWith (client_phone (formatPhone true
     {| client_name := "Abebe"; client_phone := "0912345678";
        client_address := None |})) "+2519" = true
  ∧ String.length (client_phone (formatPhone true
     {| client_name := "Abebe"; client_phone := "0912345678";
        client_address := None |})) = 13
  ∧ all_digits (drop_str 5 (client_phone (formatPhone true
     {| client_name := "Abebe"; client_phone := "0912345678";
        client_address := None |}))) = true
  ∧ phone_ok (client_phone (formatPhone true
     {| client_name := "Abebe"; client_phone := "0912345678";
        client_address := None |})) = true
  ∧ client_name (formatPhone true
     {| client_name := "Abebe"; client_phone := "0912345678";
        client_address := None |}) = "Abebe"
  ∧ client_address (formatPhone true
     {| client_name := "Abebe"; client_phone := "0912345678";
        client_address := None |}) = None
  ∧ ∀ m, formatPhone m (formatPhone true
     {| client_name := "Abebe"; client_phone := "0912345678";
        client_address := None |})
    = formatPhone true
     {| client_name := "Abebe"; client_phone := "0912345678";
        client_address := None |}.
Proof.
  apply (formatPhone_international
           {| client_name := "Abebe"; client_phone := "0912345678";
              client_address := None |}).
  reflexivity.
Defined.

(** X3: a project task that [createTask] stores carries its client's phone
    number in the international form, +2519 and eight digits, also when the
    request gave it in the national form 09 and eight digits. *)
Theorem createTask_client_phone (E : Env) (now : Z) (oid : ObjectId)
    (db : Db) (user : ReqUser) (body : gmap string Value) (code : nat)
    (msg : string) (o : ObjectId) (t : TaskDoc) (c : ClientInfo) :
  reply (createTask E now oid db user body) = Json code msg (o, t) →
  variant t = ProjectTask c →
  tasks (store (createTask E now oid db user body)) !! oid = Some t
  ∧ startsWith (client_phone c) "+2519" = true
  ∧ String.length (client_phone c) = 13
  ∧ all_digits (drop_str 5 (client_phone c)) = true.
Proof.
  intros Hr Hv.
  apply createTask_Json in Hr
    as (due & receivers & t0 & _ & _ & _ & _ & Hvalid & -> & _ & _ & _ & _
        & ->).
  cbn [store]. split.
  { destruct (created_store oid db (preSave true t0)
                (creationNotice user oid (preSave true t0) <$> receivers))
      as (-> & _).
    apply lookup_insert_eq. }
  unfold preSave in Hv. unfold variant_valid in Hvalid.
  destruct (variant t0) as [ids|c0] eqn:Hv0; [ by rewrite Hv0 in Hv | ].
  cbn in Hv. injection Hv as <-.
  apply andb_true_iff in Hvalid as [_ Hok].
  by apply formatPhone_shape.
Qed.

Lemma createTask_client_phone_witness :
  tasks (store (createTask Sample.env Sample.now 200 Sample.db
                  Sample.manager8 Sample.projectBody)) !! 200%N
  = Some (with_variant (Sample.toner [])
            (ProjectTask {| client_name := "Abebe";
                            client_phone := "+251912345678";
                            client_address := None |}))
  ∧ startsWith "+251912345678" "+2519" = true
  ∧ String.length "+251912345678" = 13
  ∧ all_digits (drop_str 5 "+251912345678") = true.
Proof.
  apply (createTask_client_phone Sample.env Sample.now 200 Sample.db
           Sample.manager8 Sample.projectBody 201
           "ProjectTask created successfully" 200
           (with_variant (Sample.toner [])
              (ProjectTask {| client_name := "Abebe";
                              client_phone := "+251912345678";
                              client_address := None |}))
           {| client_name := "Abebe"; client_phone := "+251912345678";
              client_address := None |}).
  - by vm_compute.
  - reflexivity.
Defined.

(** ** getAllTasks and getTaskById: what a principal is shown *)

Section shown.

Context (db : Db) (user : ReqUser).

Lemma buildQuery_filters (q : ListQuery) (query : TaskQuery) :
  buildQuery user q = inr query →
  query_status query = opt_truthy (q_status q)
  ∧ (req_role user ≠ User → query_taskType query = opt_truthy (q_taskType q)).
Proof.
  unfold buildQuery, departmentFilter, roleFilter, baseQuery.
  destruct (truthy_id (q_departmentId q)).
  - destruct (q_departmentId q) as [[d|raw]|]; [ | done.. ].
    repeat case_bool_decide; intros [= <-]; done.
  - case_bool_decide; intros [= <-]; done.
Qed.

(** X4: every task that [getAllTasks] returns is a task of the store that
    belongs to the caller's company and, unless the caller is a SuperAdmin,
    to the caller's department; a caller of role User is shown assigned
    tasks only, and only those the caller is an assignee of; a status named
    in the query is the status of every task returned. *)
Theorem getAllTasks_shown (q : ListQuery) (c : nat) (m : string) (p : Page)
    (o : ObjectId) (t : TaskDoc) :
  reply (getAllTasks db user q) = Json c m p →
  (o, t) ∈ docs p →
  tasks db !! o = Some t
  ∧ company t = req_company user
  ∧ (req_role user ≠ SuperAdmin → department t = req_department user)
  ∧ (req_role user = User →
     ∃ l, variant t = AssignedTask l ∧ user_id user ∈ l)
  ∧ (∀ s, q_status q = Some s → s ≠ "" → status t = s).
Proof.
  intros (query & Hq & ->)%getAllTasks_Json Hin.
  apply paginate_docs in Hin as [Ht Hm].
  apply matchesb_true in Hm as (Hc & Hd & Hs & Hty & Ha).
  pose proof (buildQuery_inr user q query Hq) as (Hqc & Hqd & Hqu).
  pose proof (buildQuery_filters q query Hq) as (Hqs & _).
  split; [ done | ]. split; [ congruence | ].
  split; [ intros Hr; rewrite Hd; by apply Hqd | ].
  split.
  - intros Hu. destruct (Hqu Hu) as [_ Hqa].
    destruct (Ha _ Hqa) as (l & Hl & Hex). exists l. split.
    + unfold assignedTo in Hl. by destruct (variant t) as [l'|]; simplify_eq.
    + apply Exists_exists in Hex as (x & Hx & ->%list_elem_of_singleton).
      done.
  - intros s Hs' Hne. apply Hs. rewrite Hqs, Hs'. unfold opt_truthy.
    cbn. by apply String.eqb_neq in Hne as ->.
Qed.

(** X5: the [taskType] of the query.  For a caller of role User it does not
    matter: the answer is the one the query gets without it.  For a Manager
    or SuperAdmin a non-empty [taskType] other than AssignedTask and
    ProjectTask is not refused; it is used as a filter that no task meets,
    and the page comes back empty. *)
Theorem getAllTasks_taskType (q : ListQuery) :
  (req_role user = User →
   getAllTasks db user q = getAllTasks db user (anyTaskType q))
  ∧ (req_role user ≠ User →
     ∀ s c m p,
       q_taskType q = Some s → s ≠ "" →
       s ∉ ["AssignedTask"; "ProjectTask"] →
       reply (getAllTasks db user q) = Json c m p →
       docs p = [] ∧ totalItems p = 0).
Proof.
  split.
  - intros Hu. unfold getAllTasks, buildQuery, roleFilter, baseQuery.
    by rewrite bool_decide_eq_true_2.
  - intros Hu s c m p Hs Hne Hnot (query & Hq & ->)%getAllTasks_Json.
    destruct (buildQuery_filters q query Hq) as (_ & Hty).
    specialize (Hty Hu). rewrite Hs in Hty. unfold opt_truthy in Hty.
    cbn in Hty. apply String.eqb_neq in Hne. rewrite Hne in Hty. cbn in Hty.
    unfold paginate. cbn [docs totalItems].
    rewrite filter_none; [ by rewrite drop_nil, take_nil | ].
    intros [o t] _. cbn. unfold matchesb. rewrite Hty. cbn [opt_eqb].
    rewrite (bool_decide_eq_false_2 (taskType t = s)).
    + by rewrite andb_false_r.
    + intros <-. apply Hnot. unfold taskType.
      destruct (variant t); in_literal.
Qed.

(** X6: [getTaskById] answers with the task exactly when the id is
    well-formed, the store holds a task under it, and the caller is not of
    role User or is one of the task's assignees.  Neither the company nor
    the department of the task is compared with the caller's. *)
Theorem getTaskById_shown (taskId : IdInput) (c : nat) (m : string)
    (o : ObjectId) (t : TaskDoc) :
  reply (getTaskById db user taskId) = Json c m (o, t)
  ↔ taskId = IdValid o ∧ tasks db !! o = Some t
    ∧ (req_role user = User →
       ∃ l, variant t = AssignedTask l ∧ user_id user ∈ l)
    ∧ c = 200 ∧ m = "Task retrieved successfully".
Proof.
  unfold getTaskById, notAssignee, assignedTo. split.
  - destruct taskId as [o'|raw]; [ | done ].
    destruct (tasks db !! o') as [t'|] eqn:Ht; [ | done ].
    case_bool_decide as Hu.
    + destruct (variant t') as [l|ci] eqn:Hv; [ | done ].
      case_bool_decide as Hl; [ | done ]. cbn. intros [= <- <- <- <-].
      repeat split; try done. intros _. by exists l.
    + cbn. intros [= <- <- <- <-]. done.
  - intros (-> & -> & Hu & -> & ->).
    case_bool_decide as Hr; [ | done ].
    destruct (Hu Hr) as (l & -> & Hl). by rewrite bool_decide_eq_true_2.
Qed.

End shown.

Lemma getAllTasks_shown_witness :
  tasks Sample.db !! 100%N = Some Sample.fixPrinter
  ∧ company Sample.fixPrinter = req_company Sample.user9
  ∧ (req_role Sample.user9 ≠ SuperAdmin →
     department Sample.fixPrinter = req_department Sample.user9)
  ∧ (req_role Sample.user9 = User →
     ∃ l, variant Sample.fixPrinter = AssignedTask l
          ∧ user_id Sample.user9 ∈ l)
  ∧ (∀ s, q_status (Sample.listAll None) = Some s → s ≠ "" →
          status Sample.fixPrinter = s).
Proof.
  apply (getAllTasks_shown Sample.db Sample.user9 (Sample.listAll None)
           200 "Tasks retrieved successfully"
           (paginate Sample.db
              {| query_company := 1; query_department := 2;
                 query_status := None;
                 query_taskType := Some "AssignedTask";
                 query_assignedTo_in := Some [9%N] |} 1 10) 100%N).
  - reflexivity.
  - vm_compute. in_literal.
Defined.

(** ** updateTaskById: what an update leaves alone *)

(** A written-out list does not hold what differs from each of its
    elements. *)
Ltac not_in_literal H :=
  repeat (apply elem_of_cons in H as [H|H]; [ discriminate H | ]);
  by apply elem_of_nil in H.

Section updating.

Context (E : Env) (db : Db) (user : ReqUser).

Lemma changedFields_keys (orig t : TaskDoc) (updateData : gmap string Value)
    (changed : list string) (x : string) :
  changedFields E orig t updateData = inr changed →
  x ∈ changed →
  x = "assignedTo"
  ∨ (x ∈ allowedUpdates orig ∧ is_Some (updateData !! x)).
Proof.
  unfold changedFields.
  set (keys := filter _ _).
  assert (x ∈ keys → x ∈ allowedUpdates orig ∧ is_Some (updateData !! x))
    as Hkeys.
  { intros [[Ha _] Hin]%list_elem_of_filter. split; [ done | ].
    apply list_elem_of_fmap in Hin as ([k v] & -> & Hkv).
    apply elem_of_map_to_list in Hkv. by exists v. }
  destruct (String.eqb _ _).
  - destruct (arraysEqual E _ _) as [|same]; [ done | ]. step.
    intros [= <-]. destruct (negb same && _).
    + intros [Hx| ->%list_elem_of_singleton]%elem_of_app;
        [ right; by apply Hkeys | by left ].
    + intros Hx. right. by apply Hkeys.
  - intros [= <-] Hx. right. by apply Hkeys.
Qed.

(** An update that does not name [assignedTo] does not count as a change of
    the assignees. *)
Lemma applyUpdates_hasAssignedToChange (task : TaskDoc)
    (updateData : gmap string Value) (d : Draft) :
  updateData !! "assignedTo" = None →
  applyUpdates E task updateData = inr d →
  hasAssignedToChange d = false.
Proof.
  intros Hno.
  apply (applyUpdates_inv E (λ d, hasAssignedToChange d = false));
    [ done | ].
  intros d0 k v d1 Hkv H0. unfold applyKey. step. cbn [fst snd].
  case_bool_decide; [ | by intros [= <-] ].
  destruct (String.eqb_spec k "assignedTo") as [->|_]; [ congruence | ].
  step. by intros [= <-].
Qed.

(** X7: an update whose body names none of [title], [dueDate], [priority]
    and [assignedTo] notifies nobody: whether it succeeds or fails, no
    notification is stored and nothing is pushed.  A change of the
    description, the location or the client information is of this kind. *)
Theorem updateTaskById_quiet (taskId : IdInput) (body : gmap string Value) :
  (∀ k, k ∈ ["title"; "dueDate"; "priority"; "assignedTo"] →
        body !! k = None) →
  notifications (store (updateTaskById E db user taskId body))
  = notifications db
  ∧ emitted (updateTaskById E db user taskId body) = [].
Proof.
  intros Hno. unfold updateTaskById.
  destruct taskId as [oid|raw]; [ | done ].
  case_bool_decide; [ done | ].
  destruct (tasks db !! oid) as [task|]; [ | done ].
  destruct (mayUpdate user task); [ | done ]. cbn [negb].
  rewrite updateTransaction_eq.
  assert (∀ k, k ∈ ["title"; "dueDate"; "priority"; "assignedTo"] →
               stripProtected body !! k = None) as Hstrip.
  { intros k Hk. rewrite stripProtected_lookup.
    case_bool_decide; [ done | by apply Hno ]. }
  destruct (applyUpdates E task (stripProtected body)) as [|d] eqn:Ha;
    [ done | ].
  apply applyUpdates_hasAssignedToChange in Ha as Hch;
    [ | apply Hstrip; in_literal ].
  destruct (validateAssignedTo _ _ _ _) as [|[]]; [ done | ].
  destruct (changedFields _ _ _ _) as [|changed] eqn:Hc; [ done | ].
  destruct (negb _ && _ && _); [ | done ]. cbn zeta.
  set (saved := preSave _ (doc d)).
  assert (existsb (λ f, bool_decide (f ∈ importantFields)) changed = false)
    as Hquiet.
  { apply not_true_is_false. intros (x & Hx & Hi)%existsb_exists.
    apply list_elem_of_In in Hx. apply bool_decide_eq_true in Hi.
    destruct (changedFields_keys _ _ _ _ x Hc Hx) as [->|[Hal [v Hv]]].
    - unfold importantFields in Hi. not_in_literal Hi.
    - unfold importantFields in Hi.
      cases_elem_of Hi
        ltac:(first [ rewrite Hstrip in Hv by in_literal; discriminate
                    | idtac ]).
      apply allowedUpdates_subseteq in Hal. not_in_literal Hal. }
  assert (∀ db', updateNotifications db' user oid task saved changed
                   (hasAssignedToChange d) = []) as Hns.
  { intros db'. unfold updateNotifications. rewrite Hch, Hquiet.
    by rewrite andb_false_r. }
  rewrite Hns. cbn. done.
Qed.

(** X8: an update keeps to the task it names.  Nothing is written to the
    users, the companies, the departments or the activity log; no task
    appears or disappears; every task keeps its company; and every task
    other than the one named by [taskId] stays as it was. *)
Theorem updateTaskById_frame (taskId : IdInput) (body : gmap string Value) :
  users (store (updateTaskById E db user taskId body)) = users db
  ∧ companies (store (updateTaskById E db user taskId body)) = companies db
  ∧ departments (store (updateTaskById E db user taskId body))
    = departments db
  ∧ activities (store (updateTaskById E db user taskId body))
    = activities db
  ∧ ∀ o, match tasks (store (updateTaskById E db user taskId body)) !! o,
               tasks db !! o with
         | Some t, Some t0 =>
           company t = company t0 ∧ (taskId ≠ IdValid o → t = t0)
         | None, None => True
         | _, _ => False
         end.
Proof.
  assert (∀ o, match tasks db !! o, tasks db !! o with
               | Some t, Some t0 =>
                 company t = company t0 ∧ (taskId ≠ IdValid o → t = t0)
               | None, None => True
               | _, _ => False
               end) as Hsame
    by (intros o; by destruct (tasks db !! o)).
  unfold updateTaskById.
  destruct taskId as [oid|raw]; [ | done ].
  case_bool_decide; [ done | ].
  destruct (tasks db !! oid) as [task|] eqn:Ht; [ | done ].
  destruct (mayUpdate user task); [ | done ]. cbn [negb].
  rewrite updateTransaction_eq.
  destruct (applyUpdates E task (stripProtected body)) as [|d] eqn:Ha;
    [ done | ].
  destruct (validateAssignedTo _ _ _ _) as [|[]]; [ done | ].
  destruct (changedFields _ _ _ _) as [|changed]; [ done | ].
  destruct (negb _ && _ && _); [ | done ]. cbn zeta.
  set (saved := preSave _ (doc d)).
  set (ns := updateNotifications _ _ _ _ _ _ _).
  destruct (_ && negb _); [ done | ]. cbn [store].
  destruct (created_store oid db saved ns) as (Htasks & _ & -> & ->).
  destruct (created_frame oid db saved ns) as (-> & ->).
  repeat split. intros o. rewrite Htasks.
  destruct (decide (o = oid)) as [->|Ho].
  - rewrite lookup_insert_eq, Ht. split; [ | done ].
    apply applyUpdates_frame in Ha as (_ & _ & _ & _ & <-).
    subst saved. by destruct (preSave_frame
      (bool_decide (client_phone <$> clientInfoOf (doc d)
                    ≠ client_phone <$> clientInfoOf task)) (doc d))
      as (_ & _ & _ & _ & -> & _).
  - rewrite lookup_insert_ne by done.
    destruct (tasks db !! o); [ | done ]. done.
Qed.

End updating.

Lemma updateTaskById_quiet_witness :
  notifications (store (updateTaskById Sample.env Sample.db Sample.manager8
                          (IdValid 100)
                          {[ "description" := VStr "Third floor" ]}))
  = notifications Sample.db
  ∧ emitted (updateTaskById Sample.env Sample.db Sample.manager8
               (IdValid 100) {[ "description" := VStr "Third floor" ]}) = [].
Proof.
  apply (updateTaskById_quiet Sample.env Sample.db Sample.manager8
           (IdValid 100) {[ "description" := VStr "Third floor" ]}).
  intros k Hk. apply lookup_singleton_ne. intros <-. not_in_literal Hk.
Defined.

(** ** The guards (authMiddleware.js) *)

(** The account checks pass exactly for an account in good standing. *)
Lemma checkAccount_admits (db : Db) (userId : ObjectId) (u : UserDoc)
    (p : ReqUser) :
  checkAccount db userId u = Proceed p
  ↔ user_id p = userId ∧ user_doc p = u
    ∧ isVerified u = true ∧ isActive u = true
    ∧ companies db !! user_company u = Some (company_doc p)
    ∧ company_isActive (company_doc p) = true
    ∧ subscription_status (company_doc p) = "active"
    ∧ departments db !! user_department u = Some (department_doc p)
    ∧ dept_isActive (department_doc p) = true.
Proof.
  unfold checkAccount. split.
  - destruct (isVerified u) eqn:Hv; [ | done ].
    destruct (isActive u) eqn:Hact; [ | done ]. cbn [negb].
    destruct (companies db !! user_company u) as [c|] eqn:Hc; [ | done ].
    destruct (company_isActive c) eqn:Hca; [ | done ]. cbn [negb].
    destruct (String.eqb_spec (subscription_status c) "active") as [Hs|];
      [ | done ]. cbn [negb].
    destruct (departments db !! user_department u) as [d|] eqn:Hd;
      [ | done ].
    destruct (dept_isActive d) eqn:Hda; [ | done ]. cbn [negb].
    intros [= <-]. cbn. by repeat split.
  - intros (<- & <- & Hv & Hact & Hc & Hca & Hs & Hd & Hda).
    rewrite Hv, Hact, Hc, Hca, Hs, Hd, Hda. cbn. by destruct p.
Qed.

(** X9: [verifyJWT] attaches a principal exactly when the cookie holds a
    token that verifies and names a stored user who is verified and active,
    whose company is stored, active and has an active subscription, and
    whose department is stored and active; the principal attached is that
    user with these two documents. *)
Theorem verifyJWT_admits (E : Env) (db : Db) (token : option string)
    (p : ReqUser) :
  verifyJWT E db token = Proceed p
  ↔ ∃ tok, token = Some tok ∧ tok ≠ ""
           ∧ jwt_verify E tok = Decoded (user_id p)
           ∧ users db !! user_id p = Some (user_doc p)
           ∧ isVerified (user_doc p) = true
           ∧ isActive (user_doc p) = true
           ∧ companies db !! req_company p = Some (company_doc p)
           ∧ company_isActive (company_doc p) = true
           ∧ subscription_status (company_doc p) = "active"
           ∧ departments db !! req_department p = Some (department_doc p)
           ∧ dept_isActive (department_doc p) = true.
Proof.
  unfold verifyJWT, req_company, req_department. split.
  - destruct token as [tok|]; [ | done ].
    destruct (String.eqb_spec tok "") as [|Hne]; [ done | ].
    destruct (jwt_verify E tok) as [userId| | |] eqn:Hj; try done.
    destruct (users db !! userId) as [u|] eqn:Hu; [ | done ].
    intros (<- & <- & ? & ? & ? & ? & ? & ? & ?)%checkAccount_admits.
    exists tok. by repeat split.
  - intros (tok & -> & Hne & Hj & Hu & Hv & Hact & Hc & Hca & Hs & Hd & Hda).
    apply String.eqb_neq in Hne. rewrite Hne, Hj, Hu.
    apply checkAccount_admits. by repeat split.
Qed.

Lemma resourceId_None (p : option IdInput) (b : option Field)
    (q : option IdInput) :
  resourceId p b q = None
  ↔ truthy_id p = false ∧ truthy_field b = false ∧ truthy_id q = false.
Proof.
  unfold resourceId. cbn zeta.
  destruct (truthy_id q) eqn:Hq.
  { destruct q; [ | done ]. split; [ done | by intros (_ & _ & ?) ]. }
  destruct (truthy_field b) eqn:Hb.
  { destruct b; [ | done ]. split; [ done | by intros (_ & ? & _) ]. }
  destruct (truthy_id p) eqn:Hp; [ | done ].
  destruct p; [ | done ]. split; [ done | by intros (? & _) ].
Qed.

Lemma equals_castRef (E : Env) (o d : ObjectId) (r : Ref) :
  castRef E r = inr d → equals E o r = bool_decide (o = d).
Proof.
  destruct r as [[o'|raw]|[[|s|l|c]|o']]; cbn; try done.
  - by intros [= ->].
  - destruct (ObjectId_ofString E s) as [o'|]; [ | done ]. intros [= ->].
    apply bool_decide_ext. split; [ by intros [= ->] | by intros -> ].
  - by intros [= ->].
Qed.

(** X10: a request that [verifyCompanyAccess] lets through names the
    caller's company in the place the guard reads, if only because the
    guard wrote it into the body when the request named none.  The guard
    changes nothing else of the request, and a request it has let through
    passes it again as it is. *)
Theorem verifyCompanyAccess_settled (E : Env) (u : ReqUser)
    (req req' : Request) :
  verifyCompanyAccess E (Some u) req = Passed req' →
  (∃ r, resourceCompanyId req' = Some r ∧ equals E (req_company u) r = true)
  ∧ verifyCompanyAccess E (Some u) req' = Passed req'
  ∧ (∀ k, k ≠ "company" → req_body req' !! k = req_body req !! k)
  ∧ (resourceCompanyId req = None →
     req_body req' !! "company" = Some (Written (req_company u)))
  ∧ (is_Some (resourceCompanyId req) → req' = req)
  ∧ req_params req' = req_params req
  ∧ req_query req' = req_query req
  ∧ req_list req' = req_list req
  ∧ cookie_access_token req' = cookie_access_token req.
Proof.
  unfold verifyCompanyAccess.
  destruct (resourceCompanyId req) as [r|] eqn:Hr.
  - destruct (equals E (req_company u) r) eqn:He; [ | done ]. cbn [negb].
    intros [= <-]. rewrite Hr, He. cbn [negb].
    repeat split; try done. by exists r.
  - intros [= <-].
    apply resourceId_None in Hr as (Hp & Hb & Hq).
    assert (resourceCompanyId
              (with_body req
                 (<["company" := Written (req_company u)]> (req_body req)))
            = Some (FromBody (Written (req_company u)))) as Hr'.
    { unfold resourceCompanyId, resourceId. cbn [req_params req_query
        req_body with_body]. rewrite Hp, Hq, lookup_insert_eq. done. }
    rewrite Hr'. cbn [equals]. rewrite bool_decide_eq_true_2 by done.
    cbn [negb]. repeat split; try done.
    + eexists. split; [ reflexivity | ]. cbn [equals].
      by rewrite bool_decide_eq_true_2.
    + intros k Hk. cbn [req_body with_body]. by apply lookup_insert_ne.
    + intros _. cbn [req_body with_body]. apply lookup_insert_eq.
Qed.

Lemma verifyCompanyAccess_settled_witness :
  (∃ r, resourceCompanyId
          (with_body Requests.post8
             (<["company" := Written 1%N]> (req_body Requests.post8)))
        = Some r
        ∧ equals Requests.env (req_company Sample.manager8) r = true)
  ∧ verifyCompanyAccess Requests.env (Some Sample.manager8)
      (with_body Requests.post8
         (<["company" := Written 1%N]> (req_body Requests.post8)))
    = Passed (with_body Requests.post8
                (<["company" := Written 1%N]> (req_body Requests.post8)))
  ∧ (∀ k, k ≠ "company" →
          req_body (with_body Requests.post8
                      (<["company" := Written 1%N]>
                         (req_body Requests.post8))) !! k
          = req_body Requests.post8 !! k)
  ∧ (resourceCompanyId Requests.post8 = None →
     req_body (with_body Requests.post8
                 (<["company" := Written 1%N]> (req_body Requests.post8)))
       !! "company"
     = Some (Written (req_company Sample.manager8)))
  ∧ (is_Some (resourceCompanyId Requests.post8) →
     with_body Requests.post8
       (<["company" := Written 1%N]> (req_body Requests.post8))
     = Requests.post8)
  ∧ req_params (with_body Requests.post8
                  (<["company" := Written 1%N]> (req_body Requests.post8)))
    = req_params Requests.post8
  ∧ req_query (with_body Requests.post8
                 (<["company" := Written 1%N]> (req_body Requests.post8)))
    = req_query Requests.post8
  ∧ req_list (with_body Requests.post8
                (<["company" := Written 1%N]> (req_body Requests.post8)))
    = req_list Requests.post8
  ∧ cookie_access_token
      (with_body Requests.post8
         (<["company" := Written 1%N]> (req_body Requests.post8)))
    = cookie_access_token Requests.post8.
Proof.
  apply (verifyCompanyAccess_settled Requests.env Sample.manager8
           Requests.post8).
  reflexivity.
Defined.

(** The departments of the caller's company that list the caller as a
    manager. *)
Lemma elem_of_managedDepartments (db : Db) (u : ReqUser) (d : ObjectId)
    (dept : DepartmentDoc) :
  (d, dept) ∈ managedDepartments db u
  ↔ departments db !! d = Some dept
    ∧ dept_company dept = req_company u
    ∧ user_id u ∈ dept_managers dept.
Proof.
  unfold managedDepartments.
  rewrite list_elem_of_filter, elem_of_map_to_list. cbn [fst snd].
  rewrite Exists_exists. split.
  - intros [[Hc (m & Hm & ->%list_elem_of_singleton)] Hd]. done.
  - intros (Hd & Hc & Hm). repeat split; try done.
    exists (user_id u). split; [ done | in_literal ].
Qed.

Lemma managedDepartments_some (E : Env) (db : Db) (u : ReqUser) (r : Ref)
    (d : ObjectId) (dept : DepartmentDoc) :
  castRef E r = inr d →
  departments db !! d = Some dept →
  dept_company dept = req_company u →
  existsb (λ kv, equals E kv.1 r) (managedDepartments db u) = true
  ↔ user_id u ∈ dept_managers dept.
Proof.
  intros Hr Hd Hc. rewrite existsb_exists. split.
  - intros ([d' dept'] & Hin & He).
    apply list_elem_of_In, elem_of_managedDepartments in Hin
      as (Hd' & _ & Hm).
    cbn [fst] in He. rewrite (equals_castRef E d' d r Hr) in He.
    apply bool_decide_eq_true in He. cbn in He. subst d'.
    by simplify_eq.
  - intros Hm. exists (d, dept). split.
    + by apply list_elem_of_In, elem_of_managedDepartments.
    + cbn [fst]. rewrite (equals_castRef E d d r Hr).
      by apply bool_decide_eq_true.
Qed.

(** The department a caller other than a SuperAdmin is let through for. *)
Lemma verifyDepartmentAccess_scope (E : Env) (db : Db) (u : ReqUser)
    (req req' : Request) (r : Ref) :
  req_role u ≠ SuperAdmin →
  resourceDepartmentId req = Some r →
  verifyDepartmentAccess E db (Some u) req = Passed req' →
  ∃ d dept,
    castRef E r = inr d
    ∧ departments db !! d = Some dept
    ∧ dept_company dept = req_company u
    ∧ (d = req_department u
       ∨ (req_role u = Manager ∧ user_id u ∈ dept_managers dept))
    ∧ req' = with_resourceDepartment req (d, dept).
Proof.
  intros Hsa Hr. unfold verifyDepartmentAccess.
  rewrite bool_decide_eq_false_2, Hr by done.
  destruct (castRef E r) as [e|d] eqn:Hc; [ done | ].
  destruct (departments db !! d) as [dept|] eqn:Hd; [ | done ].
  case_bool_decide as Hco; [ | done ]. cbn [negb]. cbn zeta.
  rewrite (equals_castRef E (req_department u) d r Hc).
  pose proof (managedDepartments_some E db u r d dept Hc Hd Hco) as Hman.
  destruct (req_role u) eqn:Hrole; [ done | | ].
  - destruct (bool_decide (req_department u = d)) eqn:Hown; cbn [orb].
    + apply bool_decide_eq_true in Hown as <-. cbn [negb]. intros [= <-].
      exists (req_department u), dept. repeat split; try done. by left.
    + destruct (existsb _ _); [ | done ]. cbn [negb]. intros [= <-].
      exists d, dept. repeat split; try done. right. split; [ done | ].
      by apply Hman.
  - destruct (bool_decide (req_department u = d)) eqn:Hown; [ | done ].
    apply bool_decide_eq_true in Hown as <-. cbn [negb]. intros [= <-].
    exists (req_department u), dept. repeat split; try done. by left.
Qed.

(** X11: [verifyDepartmentAccess].  A SuperAdmin passes with the request as
    it is, whatever department it names.  Any other caller passes either
    because the request names no department, or because the department it
    names is stored, belongs to the caller's company and is the caller's
    own or, for a Manager, one that lists the caller among its managers;
    that department is then attached to the request. *)
Theorem verifyDepartmentAccess_passes (E : Env) (db : Db) (u : ReqUser)
    (req req' : Request) :
  (req_role u = SuperAdmin →
   verifyDepartmentAccess E db (Some u) req = Passed req)
  ∧ (req_role u ≠ SuperAdmin →
     verifyDepartmentAccess E db (Some u) req = Passed req'
     ↔ match resourceDepartmentId req with
       | None => req' = req
       | Some r =>
         ∃ d dept,
           castRef E r = inr d
           ∧ departments db !! d = Some dept
           ∧ dept_company dept = req_company u
           ∧ (d = req_department u
              ∨ (req_role u = Manager ∧ user_id u ∈ dept_managers dept))
           ∧ req' = with_resourceDepartment req (d, dept)
       end).
Proof.
  unfold verifyDepartmentAccess. split.
  { intros ->. done. }
  intros Hsa. rewrite bool_decide_eq_false_2 by done.
  destruct (resourceDepartmentId req) as [r|] eqn:Hr;
    [ | split; [ by intros [= <-] | by intros -> ] ].
  destruct (castRef E r) as [e|d] eqn:Hc;
    [ split; [ done | by intros (? & ? & ? & _) ] | ].
  destruct (departments db !! d) as [dept|] eqn:Hd;
    [ | split; [ done | intros (? & ? & [= <-] & ? & _); congruence ] ].
  case_bool_decide as Hco; cbn [negb];
    [ | split; [ done | intros (? & ? & [= <-] & ? & ? & _); congruence ] ].
  cbn zeta. rewrite (equals_castRef E (req_department u) d r Hc).
  pose proof (managedDepartments_some E db u r d dept Hc Hd Hco) as Hman.
  assert ((d = req_department u
           ∨ (req_role u = Manager ∧ user_id u ∈ dept_managers dept))
          ∧ req' = with_resourceDepartment req (d, dept)
          ↔ ∃ d0 dept0,
              inr d = inr d0 ∧ departments db !! d0 = Some dept0
              ∧ dept_company dept0 = req_company u
              ∧ (d0 = req_department u
                 ∨ (req_role u = Manager ∧ user_id u ∈ dept_managers dept0))
              ∧ req' = with_resourceDepartment req (d0, dept0)) as <-.
  { split.
    - intros [Hor ->]. by exists d, dept.
    - intros (d0 & dept0 & [= <-] & Hd0 & _ & Hor & ->). by simplify_eq. }
  destruct (req_role u) eqn:Hrole; [ done | | ].
  - destruct (decide (req_department u = d)) as [Heq|Hne].
    + rewrite bool_decide_eq_true_2 by done. cbn [orb negb].
      split; [ intros [= <-]; split; [ by left | done ] | by intros [_ ->] ].
    + rewrite bool_decide_eq_false_2 by done. cbn [orb].
      destruct (existsb _ _).
      * cbn [negb].
        split; [ intros [= <-] | by intros [_ ->] ].
        split; [ right; split; [ done | by apply Hman ] | done ].
      * cbn [negb]. split; [ done | ].
        intros [[?|[_ Hm]] _]; [ done | ]. by apply Hman in Hm.
  - destruct (decide (req_department u = d)) as [Heq|Hne].
    + rewrite bool_decide_eq_true_2 by done. cbn [negb].
      split; [ intros [= <-]; split; [ by left | done ] | by intros [_ ->] ].
    + rewrite bool_decide_eq_false_2 by done. cbn [negb].
      split; [ done | ]. intros [[?|[? _]] _]; done.
Qed.

(** X12: [canManageUsers] lets a SuperAdmin through, and a Manager when the
    request names no target user or names a stored user of role User in the
    Manager's own department; a caller of role User never passes.  The
    request goes on as it came. *)
Theorem canManageUsers_passes (E : Env) (db : Db) (u : ReqUser)
    (req req' : Request) :
  canManageUsers E db (Some u) req = Passed req'
  ↔ req' = req
    ∧ (req_role u = SuperAdmin
       ∨ (req_role u = Manager
          ∧ match targetUserId req with
            | None => True
            | Some target =>
              ∃ t targetUser,
                castRef E target = inr t
                ∧ users db !! t = Some targetUser
                ∧ user_department targetUser = req_department u
                ∧ role targetUser = User
            end)).
Proof.
  unfold canManageUsers.
  destruct (req_role u) eqn:Hrole.
  - split; [ intros [= <-]; split; [ done | by left ] | by intros [-> _] ].
  - destruct (targetUserId req) as [target|].
    + destruct (castRef E target) as [e|t] eqn:Hc.
      { split; [ done | ].
        intros [_ [?|[_ (? & ? & ? & _)]]]; done. }
      destruct (users db !! t) as [targetUser|] eqn:Ht.
      2:{ split; [ done | ].
          intros [_ [?|[_ (? & ? & [= <-] & ? & _)]]]; [ done | congruence ]. }
      case_bool_decide as Hd; cbn [negb].
      2:{ split; [ done | ].
          intros [_ [?|[_ (? & ? & [= <-] & ? & ? & _)]]];
            [ done | congruence ]. }
      case_bool_decide as Hr.
      { split; [ done | ].
        intros [_ [?|[_ (? & ? & [= <-] & ? & _ & Hu)]]]; [ done | ].
        simplify_eq. rewrite Hu in Hr. not_in_literal Hr. }
      split.
      * intros [= <-]. split; [ done | ]. right. split; [ done | ].
        exists t, targetUser. repeat split; try done.
        destruct (role targetUser); [ | | done ];
          exfalso; apply Hr; in_literal.
      * by intros [-> _].
    + split; [ intros [= <-]; split; [ done | by right ] | by intros [-> _] ].
  - split; [ done | ]. intros [_ [?|[? _]]]; done.
Qed.

(** ** The task routes (TaskRoutes.js) *)

Lemma authorizeRoles_None (allowedRoles : list string) (u : ReqUser) :
  authorizeRoles allowedRoles u = None
  ↔ role_name (req_role u) ∈ allowedRoles.
Proof. unfold authorizeRoles. by case_bool_decide. Qed.

(** The guards of a task route pass as a chain. *)
Lemma taskGuards_Passed (E : Env) (db : Db) (allowedRoles : list string)
    (req : Request) (u : ReqUser) (r : Request) :
  taskGuards E db allowedRoles req = Passed (u, r)
  ↔ verifyJWT E db (cookie_access_token req) = Proceed u
    ∧ role_name (req_role u) ∈ allowedRoles
    ∧ ∃ r1, verifyCompanyAccess E (Some u) req = Passed r1
            ∧ verifyDepartmentAccess E db (Some u) r1 = Passed r.
Proof.
  unfold taskGuards. rewrite <- authorizeRoles_None.
  destruct (verifyJWT E db (cookie_access_token req)) as [c b|u'].
  { split; [ done | by intros [? _] ]. }
  destruct (authorizeRoles allowedRoles u') as [b|] eqn:Ha.
  { split; [ done | intros ([= <-] & ? & _); congruence ]. }
  destruct (verifyCompanyAccess E (Some u') req) as [c b|r1] eqn:Hc;
    cbn [mbind Guarded_bind mret Guarded_ret].
  { split; [ done | intros ([= <-] & _ & r1' & ? & _); congruence ]. }
  destruct (verifyDepartmentAccess E db (Some u') r1) as [c b|r2] eqn:Hd;
    cbn [mbind Guarded_bind mret Guarded_ret].
  { split; [ done | ].
    intros ([= <-] & _ & r1' & ? & ?). congruence. }
  split.
  - intros [= <- <-]. repeat split; try done. by exists r1.
  - intros ([= <-] & _ & r1' & H1 & H2).
    rewrite Hc in H1. injection H1 as <-.
    rewrite Hd in H2. by injection H2 as <-.
Qed.

(** [verifyDepartmentAccess] hands the request on with its cookies,
    parameters, query and body as they came. *)
Lemma verifyDepartmentAccess_request (E : Env) (db : Db) (u : ReqUser)
    (req req' : Request) :
  verifyDepartmentAccess E db (Some u) req = Passed req' →
  req_body req' = req_body req ∧ req_params req' = req_params req
  ∧ req_query req' = req_query req ∧ req_list req' = req_list req
  ∧ (req' = req ∨ ∃ d, req' = with_resourceDepartment req d).
Proof.
  unfold verifyDepartmentAccess.
  case_bool_decide; [ intros [= <-]; repeat split; by left | ].
  destruct (resourceDepartmentId req) as [r|];
    [ | intros [= <-]; repeat split; by left ].
  destruct (castRef E r) as [|d]; [ done | ].
  destruct (departments db !! d) as [dept|]; [ | done ].
  destruct (negb _); [ done | ]. cbn zeta.
  destruct (req_role u); [ | destruct (negb _); [ done | ].. ];
    intros [= <-]; repeat split; right; by eexists.
Qed.

(** X13: a caller of role User cannot create or update a task through the
    routes: for a request whose token [verifyJWT] resolves to a User,
    [POST /tasks] and [PUT /tasks/:taskId] answer 403 with
    INSUFFICIENT_PERMISSIONS at the role gate, and neither handler runs. *)
Theorem router_User_cannot_write (E : Env) (now : Z) (oid : ObjectId)
    (db : Db) (req : Request) (u : ReqUser) :
  verifyJWT E db (cookie_access_token req) = Proceed u →
  req_role u = User →
  router_post E now oid db req
  = Refused 403
      (Failure "Access denied. Required roles: SuperAdmin, Manager"
         "INSUFFICIENT_PERMISSIONS")
  ∧ router_put_taskId E db req
    = Refused 403
        (Failure "Access denied. Required roles: SuperAdmin, Manager"
           "INSUFFICIENT_PERMISSIONS").
Proof.
  intros Hj Hu. unfold router_post, router_put_taskId, taskGuards.
  rewrite Hj. unfold authorizeRoles. rewrite Hu. cbn [role_name].
  rewrite bool_decide_eq_false_2; [ done | ]. intros Hin. not_in_literal Hin.
Qed.

Lemma router_User_cannot_write_witness :
  router_post Requests.env Sample.now 200 Sample.db Requests.read9
  = Refused 403
      (Failure "Access denied. Required roles: SuperAdmin, Manager"
         "INSUFFICIENT_PERMISSIONS")
  ∧ router_put_taskId Requests.env Sample.db Requests.read9
    = Refused 403
        (Failure "Access denied. Required roles: SuperAdmin, Manager"
           "INSUFFICIENT_PERMISSIONS").
Proof.
  apply (router_User_cannot_write Requests.env Sample.now 200 Sample.db
           Requests.read9 Sample.user9); reflexivity.
Defined.

(** X14: what a handler behind the guards of a task route can rely on.  The
    caller is the principal [verifyJWT] admits for the cookie's token, and
    its role is one of the roles the route allows.  The request names the
    caller's company where [verifyCompanyAccess] reads it.  The handler is
    given the parameters and the query as they came, and the body as it
    came but for the property [company].  If the caller is not a SuperAdmin
    and the request names a department, that department is stored, belongs
    to the caller's company, is the caller's own or one the caller manages,
    and is attached to the request. *)
Theorem taskGuards_establish (E : Env) (db : Db) (allowedRoles : list string)
    (req : Request) (u : ReqUser) (r : Request) :
  taskGuards E db allowedRoles req = Passed (u, r) →
  verifyJWT E db (cookie_access_token req) = Proceed u
  ∧ role_name (req_role u) ∈ allowedRoles
  ∧ (∃ c, resourceCompanyId r = Some c ∧ equals E (req_company u) c = true)
  ∧ req_params r = req_params req
  ∧ req_query r = req_query req
  ∧ req_list r = req_list req
  ∧ (∀ k, k ≠ "company" → req_body r !! k = req_body req !! k)
  ∧ (req_role u ≠ SuperAdmin →
     ∀ x, resourceDepartmentId req = Some x →
          ∃ d dept,
            req_resourceDepartment r = Some (d, dept)
            ∧ castRef E x = inr d
            ∧ departments db !! d = Some dept
            ∧ dept_company dept = req_company u
            ∧ (d = req_department u
               ∨ (req_role u = Manager ∧ user_id u ∈ dept_managers dept))).
Proof.
  intros (Hj & Hrole & r1 & Hc & Hd)%taskGuards_Passed.
  split; [ done | ]. split; [ done | ].
  pose proof (verifyDepartmentAccess_request E db u r1 r Hd)
    as (Hb & Hp & Hq & Hl & _).
  unfold verifyCompanyAccess in Hc.
  assert (resourceDepartmentId r1 = resourceDepartmentId req
          ∧ req_params r1 = req_params req ∧ req_query r1 = req_query req
          ∧ req_list r1 = req_list req
          ∧ (∀ k, k ≠ "company" → req_body r1 !! k = req_body req !! k)
          ∧ ∃ c, resourceCompanyId r1 = Some c
                 ∧ equals E (req_company u) c = true)
    as (Hdep & Hp1 & Hq1 & Hl1 & Hb1 & Hco).
  { destruct (resourceCompanyId req) as [c|] eqn:Hrc.
    - destruct (equals E (req_company u) c) eqn:He; [ | done ].
      injection Hc as <-. repeat split; try done. by exists c.
    - injection Hc as <-. repeat split; try done.
      + unfold resourceDepartmentId. cbn [req_params req_query req_body
          with_body]. by rewrite lookup_insert_ne.
      + intros k Hk. cbn [req_body with_body]. by apply lookup_insert_ne.
      + apply resourceId_None in Hrc as (Hp0 & _ & Hq0).
        exists (FromBody (Written (req_company u))). split.
        * unfold resourceCompanyId, resourceId. cbn [req_params req_query
            req_body with_body]. by rewrite Hp0, Hq0, lookup_insert_eq.
        * cbn [equals]. by apply bool_decide_eq_true. }
  split.
  { destruct Hco as (c & Hrc & He). exists c. split; [ | done ].
    unfold resourceCompanyId in *. by rewrite Hb, Hp, Hq. }
  split; [ congruence | ]. split; [ congruence | ]. split; [ congruence | ].
  split; [ intros k Hk; rewrite Hb; by apply Hb1 | ].
  intros Hsa x Hx. rewrite <- Hdep in Hx.
  destruct (verifyDepartmentAccess_scope E db u r1 r x Hsa Hx Hd)
    as (d & dept & ? & ? & ? & ? & ->).
  exists d, dept. by repeat split.
Qed.

Lemma taskGuards_establish_witness :
  verifyJWT Requests.env Sample.db (cookie_access_token Requests.post8)
  = Proceed Sample.manager8
  ∧ role_name (req_role Sample.manager8) ∈ ["SuperAdmin"; "Manager"]
  ∧ (∃ c, resourceCompanyId Requests.post8_guarded = Some c
          ∧ equals Requests.env (req_company Sample.manager8) c = true)
  ∧ req_params Requests.post8_guarded = req_params Requests.post8
  ∧ req_query Requests.post8_guarded = req_query Requests.post8
  ∧ req_list Requests.post8_guarded = req_list Requests.post8
  ∧ (∀ k, k ≠ "company" →
          req_body Requests.post8_guarded !! k = req_body Requests.post8 !! k)
  ∧ (req_role Sample.manager8 ≠ SuperAdmin →
     ∀ x, resourceDepartmentId Requests.post8 = Some x →
          ∃ d dept,
            req_resourceDepartment Requests.post8_guarded = Some (d, dept)
            ∧ castRef Requests.env x = inr d
            ∧ departments Sample.db !! d = Some dept
            ∧ dept_company dept = req_company Sample.manager8
            ∧ (d = req_department Sample.manager8
               ∨ (req_role Sample.manager8 = Manager
                  ∧ user_id Sample.manager8 ∈ dept_managers dept))).
Proof.
  apply (taskGuards_establish Requests.env Sample.db ["SuperAdmin"; "Manager"]
           Requests.post8 Sample.manager8 Requests.post8_guarded).
  reflexivity.
Defined.

(** What [createTask] does depends on the body through the properties it
    reads, and on no other. *)
Lemma createTask_fields (E : Env) (now : Z) (oid : ObjectId) (db : Db)
    (user : ReqUser) (b1 b2 : gmap string Value) :
  (∀ k, k ∈ creationFields → b1 !! k = b2 !! k) →
  createTask E now oid db user b1 = createTask E now oid db user b2.
Proof.
  intros Hk.
  assert (b1 !! "title" = b2 !! "title") as H1 by (apply Hk; in_literal).
  assert (b1 !! "description" = b2 !! "description") as H2
    by (apply Hk; in_literal).
  assert (b1 !! "dueDate" = b2 !! "dueDate") as H3 by (apply Hk; in_literal).
  assert (b1 !! "taskType" = b2 !! "taskType") as H4
    by (apply Hk; in_literal).
  assert (b1 !! "location" = b2 !! "location") as H5
    by (apply Hk; in_literal).
  assert (b1 !! "assignedTo" = b2 !! "assignedTo") as H6
    by (apply Hk; in_literal).
  assert (b1 !! "clientInfo" = b2 !! "clientInfo") as H7
    by (apply Hk; in_literal).
  assert (b1 !! "priority" = b2 !! "priority") as H8
    by (apply Hk; in_literal).
  assert (b1 !! "status" = b2 !! "status") as H9 by (apply Hk; in_literal).
  unfold createTask, validateInput, missingFields, requiredFields,
    validateVariant, transactionalCreation, prepareTask, clientInfo_of.
  by rewrite H1, H2, H3, H4, H5, H6, H7, H8, H9.
Qed.

(** X15: the company that [verifyCompanyAccess] writes into the body has no
    part in a creation.  When the guards of [POST /tasks] let a request
    through, the answer is the one [createTask] gives the admitted
    principal for the body as the client sent it. *)
Theorem router_post_as_sent (E : Env) (now : Z) (oid : ObjectId) (db : Db)
    (req : Request) (R : Result (ObjectId * TaskDoc)) :
  router_post E now oid db req = Passed R →
  ∃ u, verifyJWT E db (cookie_access_token req) = Proceed u
       ∧ req_role u ≠ User
       ∧ R = createTask E now oid db u (seen <$> req_body req).
Proof.
  unfold router_post.
  destruct (taskGuards E db ["SuperAdmin"; "Manager"] req) as [|[u r]] eqn:Hg;
    [ done | ].
  cbn [mbind Guarded_bind]. intros [= <-].
  apply taskGuards_Passed in Hg as (Hj & Hrole & r1 & Hc & Hd).
  exists u. split; [ done | ]. split.
  { intros Hu. rewrite Hu in Hrole. not_in_literal Hrole. }
  apply createTask_fields. intros k Hk. rewrite !lookup_fmap. f_equal.
  apply verifyDepartmentAccess_request in Hd as (-> & _).
  unfold verifyCompanyAccess in Hc.
  destruct (resourceCompanyId req) as [c|].
  - destruct (negb _); [ done | ]. by injection Hc as <-.
  - injection Hc as <-. cbn [req_body with_body].
    apply lookup_insert_ne. intros <-. unfold creationFields in Hk.
    not_in_literal Hk.
Qed.

Lemma router_post_as_sent_witness :
  ∃ u, verifyJWT Requests.env Sample.db
         (cookie_access_token Requests.post8) = Proceed u
       ∧ req_role u ≠ User
       ∧ createTask Requests.env Sample.now 200 Sample.db Sample.manager8
           (seen <$> req_body Requests.post8_guarded)
         = createTask Requests.env Sample.now 200 Sample.db u
             (seen <$> req_body Requests.post8).
Proof.
  apply (router_post_as_sent Requests.env Sample.now 200 Sample.db
           Requests.post8).
  reflexivity.
Defined.

(** X16: [GET /tasks/:taskId] serves tasks across companies and
    departments.  For a caller of role Manager or SuperAdmin whose request
    names no company and no department, the route answers with the task
    whenever the id names a stored one; the company and the department of
    the task are not compared with the caller's, by the guards or by the
    handler. *)
Theorem router_get_taskId_any (E : Env) (db : Db) (req : Request)
    (u : ReqUser) (o : ObjectId) (t : TaskDoc) :
  verifyJWT E db (cookie_access_token req) = Proceed u →
  req_role u ≠ User →
  unscoped req →
  req_params req !! "taskId" = Some (IdValid o) →
  tasks db !! o = Some t →
  router_get_taskId E db req
  = Passed {| reply := Json 200 "Task retrieved successfully" (o, t);
              store := db; emitted := [] |}.
Proof.
  intros Hj Hu [Hc Hd] Hp Ht.
  unfold router_get_taskId, taskGuards. rewrite Hj.
  rewrite (proj2 (authorizeRoles_None _ u))
    by (destruct (req_role u); [ in_literal.. | done ]).
  unfold verifyCompanyAccess. rewrite Hc.
  cbn [mbind Guarded_bind].
  unfold verifyDepartmentAccess.
  assert (resourceDepartmentId
            (with_body req
               (<["company" := Written (req_company u)]> (req_body req)))
          = None) as ->.
  { rewrite <- Hd. unfold resourceDepartmentId.
    cbn [req_params req_query req_body with_body].
    by rewrite lookup_insert_ne. }
  assert (∀ A (x : Guarded A), (if bool_decide (req_role u = SuperAdmin)
                                then x else x) = x) as ->
    by (intros; by case_bool_decide).
  unfold mret, Guarded_ret. cbn [mbind Guarded_bind].
  unfold taskIdOf. cbn [req_params with_body]. rewrite Hp.
  unfold getTaskById, notAssignee. cbn [default id]. rewrite Ht.
  by rewrite bool_decide_eq_false_2.
Qed.

Lemma router_get_taskId_any_witness :
  router_get_taskId Requests.env Sample.db Requests.read12
  = Passed {| reply := Json 200 "Task retrieved successfully"
                         (100%N, Sample.fixPrinter);
              store := Sample.db; emitted := [] |}.
Proof.
  apply (router_get_taskId_any Requests.env Sample.db Requests.read12
           Sample.manager12 100 Sample.fixPrinter).
  - reflexivity.
  - discriminate.
  - split; reflexivity.
  - reflexivity.
  - reflexivity.
Defined.

(** ** The auth handlers (authController.js) and their routes *)

(** The account checks of [getRefreshToken] are those of [verifyJWT]. *)
Lemma getRefreshToken_checkAccount (T : Tokens) (db : Db) (req : Request)
    (tok : string) (userId : ObjectId) (u : UserDoc) :
  cookie_refresh_token req = Some tok → tok ≠ "" →
  jwt_verify_refresh T tok = Decoded userId →
  users db !! userId = Some u →
  match checkAccount db userId u with
  | Proceed p =>
    getRefreshToken T db req
    = {| answer := Json 200 "Token refreshed successfully" p;
         cookieOps := [cookie "access_token" (generateAccessToken T userId)] |}
  | Respond _ _ => ∃ e, answer (getRefreshToken T db req) = NextError e
  end.
Proof.
  intros Hc Hne Hj Hu. unfold getRefreshToken, checkAccount.
  rewrite Hc. cbn [truthy_str default from_option id].
  apply String.eqb_neq in Hne. rewrite Hne. cbn [negb]. rewrite Hj, Hu.
  destruct (isVerified u); [ | by eexists ].
  destruct (isActive u); [ | by eexists ]. cbn [negb].
  destruct (companies db !! user_company u) as [c|]; [ | by eexists ].
  destruct (company_isActive c); [ | by eexists ]. cbn [negb].
  destruct (String.eqb (subscription_status c) "active"); [ | by eexists ].
  cbn [negb].
  destruct (departments db !! user_department u) as [d|]; [ | by eexists ].
  destruct (dept_isActive d); [ | by eexists ]. done.
Qed.

(** X17: [getRefreshToken] admits the accounts that [verifyJWT] admits.
    For a refresh token that verifies and names a stored user, the handler
    answers 200 with a principal exactly when the account checks of the
    guard pass with that principal; it then sets the cookie access_token to
    a new token for that user, and no other cookie. *)
Theorem getRefreshToken_admits (T : Tokens) (db : Db) (req : Request)
    (tok : string) (userId : ObjectId) (u : UserDoc) (c : nat) (m : string)
    (p : ReqUser) :
  cookie_refresh_token req = Some tok → tok ≠ "" →
  jwt_verify_refresh T tok = Decoded userId →
  users db !! userId = Some u →
  (answer (getRefreshToken T db req) = Json c m p
   ↔ checkAccount db userId u = Proceed p
     ∧ c = 200 ∧ m = "Token refreshed successfully")
  ∧ (answer (getRefreshToken T db req) = Json c m p →
     cookieOps (getRefreshToken T db req)
     = [cookie "access_token" (generateAccessToken T userId)]).
Proof.
  intros Hc Hne Hj Hu.
  pose proof (getRefreshToken_checkAccount T db req tok userId u Hc Hne Hj Hu)
    as H.
  destruct (checkAccount db userId u) as [c' b|p'].
  - destruct H as [e He]. rewrite He. split; [ | done ].
    split; [ done | by intros [? _] ].
  - rewrite H. cbn [answer cookieOps]. split; [ | done ].
    split; [ by intros [= <- <- <-] | by intros ([= <-] & -> & ->) ].
Qed.

Lemma getRefreshToken_admits_witness :
  (answer (getRefreshToken Requests.tokens Sample.db Requests.refresh8)
   = Json 200 "Token refreshed successfully" Sample.manager8
   ↔ checkAccount Sample.db 8 (Sample.member Manager 2 true)
     = Proceed Sample.manager8
     ∧ 200 = 200
     ∧ "Token refreshed successfully" = "Token refreshed successfully")
  ∧ (answer (getRefreshToken Requests.tokens Sample.db Requests.refresh8)
     = Json 200 "Token refreshed successfully" Sample.manager8 →
     cookieOps (getRefreshToken Requests.tokens Sample.db Requests.refresh8)
     = [cookie "access_token" "token-of-8"]).
Proof.
  apply (getRefreshToken_admits Requests.tokens Sample.db Requests.refresh8
           "refresh-of-8" 8 (Sample.member Manager 2 true) 200
           "Token refreshed successfully" Sample.manager8);
    [ reflexivity | discriminate | reflexivity | reflexivity ].
Defined.

(** X18: the cookies [getRefreshToken] touches.  When it answers 200 it
    sets access_token for the principal it answers with and nothing else:
    the refresh token is never renewed.  When it refuses it sets no cookie;
    it clears refresh_token, except when the request carried no refresh
    token or the handler failed with TOKEN_REFRESH_ERROR, where it leaves
    the cookies alone. *)
Theorem getRefreshToken_cookies (T : Tokens) (db : Db) (req : Request) :
  match answer (getRefreshToken T db req) with
  | Json _ _ p =>
    cookieOps (getRefreshToken T db req)
    = [cookie "access_token" (generateAccessToken T (user_id p))]
  | NextError e =>
    cookieOps (getRefreshToken T db req)
    = if bool_decide (e ∈ [missingRefreshToken; tokenRefreshError]) then []
      else [clearCookie "refresh_token"]
  end.
Proof.
  unfold getRefreshToken.
  destruct (negb (truthy_str (cookie_refresh_token req))); [ done | ].
  destruct (jwt_verify_refresh T _) as [userId| | |]; try done.
  destruct (users db !! userId) as [u|]; [ | done ].
  destruct (negb (isVerified u)); [ done | ].
  destruct (negb (isActive u)); [ done | ].
  destruct (companies db !! user_company u) as [c|]; [ | done ].
  destruct (negb (company_isActive c)); [ done | ].
  destruct (negb (String.eqb _ _)); [ done | ].
  destruct (departments db !! user_department u) as [d|]; [ | done ].
  by destruct (negb (dept_isActive d)).
Qed.

Lemma verifyJWT_checkAccount (E : Env) (db : Db) (token : option string)
    (p : ReqUser) :
  verifyJWT E db token = Proceed p →
  users db !! user_id p = Some (user_doc p)
  ∧ checkAccount db (user_id p) (user_doc p) = Proceed p.
Proof.
  unfold verifyJWT. destruct token as [tok|]; [ | done ].
  destruct (String.eqb tok ""); [ done | ].
  destruct (jwt_verify E tok) as [userId| | |]; try done.
  destruct (users db !! userId) as [u|] eqn:Hu; [ | done ].
  intros Hc. destruct (proj1 (checkAccount_admits db userId u p) Hc)
    as (-> & -> & _). done.
Qed.

(** X19: [GET /auth/refresh-token] sits behind [verifyJWT].  While the
    access token does not pass the guard, the route answers as the guard
    does and the refresh handler does not run, whatever the refresh token:
    no cookie is set or cleared.  When the guard admits a principal and the
    refresh token is that principal's own, the handler's account checks
    find nothing the guard has not found, and the route answers 200 with
    that principal and a new access token. *)
Theorem router_get_refresh_token_own (E : Env) (T : Tokens) (db : Db)
    (req : Request) :
  (∀ c b, verifyJWT E db (cookie_access_token req) = Respond c b →
          router_get_refresh_token E T db req = Refused c b)
  ∧ (∀ p tok,
       verifyJWT E db (cookie_access_token req) = Proceed p →
       cookie_refresh_token req = Some tok → tok ≠ "" →
       jwt_verify_refresh T tok = Decoded (user_id p) →
       router_get_refresh_token E T db req
       = Passed {| answer := Json 200 "Token refreshed successfully" p;
                   cookieOps := [cookie "access_token"
                                   (generateAccessToken T (user_id p))] |}).
Proof.
  unfold router_get_refresh_token, behindJWT. split.
  - by intros c b ->.
  - intros p tok Hj Hc Hne Hr. rewrite Hj. f_equal.
    apply verifyJWT_checkAccount in Hj as [Hu Hp].
    pose proof (getRefreshToken_checkAccount T db req tok (user_id p)
                  (user_doc p) Hc Hne Hr Hu) as H.
    by rewrite Hp in H.
Qed.

Lemma router_get_refresh_token_own_witness :
  router_get_refresh_token Requests.env Requests.tokens Sample.db
    Requests.refresh8
  = Passed {| answer := Json 200 "Token refreshed successfully"
                          Sample.manager8;
              cookieOps := [cookie "access_token" "token-of-8"] |}.
Proof.
  apply (proj2 (router_get_refresh_token_own Requests.env Requests.tokens
                  Sample.db Requests.refresh8) Sample.manager8 "refresh-of-8");
    [ reflexivity | reflexivity | discriminate | reflexivity ].
Defined.

(** What a login that succeeds has found. *)
Lemma loginUser_Json (T : Tokens) (db : Db) (accounts : Accounts)
    (email password : option string) (c : nat) (m : string) (p : ReqUser) :
  answer (loginUser T db accounts email password) = Json c m p →
  ∃ e pw hash,
    email = Some e ∧ password = Some pw ∧ pw ≠ ""
    ∧ test emailRegex e = true
    ∧ byEmail accounts !! toLowerCase e = Some (user_id p)
    ∧ users db !! user_id p = Some (user_doc p)
    ∧ passwordOf accounts !! user_id p = Some hash
    ∧ bcrypt_compare T pw hash = true
    ∧ isActive (user_doc p) = true
    ∧ companies db !! req_company p = Some (company_doc p)
    ∧ company_isActive (company_doc p) = true
    ∧ subscription_status (company_doc p) = "active"
    ∧ departments db !! req_department p = Some (department_doc p)
    ∧ dept_isActive (department_doc p) = true
    ∧ c = 200 ∧ m = "Login successful"
    ∧ cookieOps (loginUser T db accounts email password)
      = [ cookie "access_token" (generateAccessToken T (user_id p));
          cookie "refresh_token" (generateRefreshToken T (user_id p)) ].
Proof.
  unfold loginUser, req_company, req_department.
  destruct email as [e|]; [ | by destruct password ].
  destruct password as [pw|]; [ | done ]. cbn [truthy_str].
  destruct (String.eqb_spec e "") as [|_]; [ done | ].
  destruct (String.eqb_spec pw "") as [|Hpw]; [ done | ]. cbn [negb orb].
  destruct (test emailRegex e) eqn:He; [ | done ]. cbn [negb].
  destruct (byEmail accounts !! toLowerCase e) as [userId|] eqn:Hb;
    [ | done ].
  destruct (users db !! userId) as [u|] eqn:Hu; [ | done ].
  destruct (passwordOf accounts !! userId) as [hash|] eqn:Hh; [ | done ].
  destruct (bcrypt_compare T pw hash) eqn:Hc; [ | done ]. cbn [negb].
  destruct (isActive u) eqn:Hact; [ | done ]. cbn [negb].
  destruct (companies db !! user_company u) as [co|] eqn:Hco; [ | done ].
  destruct (company_isActive co) eqn:Hca; [ | done ]. cbn [negb].
  destruct (String.eqb_spec (subscription_status co) "active") as [Hs|];
    [ | done ]. cbn [negb].
  destruct (departments db !! user_department u) as [d|] eqn:Hd; [ | done ].
  destruct (dept_isActive d) eqn:Hda; [ | done ]. cbn [negb answer cookieOps].
  intros [= <- <- <-]. exists e, pw, hash. cbn. by repeat split.
Qed.

(** X20: [loginUser] answers 200 exactly when the password matches the
    stored hash, the account is active, and its company and department are
    stored and active, the company with an active subscription.  Whether
    the account is verified plays no part.  It then sets the cookies
    access_token and refresh_token to new tokens for that user. *)
Theorem loginUser_admits (T : Tokens) (db : Db) (accounts : Accounts)
    (email password : string) (userId : ObjectId) (u : UserDoc)
    (hash : string) (c : nat) (m : string) (p : ReqUser) :
  test emailRegex email = true → password ≠ "" →
  byEmail accounts !! toLowerCase email = Some userId →
  users db !! userId = Some u →
  passwordOf accounts !! userId = Some hash →
  (answer (loginUser T db accounts (Some email) (Some password)) = Json c m p
   ↔ bcrypt_compare T password hash = true
     ∧ user_id p = userId ∧ user_doc p = u
     ∧ isActive u = true
     ∧ companies db !! user_company u = Some (company_doc p)
     ∧ company_isActive (company_doc p) = true
     ∧ subscription_status (company_doc p) = "active"
     ∧ departments db !! user_department u = Some (department_doc p)
     ∧ dept_isActive (department_doc p) = true
     ∧ c = 200 ∧ m = "Login successful")
  ∧ (answer (loginUser T db accounts (Some email) (Some password))
     = Json c m p →
     cookieOps (loginUser T db accounts (Some email) (Some password))
     = [ cookie "access_token" (generateAccessToken T userId);
         cookie "refresh_token" (generateRefreshToken T userId) ]).
Proof.
  intros He Hpw Hb Hu Hh. split; [ split | ].
  - intros (e & pw & hash' & [= <-] & [= <-] & _ & _ & Hb' & Hu' & Hh' & Hc
            & Hact & Hco & Hca & Hs & Hd & Hda & -> & -> & _)%loginUser_Json.
    unfold req_company, req_department in *. simplify_eq.
    by repeat split.
  - intros (Hc & <- & <- & Hact & Hco & Hca & Hs & Hd & Hda & -> & ->).
    unfold loginUser. cbn [truthy_str].
    assert (email ≠ "") as Hne by (by intros ->).
    apply String.eqb_neq in Hne, Hpw. rewrite Hne, Hpw. cbn [negb orb].
    rewrite He. cbn [negb]. rewrite Hb, Hu, Hh, Hc. cbn [negb].
    rewrite Hact. cbn [negb]. rewrite Hco, Hca. cbn [negb]. rewrite Hs.
    cbn [negb String.eqb]. rewrite Hd, Hda. cbn. by destruct p.
  - intros (e & pw & hash' & [= <-] & [= <-] & _ & _ & Hb' & _ & _ & _
            & _ & _ & _ & _ & _ & _ & _ & _ & ->)%loginUser_Json.
    by simplify_eq.
Qed.


(** X22: the access tokens the auth handlers issue, and the guard.  When a
    login succeeds, [verifyJWT] admits the token it has set for the very
    principal the login answered with if the account is verified, and
    refuses it with ACCOUNT_NOT_VERIFIED if it is not: an account that is
    not verified can log in and can then use no guarded route.  The token
    that [getRefreshToken] sets is always admitted, for the principal it
    answered with.  This holds for token helpers whose access token for
    that user is not empty and verifies as that user's. *)
Theorem issued_tokens_verifyJWT (E : Env) (T : Tokens) (db : Db) :
  (∀ accounts email password c m p,
     answer (loginUser T db accounts email password) = Json c m p →
     generateAccessToken T (user_id p) ≠ "" →
     jwt_verify E (generateAccessToken T (user_id p)) = Decoded (user_id p) →
     cookie "access_token" (generateAccessToken T (user_id p))
       ∈ cookieOps (loginUser T db accounts email password)
     ∧ verifyJWT E db (Some (generateAccessToken T (user_id p)))
       = if isVerified (user_doc p) then Proceed p
         else Respond 401
                (Failure "User account is not verified"
                   "ACCOUNT_NOT_VERIFIED"))
  ∧ (∀ req c m p,
       answer (getRefreshToken T db req) = Json c m p →
       generateAccessToken T (user_id p) ≠ "" →
       jwt_verify E (generateAccessToken T (user_id p))
       = Decoded (user_id p) →
       cookie "access_token" (generateAccessToken T (user_id p))
         ∈ cookieOps (getRefreshToken T db req)
       ∧ verifyJWT E db (Some (generateAccessToken T (user_id p)))
         = Proceed p).
Proof.
  split.
  - intros accounts email password c m p
      (e & pw & hash & _ & _ & _ & _ & _ & Hu & _ & _ & Hact & Hco & Hca
       & Hs & Hd & Hda & _ & _ & ->)%loginUser_Json Hne Hj.
    split; [ in_literal | ].
    unfold verifyJWT. apply String.eqb_neq in Hne. rewrite Hne, Hj, Hu.
    destruct (isVerified (user_doc p)) eqn:Hv.
    + apply checkAccount_admits. by repeat split.
    + unfold checkAccount. by rewrite Hv.
  - intros req c m p Hr Hne Hj.
    unfold verifyJWT. apply String.eqb_neq in Hne. rewrite Hne, Hj.
    revert Hr. unfold getRefreshToken.
    destruct (negb (truthy_str (cookie_refresh_token req))); [ done | ].
    destruct (jwt_verify_refresh T _) as [userId| | |]; try done.
    destruct (users db !! userId) as [u|] eqn:Hu; [ | done ].
    destruct (isVerified u) eqn:Hv; [ | done ].
    destruct (isActive u) eqn:Hact; [ | done ]. cbn [negb].
    destruct (companies db !! user_company u) as [co|] eqn:Hco; [ | done ].
    destruct (company_isActive co) eqn:Hca; [ | done ]. cbn [negb].
    destruct (String.eqb_spec (subscription_status co) "active") as [Hs|];
      [ | done ]. cbn [negb].
    destruct (departments db !! user_department u) as [d|] eqn:Hd;
      [ | done ].
    destruct (dept_isActive d) eqn:Hda; [ | done ].
    cbn [negb answer cookieOps].
    intros [= <- <- <-]. cbn [user_id]. split; [ in_literal | ].
    rewrite Hu. apply checkAccount_admits. by repeat split.
Qed.

Lemma loginUser_admits_witness :
  (answer (loginUser Requests.tokens Sample.db Requests.accounts
             (Some "Almaz@Acme.com") (Some "s3cret!"))
   = Json 200 "Login successful" Sample.manager8
   ↔ bcrypt_compare Requests.tokens "s3cret!" "hash:s3cret!" = true
     ∧ user_id Sample.manager8 = 8%N
     ∧ user_doc Sample.manager8 = Sample.member Manager 2 true
     ∧ isActive (Sample.member Manager 2 true) = true
     ∧ companies Sample.db !! user_company (Sample.member Manager 2 true)
       = Some (company_doc Sample.manager8)
     ∧ company_isActive (company_doc Sample.manager8) = true
     ∧ subscription_status (company_doc Sample.manager8) = "active"
     ∧ departments Sample.db
         !! user_department (Sample.member Manager 2 true)
       = Some (department_doc Sample.manager8)
     ∧ dept_isActive (department_doc Sample.manager8) = true
     ∧ 200 = 200 ∧ "Login successful" = "Login successful")
  ∧ (answer (loginUser Requests.tokens Sample.db Requests.accounts
               (Some "Almaz@Acme.com") (Some "s3cret!"))
     = Json 200 "Login successful" Sample.manager8 →
     cookieOps (loginUser Requests.tokens Sample.db Requests.accounts
                  (Some "Almaz@Acme.com") (Some "s3cret!"))
     = [ cookie "access_token" "token-of-8";
         cookie "refresh_token" "refresh-of-8" ]).
Proof.
  apply (loginUser_admits Requests.tokens Sample.db Requests.accounts
           "Almaz@Acme.com" "s3cret!" 8 (Sample.member Manager 2 true)
           "hash:s3cret!" 200 "Login successful" Sample.manager8);
    [ by vm_compute | discriminate | by vm_compute | by vm_compute
    | by vm_compute ].
Defined.


Lemma issued_tokens_verifyJWT_witness :
  cookie "access_token" "token-of-13"
    ∈ cookieOps (loginUser Requests.tokens Requests.dbUnverified
                   Requests.accounts (Some "kebede@acme.com")
                   (Some "pa55word"))
  ∧ verifyJWT Requests.env Requests.dbUnverified (Some "token-of-13")
    = Respond 401
        (Failure "User account is not verified" "ACCOUNT_NOT_VERIFIED").
Proof.
  refine (proj1 (issued_tokens_verifyJWT Requests.env Requests.tokens
                   Requests.dbUnverified)
            Requests.accounts (Some "kebede@acme.com") (Some "pa55word")
            200 "Login successful" Requests.user13 _ _ _);
    [ by vm_compute | discriminate | reflexivity ].
Defined.

(** ** The pre-save hooks of the department and the user *)

(** The replacement changes neither what is a word character nor what is
    white space, and does nothing to its own result. *)
Lemma toUpperCase_keeps (b : bool) (c : ascii) :
  let c' := if b && is_word c then toUpperCase c else c in
  is_word c' = is_word c ∧ is_space c' = is_space c
  ∧ (if b && is_word c' then toUpperCase c' else c') = c'.
Proof. by destruct b, c as [[] [] [] [] [] [] [] []]. Qed.

Lemma capitalizeWords_idemp (b : bool) (l : list ascii) :
  capitalizeWords b (capitalizeWords b l) = capitalizeWords b l.
Proof.
  revert b. induction l as [|c l IH]; intros b; [ done | ].
  cbn [capitalizeWords].
  destruct (toUpperCase_keeps b c) as (Hw & _ & Hfix).
  cbn zeta in Hw, Hfix. rewrite Hfix, Hw. f_equal. apply IH.
Qed.

Lemma capitalizeWords_length (b : bool) (l : list ascii) :
  length (capitalizeWords b l) = length l.
Proof.
  revert b. induction l as [|c l IH]; intros b; [ done | ].
  cbn [capitalizeWords length]. by rewrite IH.
Qed.

(** The replacement keeps white space where it is. *)
Lemma capitalizeWords_spaces (b : bool) (l : list ascii) :
  is_space <$> capitalizeWords b l = is_space <$> l.
Proof.
  revert b. induction l as [|c l IH]; intros b; [ done | ].
  cbn [capitalizeWords]. rewrite !fmap_cons, IH.
  by destruct (toUpperCase_keeps b c) as (_ & -> & _).
Qed.

(** Trimming looks at the white space only. *)
Lemma trim_start_spaces (l k : list ascii) :
  is_space <$> l = is_space <$> k →
  length (trim_start l) = length (trim_start k)
  ∧ (trim_start l = l → trim_start k = k).
Proof.
  revert k. induction l as [|c l IH]; intros [|d k]; try done.
  rewrite !fmap_cons. intros [= Hc Hl]. cbn [trim_start]. rewrite <- Hc.
  destruct (is_space c) eqn:Hs; [ | by rewrite !length_cons,
    <- (length_fmap is_space l), Hl, length_fmap ].
  destruct (IH k Hl) as [Hlen Hfix]. split; [ done | ].
  intros Heq. exfalso.
  assert (length (trim_start l) ≤ length l) as Hle.
  { clear. induction l as [|c l IH]; [ done | ]. cbn [trim_start].
    destruct (is_space c); cbn [length]; lia. }
  rewrite Heq in Hle. cbn [length] in Hle. lia.
Qed.

Lemma trim_start_fixed (l : list ascii) :
  trim_start (trim_start l) = trim_start l.
Proof.
  induction l as [|c l IH]; [ done | ]. cbn [trim_start].
  destruct (is_space c) eqn:Hs; [ done | ]. cbn [trim_start]. by rewrite Hs.
Qed.

(** The end of a list is not touched by trimming its start, unless all of
    it goes. *)
Lemma trim_start_rev_fixed (l : list ascii) :
  trim_start (rev l) = rev l →
  trim_start (rev (trim_start l)) = rev (trim_start l).
Proof.
  induction l as [|c l IH]; [ done | ]. cbn [trim_start].
  destruct (is_space c) eqn:Hs; [ | done ].
  intros Hfix. apply IH. revert Hfix. cbn [rev].
  destruct (rev l) as [|d k] eqn:Hr; [ cbn; by rewrite Hs | ].
  cbn [app trim_start]. destruct (is_space d); [ | done ].
  intros Heq. exfalso.
  assert (∀ k, length (trim_start k) ≤ length k) as Hle.
  { clear. intros k. induction k as [|c l IH]; [ done | ]. cbn [trim_start].
    destruct (is_space c); cbn [length]; lia. }
  specialize (Hle (k ++ [c])). rewrite Heq in Hle. cbn [length] in Hle. lia.
Qed.

Lemma fmap_rev_spaces (l : list ascii) :
  is_space <$> rev l = rev (is_space <$> l).
Proof.
  induction l as [|c l IH]; [ done | ]. cbn [rev].
  by rewrite fmap_app, IH, fmap_cons.
Qed.

Lemma length_string_of_list_ascii (l : list ascii) :
  String.length (String.string_of_list_ascii l) = length l.
Proof. induction l as [|c l IH]; [ done | ]. cbn. by rewrite IH. Qed.

(** What [trim] gives neither starts nor ends with white space. *)
Lemma trim_tidy (l : list ascii) :
  trim_start (rev (trim_start (rev (trim_start l))))
  = rev (trim_start (rev (trim_start l)))
  ∧ trim_start (rev (rev (trim_start (rev (trim_start l)))))
    = rev (rev (trim_start (rev (trim_start l)))).
Proof.
  split.
  - apply trim_start_rev_fixed. rewrite rev_involutive.
    apply trim_start_fixed.
  - rewrite rev_involutive. apply trim_start_fixed.
Qed.

(** A list that neither starts nor ends with white space is trimmed
    already, and so is every list with white space in the same places. *)
Lemma tidy_trimmed (k k' : list ascii) :
  is_space <$> k' = is_space <$> k →
  trim_start k' = k' → trim_start (rev k') = rev k' →
  rev (trim_start (rev (trim_start k))) = k.
Proof.
  intros Hs H1 H2.
  destruct (trim_start_spaces k' k Hs) as [_ Hk]. rewrite (Hk H1).
  assert (is_space <$> rev k' = is_space <$> rev k) as Hr
    by (by rewrite !fmap_rev_spaces, Hs).
  destruct (trim_start_spaces (rev k') (rev k) Hr) as [_ Hk'].
  rewrite (Hk' H2). apply rev_involutive.
Qed.

(** X23: the hooks that format the names of a department and of a user
    are idempotent.  [capitalize] trims its argument and puts the first
    letter of every word into upper case; applied to its own result it
    changes nothing, so a document that is saved again keeps its names.
    The result neither starts nor ends with white space, and has the
    length of the trimmed argument. *)
Theorem capitalize_idempotent (s : string) :
  capitalize (capitalize s) = capitalize s
  ∧ trim (capitalize s) = capitalize s
  ∧ String.length (capitalize s) = String.length (trim s)
  ∧ (∀ m1 m2 d d',
       departmentPreSave true true d = inr d' →
       departmentPreSave m1 m2 d' = inr d')
  ∧ (∀ m1 m2 u,
       userPreSave m1 m2 (userPreSave true true u) = userPreSave true true u).
Proof.
  assert (∀ s, trim (capitalize s) = capitalize s) as Htrim.
  { intros s0. unfold capitalize, trim at 1.
    rewrite String.list_ascii_of_string_of_list_ascii. f_equal.
    unfold trim. rewrite String.list_ascii_of_string_of_list_ascii.
    destruct (trim_tidy (String.list_ascii_of_string s0)) as [H1 H2].
    eapply tidy_trimmed; [ | exact H1 | exact H2 ].
    symmetry. apply capitalizeWords_spaces. }
  assert (∀ s, capitalize (capitalize s) = capitalize s) as Hidem.
  { intros s0. unfold capitalize at 1. rewrite Htrim. unfold capitalize.
    rewrite String.list_ascii_of_string_of_list_ascii.
    by rewrite capitalizeWords_idemp. }
  split; [ apply Hidem | ]. split; [ apply Htrim | ]. split.
  { unfold capitalize.
    rewrite length_string_of_list_ascii, capitalizeWords_length.
    by rewrite <- length_string_of_list_ascii,
      String.string_of_list_ascii_of_string. }
  split.
  - intros m1 m2 d d'. unfold departmentPreSave. step.
    destruct (dept_description d) as [ds|]; [ | done ]. step.
    intros [= <-]. cbn [dept_name dept_description].
    rewrite !Hidem. by destruct m1, m2.
  - intros m1 m2 u. unfold userPreSave. cbn [firstName lastName].
    rewrite !Hidem. by destruct m1, m2.
Qed.

(** ** The socket server: the token of a handshake *)

Lemma append_cons (c : ascii) (a b : string) :
  String c a +:+ b = String c (a +:+ b).
Proof. done. Qed.

Lemma list_ascii_of_append (a b : string) :
  String.list_ascii_of_string (a +:+ b)
  = String.list_ascii_of_string a ++ String.list_ascii_of_string b.
Proof.
  induction a as [|c a IH]; [ done | ].
  rewrite append_cons. cbn [String.list_ascii_of_string app]. by rewrite IH.
Qed.

Lemma split_cons (sep : ascii) (s : string) : ∃ w ws, split sep s = w :: ws.
Proof.
  induction s as [|c s (w & ws & IH)]; [ by eexists _, _ | ].
  cbn [split]. destruct (Ascii.eqb c sep); [ by eexists _, _ | ].
  rewrite IH. by eexists _, _.
Qed.

(** Up to the first separator. *)
Lemma split_append (sep : ascii) (a b : string) :
  has_char sep a = false →
  split sep (a +:+ String sep b) = a :: split sep b.
Proof.
  unfold has_char. induction a as [|c a IH].
  - intros _. change ("" +:+ String sep b) with (String sep b).
    cbn [split]. by rewrite Ascii.eqb_refl.
  - cbn [String.list_ascii_of_string existsb].
    intros [Hc Ha]%orb_false_iff. rewrite append_cons. cbn [split].
    rewrite Ascii.eqb_sym, Hc. by rewrite IH.
Qed.

Lemma split_whole (sep : ascii) (a : string) :
  has_char sep a = false → split sep a = [a].
Proof.
  unfold has_char. induction a as [|c a IH]; [ done | ].
  cbn [String.list_ascii_of_string existsb].
  intros [Hc Ha]%orb_false_iff. cbn [split].
  rewrite Ascii.eqb_sym, Hc. by rewrite IH.
Qed.

(** A string with a separator splits into two parts at least. *)
Lemma split_second (sep : ascii) (s : string) :
  has_char sep s = true → is_Some (split sep s !! 1%nat).
Proof.
  unfold has_char. induction s as [|c s IH]; [ done | ].
  cbn [String.list_ascii_of_string existsb split].
  rewrite Ascii.eqb_sym.
  destruct (Ascii.eqb c sep).
  - intros _. destruct (split_cons sep s) as (w & ws & ->). by eexists.
  - cbn [orb]. intros Hs. destruct (IH Hs) as [v Hv].
    destruct (split sep s) as [|w ws]; [ done | ]. by exists v.
Qed.

(** The parts of a header are what was joined. *)
Lemma split_concat (sep : ascii) (c : string) (cs : list string) :
  Forall (λ x, has_char sep x = false) (c :: cs) →
  split sep (String.concat (String sep "") (c :: cs)) = c :: cs.
Proof.
  revert c. induction cs as [|d cs IH]; intros c.
  - intros [Hc _]%Forall_cons. by apply split_whole.
  - intros [Hc Hcs]%Forall_cons.
    change (String.concat (String sep "") (c :: d :: cs))
      with (c +:+ String sep "" +:+ String.concat (String sep "") (d :: cs)).
    change (String sep "" +:+ ?x) with (String sep x).
    rewrite split_append by done. f_equal. by apply IH.
Qed.

(** Trimming takes white space only. *)
Lemma trim_start_sublist (l : list ascii) (c : ascii) :
  c ∈ trim_start l → c ∈ l.
Proof.
  induction l as [|d l IH]; [ done | ]. cbn [trim_start].
  destruct (is_space d); [ | done ].
  intros Hc. by apply list_elem_of_further, IH.
Qed.

Lemma trim_start_app (a b : list ascii) (c : ascii) :
  is_space c = false →
  trim_start (a ++ c :: b) = trim_start a ++ c :: b.
Proof.
  intros Hc. induction a as [|d a IH].
  - cbn. by rewrite Hc.
  - cbn [app trim_start]. by destruct (is_space d).
Qed.

Lemma trim_start_spaces_app (a b : list ascii) :
  forallb is_space a = true → trim_start (a ++ b) = trim_start b.
Proof.
  induction a as [|d a IH]; [ done | ]. cbn [forallb app trim_start].
  intros [-> Ha]%andb_true_iff. by apply IH.
Qed.

Lemma has_char_elem_of (c : ascii) (s : string) :
  has_char c s = true ↔ c ∈ String.list_ascii_of_string s.
Proof.
  unfold has_char. rewrite existsb_exists. split.
  - intros (x & Hx & ->%Ascii.eqb_eq). by apply list_elem_of_In.
  - intros Hc. exists c. split; [ by apply list_elem_of_In | ].
    apply Ascii.eqb_refl.
Qed.

Lemma startsWith_elem_of (s p : string) (c : ascii) :
  startsWith s p = true →
  c ∈ String.list_ascii_of_string p → c ∈ String.list_ascii_of_string s.
Proof.
  revert s. induction p as [|a p IH]; intros s; [ by intros _ ?%elem_of_nil | ].
  destruct s as [|b s]; [ done | ]. cbn [startsWith].
  intros [->%Ascii.eqb_eq Hs]%andb_true_iff.
  cbn [String.list_ascii_of_string].
  intros [->|Hc]%elem_of_cons; [ apply list_elem_of_here | ].
  by apply list_elem_of_further, IH.
Qed.

(** The cookie that [extractToken] picks has a value to read. *)
Lemma tokenCookie_has_value (c : string) :
  startsWith (trim c) "access_token=" = true → has_char "=" c = true.
Proof.
  intros Hs. apply has_char_elem_of.
  assert ("="%char ∈ String.list_ascii_of_string (trim c)) as Hin.
  { apply (startsWith_elem_of _ "access_token=" _ Hs). cbn. in_literal. }
  unfold trim in Hin.
  rewrite String.list_ascii_of_string_of_list_ascii in Hin.
  apply list_elem_of_In, in_rev, list_elem_of_In, trim_start_sublist in Hin.
  apply list_elem_of_In, in_rev, list_elem_of_In in Hin.
  by apply trim_start_sublist.
Qed.

Lemma append_assoc (a b c : string) : (a +:+ b) +:+ c = a +:+ (b +:+ c).
Proof.
  induction a as [|x a IH]; [ done | ]. rewrite !append_cons. by rewrite IH.
Qed.

Lemma has_char_append (c : ascii) (a b : string) :
  has_char c (a +:+ b) = has_char c a || has_char c b.
Proof. unfold has_char. by rewrite list_ascii_of_append, existsb_app. Qed.

Lemma all_space_has_char (c : ascii) (pad : string) :
  is_space c = false → all_space pad = true → has_char c pad = false.
Proof.
  unfold all_space, has_char. intros Hc.
  induction (String.list_ascii_of_string pad) as [|d l IH]; [ done | ].
  cbn [forallb existsb]. intros [Hd Hl]%andb_true_iff.
  rewrite (IH Hl), orb_false_r. apply Ascii.eqb_neq. by intros <-; congruence.
Qed.

Lemma find_skip {A} (f : A → bool) (before after : list A) (x : A) :
  Forall (λ y, f y = false) before → f x = true →
  List.find f (before ++ x :: after) = Some x.
Proof.
  intros Hb Hx. induction Hb as [|y before Hy _ IH]; cbn [app List.find].
  - by rewrite Hx.
  - by rewrite Hy.
Qed.

Lemma startsWith_append (p s : string) : startsWith (p +:+ s) p = true.
Proof.
  induction p as [|c p IH]; [ by destruct s | ].
  rewrite append_cons. cbn [startsWith]. by rewrite Ascii.eqb_refl.
Qed.

Lemma string_of_app (a b : list ascii) :
  String.string_of_list_ascii (a ++ b)
  = String.string_of_list_ascii a +:+ String.string_of_list_ascii b.
Proof.
  induction a as [|c a IH]; [ done | ].
  cbn [app String.string_of_list_ascii]. by rewrite append_cons, IH.
Qed.

(** The cookie access_token, written after white space, is one that
    [extractToken] looks for. *)
Lemma tokenCookie_found (pad tok : string) :
  all_space pad = true →
  startsWith (trim (pad +:+ "access_token=" +:+ tok)) "access_token=" = true.
Proof.
  intros Hpad. unfold trim. rewrite !list_ascii_of_append.
  rewrite trim_start_spaces_app by done.
  change (String.list_ascii_of_string "access_token=")
    with (String.list_ascii_of_string "access_token" ++ ["="%char]).
  change (String.list_ascii_of_string "access_token")
    with ("a"%char :: String.list_ascii_of_string "ccess_token").
  cbn [app trim_start is_space nat_of_ascii].
  replace (is_space "a") with false by done.
  set (name := "a"%char :: String.list_ascii_of_string "ccess_token").
  change ("a"%char :: String.list_ascii_of_string "ccess_token" ++ ["="%char]
            ++ String.list_ascii_of_string tok)
    with (name ++ "="%char :: String.list_ascii_of_string tok).
  change ("a"%char :: (String.list_ascii_of_string "ccess_token"
            ++ ["="%char]) ++ String.list_ascii_of_string tok)
    with ((name ++ ["="%char]) ++ String.list_ascii_of_string tok).
  rewrite <- app_assoc. cbn [app].
  rewrite rev_app_distr. cbn [rev]. rewrite <- app_assoc. cbn [app].
  rewrite trim_start_app by done.
  rewrite rev_app_distr. cbn [rev]. rewrite rev_involutive.
  rewrite <- !app_assoc. cbn [app].
  rewrite string_of_app.
  change (String.string_of_list_ascii name) with "access_token".
  change ("access_token" +:+ ?x) with
    ("access_token=" +:+ String.string_of_list_ascii
        (rev (trim_start (rev (String.list_ascii_of_string tok))))).
  apply startsWith_append.
Qed.

(** X24: [extractToken] never throws: the cookie it picks always has a
    value to read.  And it finds the token: when the header is a list of
    cookies joined by semicolons, in which the cookie access_token, written
    after any white space, comes after cookies of other names, the result
    is the value of that cookie, trimmed, for every value without a
    semicolon and an equals sign. *)
Theorem extractToken_finds :
  (∀ cookieHeader, ∃ r, extractToken cookieHeader = inr r)
  ∧ (∀ before after pad tok,
       Forall (λ c, otherCookie c = true) before →
       Forall (λ c, has_char ";" c = false) after →
       all_space pad = true →
       has_char ";" tok = false → has_char "=" tok = false →
       extractToken
         (Some (String.concat ";"
                  (before ++ (pad +:+ "access_token=" +:+ tok) :: after)))
       = inr (Some (trim tok))).
Proof.
  split.
  - intros cookieHeader. unfold extractToken.
    destruct (negb (truthy_str cookieHeader)); [ by eexists | ].
    destruct (List.find _ _) as [tokenCookie|] eqn:Hf; [ | by eexists ].
    apply find_some in Hf as [_ Hs].
    destruct (split_second "=" tokenCookie (tokenCookie_has_value _ Hs))
      as [v ->].
    by eexists.
  - intros before after pad tok Hb Ha Hpad Hsemi Heq.
    set (piece := pad +:+ "access_token=" +:+ tok).
    assert (has_char ";" piece = false) as Hpiece.
    { unfold piece. rewrite !has_char_append, Hsemi.
      by rewrite (all_space_has_char ";" pad). }
    assert (has_char "=" piece = true) as Hval.
    { unfold piece. rewrite !has_char_append.
      replace (has_char "=" "access_token=") with true by done.
      by rewrite orb_true_r. }
    assert (∃ c cs, before ++ piece :: after = c :: cs
                    ∧ Forall (λ x, has_char ";" x = false) (c :: cs))
      as (c & cs & Hcs & Hall).
    { exists (hd piece (before ++ piece :: after)),
             (tl (before ++ piece :: after)).
      split; [ by destruct before | ].
      assert (Forall (λ x, has_char ";" x = false)
                (before ++ piece :: after)) as Hall.
      { apply Forall_app. split.
        - eapply Forall_impl; [ exact Hb | ]. intros x Hx.
          unfold otherCookie in Hx.
          apply andb_true_iff in Hx as [Hx _]. by apply negb_true_iff.
        - by apply Forall_cons. }
      by destruct before. }
    unfold extractToken.
    pose proof (split_concat ";" c cs Hall) as Hsplit.
    change (String ";" "") with ";"%string in Hsplit.
    rewrite <- Hcs in Hsplit at 1 2.
    assert (String.concat ";" (before ++ piece :: after) ≠ "") as Hne.
    { intros Hempty. rewrite Hempty in Hsplit. cbn [split] in Hsplit.
      destruct before as [|b before]; [ | by destruct before ].
      injection Hsplit as <-. discriminate. }
    cbn [truthy_str default from_option id].
    apply String.eqb_neq in Hne. rewrite Hne. cbn [negb].
    rewrite Hsplit, (find_skip _ before after piece).
    + unfold piece at 1.
      replace "access_token=" with ("access_token" +:+ "=") by done.
      rewrite <- !append_assoc, append_assoc.
      change ("=" +:+ tok) with (String "=" tok).
      rewrite split_append, (split_whole _ tok) by
        (first [ done
               | rewrite has_char_append;
                 by rewrite (all_space_has_char "=" pad) ]).
      done.
    + eapply Forall_impl; [ exact Hb | ]. intros x Hx.
      unfold otherCookie in Hx.
      apply andb_true_iff in Hx as [_ Hx]. by apply negb_true_iff.
    + by apply tokenCookie_found.
Qed.

Lemma extractToken_finds_witness :
  extractToken (Some "theme=dark; access_token=abc.def.ghi; lang=am")
  = inr (Some "abc.def.ghi").
Proof.
  refine (proj2 extractToken_finds ["theme=dark"] [" lang=am"] " "
            "abc.def.ghi" _ _ _ _ _).
  - repeat (apply Forall_cons_2; [ by vm_compute | ]). apply Forall_nil_2.
  - repeat (apply Forall_cons_2; [ by vm_compute | ]). apply Forall_nil_2.
  - reflexivity.
  - reflexivity.
  - reflexivity.
Defined.

(** X25: [socketAuth] never lets a handshake through.  Whatever the cookie
    header, the token and the account, the function ends without calling
    [next()]: each of its ways out goes through [res] or [req], names that
    the function does not bind, and so does its [catch]; the promise is
    rejected with a ReferenceError. *)
Theorem socketAuth_never_connects (E : Env) (db : Db)
    (cookieHeader : option string) :
  socketAuth E db cookieHeader = Rejected ReferenceError
  ∧ ∀ user, socketAuth E db cookieHeader ≠ Connected user.
Proof.
  assert (socketAuth E db cookieHeader = Rejected ReferenceError) as H;
    [ | by rewrite H ].
  unfold socketAuth.
  destruct (extractToken cookieHeader) as [e|token]; [ done | ]. step.
  destruct (negb (truthy_str token)); [ done | ].
  destruct (jwt_verify E _) as [userId| | |]; try done.
  destruct (users db !! userId) as [u|]; [ | done ].
  destruct (negb (isVerified u)); [ done | ].
  destruct (negb (isActive u)); [ done | ].
  destruct (companies db !! user_company u) as [c|]; [ | done ].
  destruct (negb (company_isActive c)); [ done | ].
  destruct (negb (String.eqb _ _)); [ done | ].
  destruct (departments db !! user_department u) as [d|]; [ | done ].
  by destruct (negb (dept_isActive d)).
Qed.
